(** * streamlit-multipage: the state manager and the page router

    A shallow embedding of [src/streamlit_multipage/multipage.py].

    The state manager pickles one Python object graph into the cache file
    and unpickles it again at the start of every operation.  Dictionaries
    are mutable objects that the code shares freely ([save] binds the very
    same [variables] object under every namespace, and [load] copies the
    values of the "global" namespace to the top level), and pickling
    preserves that sharing.  The embedding therefore keeps an explicit
    heap of dictionary objects: a value is a scalar or a reference into
    the heap, and every operation threads the heap through. *)

From Stdlib Require Import ZArith Lia Ascii String.
From stdpp Require Import base option list strings.

(** ** Exceptions and fallible computations *)

(** The Python exceptions the modelled code can raise;
    [StreamlitAPIException] is the one that the framework raises for
    [columns(0)].  [BadRef] is not a Python exception: it marks a
    reference that points outside the heap, which no Python program can
    build. *)
Inductive exn :=
| KeyError | TypeError | AttributeError | ValueError | IndexError
| EOFError | UnpicklingError | FileNotFoundError | StreamlitAPIException
| BadRef.

Inductive res (A : Type) :=
| Ok (a : A)
| Raise (e : exn).
Arguments Ok {A} a.
Arguments Raise {A} e.

#[global] Instance res_ret : MRet res := fun A a => Ok a.
#[global] Instance res_bind : MBind res := fun A B f m =>
  match m with
  | Ok a => f a
  | Raise e => Raise e
  end.

#[global] Instance exn_eq_dec : EqDecision exn.
Proof. solve_decision. Defined.

(** [try: body except KeyError: ...] around a statement that updates the
    heap: a [KeyError] leaves the heap as it was before the statement,
    every other exception propagates. *)
Definition except_KeyError {A} (body : res A) (fallback : A) : res A :=
  match body with
  | Raise KeyError => Ok fallback
  | other => other
  end.

(** ** Values, dictionaries and the heap *)

Abbreviation loc := nat (only parsing).

(** [Any], as far as it is modelled: the scalars [None], [bool], [int],
    [str], and dictionaries with string keys, held by reference.  All of
    them pickle. *)
Inductive value :=
| VNone
| VBool (b : bool)
| VInt (z : Z)
| VStr (s : string)
| VRef (l : loc).

#[global] Instance value_eq_dec : EqDecision value.
Proof. solve_decision. Defined.

(** A dictionary object.  Python dictionaries keep insertion order, so the
    items are an association list; [dflt] tells a [defaultdict(dict)] from
    a plain [dict]. *)
Record dict := Dict {
  dflt : bool;
  items : list (string * value)
}.

#[global] Instance dict_eq_dec : EqDecision dict.
Proof. solve_decision. Defined.

Abbreviation heap := (list dict) (only parsing).

Definition empty_defaultdict : dict := Dict true [].
Definition empty_dict : dict := Dict false [].

(** *** Association lists with Python's dictionary discipline *)

Fixpoint dict_get (k : string) (it : list (string * value)) : option value :=
  match it with
  | [] => None
  | (k', v) :: it' => if decide (k = k') then Some v else dict_get k it'
  end.

Definition dict_mem (k : string) (it : list (string * value)) : bool :=
  match dict_get k it with Some _ => true | None => false end.

(** [d[k] = v]: an existing key keeps its position, a new key goes last. *)
Fixpoint dict_set (k : string) (v : value) (it : list (string * value))
  : list (string * value) :=
  match it with
  | [] => [(k, v)]
  | (k', v') :: it' =>
      if decide (k = k') then (k, v) :: it' else (k', v') :: dict_set k v it'
  end.

(** [del d[k]] on a key that is present. *)
Fixpoint dict_remove (k : string) (it : list (string * value))
  : list (string * value) :=
  match it with
  | [] => []
  | (k', v') :: it' =>
      if decide (k = k') then it' else (k', v') :: dict_remove k it'
  end.

(** [d.update(other)]: every item of [other] is assigned in turn. *)
Definition dict_update (it other : list (string * value))
  : list (string * value) :=
  fold_left (fun acc kv => dict_set kv.1 kv.2 acc) other it.

Definition dict_keys (it : list (string * value)) : list string := it.*1.

(** *** Heap access *)

Definition heap_get (h : heap) (l : loc) : res dict :=
  match h !! l with
  | Some d => Ok d
  | None => Raise BadRef
  end.

Definition heap_set_items (h : heap) (l : loc) (d : dict)
    (it : list (string * value)) : heap :=
  <[l := Dict (dflt d) it]> h.

(** A new object is placed after the existing ones. *)
Definition heap_alloc (h : heap) (d : dict) : heap * value :=
  (h ++ [d], VRef (length h)).

(** *** Python's operators on values *)

(** [bool(v)], as used by [if not v] and [and]. *)
Definition py_truthy (h : heap) (v : value) : bool :=
  match v with
  | VNone => false
  | VBool b => b
  | VInt z => negb (z =? 0)%Z
  | VStr s => negb (String.eqb s "")
  | VRef l =>
      match h !! l with
      | Some d => match items d with [] => false | _ => true end
      | None => true
      end
  end.

Fixpoint is_substring (k s : string) : bool :=
  if String.prefix k s then true
  else match s with
       | EmptyString => false
       | String _ s' => is_substring k s'
       end.

(** [k in v] for a string [k]: key membership in a dictionary, substring
    test in a string, [TypeError] on the other scalars. *)
Definition py_contains (h : heap) (v : value) (k : string) : res bool :=
  match v with
  | VRef l => d ← heap_get h l; Ok (dict_mem k (items d))
  | VStr s => Ok (is_substring k s)
  | _ => Raise TypeError
  end.

(** [v[k]] for a string [k].  A [defaultdict(dict)] stores and returns a
    new empty dictionary for a missing key. *)
Definition py_getitem (h : heap) (v : value) (k : string)
  : res (heap * value) :=
  match v with
  | VRef l =>
      d ← heap_get h l;
      match dict_get k (items d) with
      | Some x => Ok (h, x)
      | None =>
          if dflt d then
            let '(h1, x) := heap_alloc h empty_dict in
            Ok (heap_set_items h1 l d (dict_set k x (items d)), x)
          else Raise KeyError
      end
  | _ => Raise TypeError
  end.

(** [v.get(k, default)]. *)
Definition py_get (h : heap) (v : value) (k : string) (default : value)
  : res value :=
  match v with
  | VRef l =>
      d ← heap_get h l;
      Ok (match dict_get k (items d) with Some x => x | None => default end)
  | _ => Raise AttributeError
  end.

(** [v[k] = x]. *)
Definition py_setitem (h : heap) (v : value) (k : string) (x : value)
  : res heap :=
  match v with
  | VRef l => d ← heap_get h l; Ok (heap_set_items h l d (dict_set k x (items d)))
  | _ => Raise TypeError
  end.

(** [del v[k]]. *)
Definition py_delitem (h : heap) (v : value) (k : string) : res heap :=
  match v with
  | VRef l =>
      d ← heap_get h l;
      if dict_mem k (items d)
      then Ok (heap_set_items h l d (dict_remove k (items d)))
      else Raise KeyError
  | _ => Raise TypeError
  end.

(** [v.update(other)].  Only dictionaries have the method.  The argument
    is a mapping, or an iterable of pairs: the empty string is an empty
    iterable, a non-empty string yields one-character items
    ([ValueError]), the other scalars are not iterable.  Updating a
    dictionary with itself changes nothing. *)
Definition py_update (h : heap) (v other : value) : res heap :=
  match v with
  | VRef l =>
      d ← heap_get h l;
      match other with
      | VRef l' =>
          o ← heap_get h l';
          if decide (l = l') then Ok h
          else Ok (heap_set_items h l d (dict_update (items d) (items o)))
      | VStr s => if String.eqb s "" then Ok h else Raise ValueError
      | _ => Raise TypeError
      end
  | _ => Raise AttributeError
  end.

(** The attribute [v.update]: dictionaries have it, the scalars do not. *)
Definition py_update_method (v : value) : res unit :=
  match v with
  | VRef _ => Ok tt
  | _ => Raise AttributeError
  end.

(** [v.keys()], as a list. *)
Definition py_keys (h : heap) (v : value) : res (list string) :=
  match v with
  | VRef l => d ← heap_get h l; Ok (dict_keys (items d))
  | _ => Raise AttributeError
  end.

(** *** [int(v)] *)

Definition digit_of (c : ascii) : option Z :=
  let n := nat_of_ascii c in
  if (48 <=? n)%nat && (n <=? 57)%nat then Some (Z.of_nat (n - 48)) else None.

(** The white space that [int] strips, among the characters below 256:
    the ASCII white space, NEL (133) and the no-break space (160). *)
Definition is_space (c : ascii) : bool :=
  let n := nat_of_ascii c in
  ((9 <=? n)%nat && (n <=? 13)%nat) || (n =? 32)%nat
  || (n =? 133)%nat || (n =? 160)%nat.

(** Digits with single underscores between them; [acc] is the number read
    so far, [after_digit] tells whether the previous character was a
    digit. *)
Fixpoint parse_digits (s : string) (acc : Z) (after_digit : bool) : option Z :=
  match s with
  | EmptyString => if after_digit then Some acc else None
  | String c s' =>
      match digit_of c with
      | Some d => parse_digits s' (10 * acc + d)%Z true
      | None =>
          if Ascii.eqb c "_" && after_digit then
            match s' with
            | EmptyString => None
            | String c' _ =>
                match digit_of c' with
                | Some _ => parse_digits s' acc false
                | None => None
                end
            end
          else None
      end
  end.

Fixpoint lstrip (s : string) : string :=
  match s with
  | String c s' => if is_space c then lstrip s' else s
  | EmptyString => s
  end.

Definition rstrip (s : string) : string :=
  String.rev (lstrip (String.rev s)).

(** [int] refuses a literal of more digits than
    [sys.get_int_max_str_digits()], 4300 unless the program changes it
    (this one does not). *)
Definition max_str_digits : nat := 4300.

Fixpoint count_digits (s : string) : nat :=
  match s with
  | EmptyString => 0
  | String c s' =>
      match digit_of c with
      | Some _ => S (count_digits s')
      | None => count_digits s'
      end
  end.

(** A decimal literal: surrounding white space, an optional sign,
    digits.  A string of the model is a sequence of characters below 256,
    among which the decimal digits are the ASCII ones. *)
Definition parse_int (s : string) : option Z :=
  let s := rstrip (lstrip s) in
  if (max_str_digits <? count_digits s)%nat then None
  else match s with
       | String "-" s' => Z.opp <$> parse_digits s' 0 false
       | String "+" s' => parse_digits s' 0 false
       | s' => parse_digits s' 0 false
       end.

Definition py_int (v : value) : res Z :=
  match v with
  | VInt z => Ok z
  | VBool b => Ok (if b then 1 else 0)%Z
  | VStr s => match parse_int s with Some z => Ok z | None => Raise ValueError end
  | VNone | VRef _ => Raise TypeError
  end.

(** *** [l.index(x)]: the first position of [x] *)

Fixpoint py_list_index (x : string) (l : list string) : option nat :=
  match l with
  | [] => None
  | y :: l' => if decide (x = y) then Some 0 else S <$> py_list_index x l'
  end.

(** *** Sequence indexing: [l[i]] with Python's negative indices *)

Definition py_list_getitem {A} (l : list A) (i : Z) : res A :=
  let n := Z.of_nat (length l) in
  let j := if (i <? 0)%Z then (n + i)%Z else i in
  if (j <? 0)%Z then Raise IndexError
  else match l !! Z.to_nat j with
       | Some a => Ok a
       | None => Raise IndexError
       end.

(** ** Pickling *)

(** The cache file, by what [pickling.load(open(cache_file, 'rb'))]
    does with it; the bytes themselves are not modelled.  A pickle holds
    the object graph reachable from its root, with its sharing: here the
    heap of the dumping process and the root value.  The reader raises
    [EOFError] on a file of no bytes, and on few others; on most files
    that are cut off, as on damaged ones, it raises [UnpicklingError]. *)
Inductive cache_file :=
| Missing                           (* the file does not exist *)
| EndOfFile                         (* the reader raises EOFError: an empty file *)
| Corrupt                           (* the reader raises UnpicklingError *)
| Pickled (h : heap) (root : value).

(** Unpickling builds new objects: the stored heap is appended to the
    heap of the loading process, its references moved accordingly. *)
Definition shift_value (k : nat) (v : value) : value :=
  match v with
  | VRef l => VRef (k + l)
  | _ => v
  end.

Definition shift_dict (k : nat) (d : dict) : dict :=
  Dict (dflt d) (prod_map id (shift_value k) <$> items d).

Definition shift_heap (k : nat) (h : heap) : heap := shift_dict k <$> h.

(** ** The state manager *)

(** [hp] is the heap of the running script when the method is called.
    The cache file name is taken to be non-empty, as it is by default
    ("data.pkl") and after [MultiPage.run] ("<session id>.pkl"). *)
Module StateManager.

(** [_save] opens the file for writing and pickles [data] into it.  Every
    value of the model pickles, so the call cannot fail here; on an object
    that does not pickle (a function, say) [pickling.dump] raises after
    [open(..., 'wb')] has emptied the file: such objects, and that
    failure, are outside the model. *)
Definition _save (h : heap) (data : value) : cache_file := Pickled h data.

Definition _load (hp : heap) (f : cache_file) : res (heap * value) :=
  match f with
  | Missing => Raise FileNotFoundError
  | EndOfFile => Ok (heap_alloc hp empty_defaultdict)
  | Corrupt => Raise UnpicklingError
  | Pickled fh root =>
      Ok (hp ++ shift_heap (length hp) fh, shift_value (length hp) root)
  end.

(** In [data.update(data["global"])] the method is looked up before the
    argument is evaluated. *)
Definition load (hp : heap) (f : cache_file) : res (heap * value) :=
  match f with
  | Missing => Ok (heap_alloc hp empty_defaultdict)
  | _ =>
      '(h, data) ← _load hp f;
      c ← py_contains h data "global";
      if c : bool then
        _ ← py_update_method data;
        '(h1, g) ← py_getitem h data "global";
        h2 ← py_update h1 data g;
        Ok (h2, data)
      else Ok (h, data)
  end.

(** [{namespace: variables for namespace in namespaces}] *)
Definition new_data (variables : value) (namespaces : list string)
  : list (string * value) :=
  fold_left (fun acc namespace => dict_set namespace variables acc)
            namespaces [].

(** The body of the loop of [save]: an existing namespace is updated
    in place, a new one is bound to [variables]. *)
Definition save_item (namespace : string) (variables : value) (data : value)
    (h : heap) : res heap :=
  c ← py_contains h data namespace;
  if c : bool then
    '(h0, o) ← py_getitem h data namespace;
    py_update h0 o variables
  else py_setitem h data namespace variables.

(** The loop of [save] over [new_data.items()]. *)
Fixpoint save_items (todo : list (string * value)) (data : value) (h : heap)
  : res heap :=
  match todo with
  | [] => Ok h
  | (namespace, variables) :: rest =>
      h1 ← save_item namespace variables data h;
      save_items rest data h1
  end.

Definition save (hp : heap) (variables : value)
    (namespaces : option (list string)) (f : cache_file) : res cache_file :=
  if negb (py_truthy hp variables) then Ok f
  else
    let namespaces := default ["global"] namespaces in
    '(h, data) ← load hp f;
    h1 ← save_items (new_data variables namespaces) data h;
    Ok (_save h1 data).

Definition change_page (hp : heap) (page : Z) (f : cache_file)
  : res cache_file :=
  let '(h, variables) :=
    heap_alloc hp (Dict false [("current_page", VInt page)]) in
  save h variables (Some ["global"]) f.

Definition read_current_page (hp : heap) (f : cache_file) : res Z :=
  '(h, loaded) ← load hp f;
  '(h1, data) ← py_getitem h loaded "global";
  c ← py_contains h1 data "current_page";
  if c : bool then
    '(_, page) ← py_getitem h1 data "current_page";
    py_int page
  else Ok 0%Z.

Definition is_logged_in (hp : heap) (f : cache_file) : res bool :=
  '(h, data) ← load hp f;
  session ← py_get h data "session" (VStr "");
  c ← py_contains h session "username";
  if c : bool then
    '(h', data') ← load hp f;
    session' ← py_get h' data' "session" (VStr "");
    py_contains h' session' "token"
  else Ok false.

(** [for namespace in ...: try: del data[namespace] except KeyError: ...] *)
Fixpoint del_namespaces (namespaces : list string) (data : value) (h : heap)
  : res heap :=
  match namespaces with
  | [] => Ok h
  | namespace :: rest =>
      h1 ← except_KeyError (py_delitem h data namespace) h;
      del_namespaces rest data h1
  end.

(** [try: del data[namespace][variable] except KeyError: ...] *)
Definition del_variable (namespace variable : string) (data : value)
    (h : heap) : res heap :=
  match py_getitem h data namespace with
  | Ok (h1, o) => except_KeyError (py_delitem h1 o variable) h1
  | Raise KeyError => Ok h
  | Raise e => Raise e
  end.

Fixpoint del_variables (namespace : string) (variables : list string)
    (data : value) (h : heap) : res heap :=
  match variables with
  | [] => Ok h
  | variable :: rest =>
      h1 ← del_variable namespace variable data h;
      del_variables namespace rest data h1
  end.

Fixpoint del_variables_everywhere (namespaces variables : list string)
    (data : value) (h : heap) : res heap :=
  match namespaces with
  | [] => Ok h
  | namespace :: rest =>
      h1 ← del_variables namespace variables data h;
      del_variables_everywhere rest variables data h1
  end.

Definition nonempty {A} (l : option (list A)) : bool :=
  match l with
  | Some (_ :: _) => true
  | _ => false
  end.

(** [variables] stands for the keys that iterating the argument
    yields; only they and its truth value are used.  [temp_data] is a
    deep copy of [data] of which only the keys are read. *)
Definition clear_cache (hp : heap) (variables namespaces : option (list string))
    (all_variables : bool) (f : cache_file) : res cache_file :=
  '(h, data) ← load hp f;
  if all_variables then
    temp_keys ← py_keys h data;
    h1 ← del_namespaces temp_keys data h;
    let _ := _save h1 data in
    Ok Missing
  else if nonempty namespaces && negb (nonempty variables) then
    h1 ← del_namespaces (default [] namespaces) data h;
    Ok (_save h1 data)
  else if nonempty variables then
    temp_keys ← py_keys h data;
    h1 ← del_variables_everywhere temp_keys (default [] variables) data h;
    Ok (_save h1 data)
  else Ok (_save h data).

End StateManager.

(** ** The page router *)

Module MultiPage.
Section Router.

(** The callables registered as pages. *)
Context {F : Type}.

Record App := { name : string; func : F }.

Record t := {
  apps : list App;
  initial_page : option App;
  header : option App;
  footer : option App;
  navbar_extra : option App
}.

(** A router as the dataclass builds it. *)
Definition new : t :=
  {| apps := []; initial_page := None; header := None; footer := None;
     navbar_extra := None |}.

(** The setter of the [initial_page] property. *)
Definition set_initial_page (self : t) (value : F) : t :=
  {| apps := apps self;
     initial_page := Some {| name := "__INITIALPAGE__"; func := value |};
     header := header self; footer := footer self;
     navbar_extra := navbar_extra self |}.

Definition append_app (self : t) (new_app : App) : t :=
  {| apps := apps self ++ [new_app];
     initial_page := initial_page self;
     header := header self; footer := footer self;
     navbar_extra := navbar_extra self |}.

(** [not self.initial_page]: [None] is false, an [App] (a tuple of two
    fields) is true.  [flag] is the [initial_page] argument. *)
Definition add_app (self : t) (name : string) (func : F) (flag : bool)
  : t :=
  if flag && negb (bool_decide (is_Some (initial_page self)))
  then set_initial_page self func
  else append_app self {| name := name; func := func |}.

(** The methods that hand over to the state manager. *)
Definition save := StateManager.save.
Definition change_page := StateManager.change_page.
Definition is_logged_in := StateManager.is_logged_in.
Definition clear_cache := StateManager.clear_cache.

(** The choice of the page in [_run], which follows the navigation bar
    (the bar itself is [_render_navbar], the whole is [_run], below): the
    initial page for a user who is not logged in, else the page at the
    stored index, an index past the end counting as 0. *)
Definition current_app (self : t) (hp : heap) (f : cache_file) : res App :=
  page ← StateManager.read_current_page hp f;
  let page :=
    if (Z.of_nat (length (apps self)) <=? page)%Z then 0%Z else page in
  py_list_getitem (apps self) page.

Definition run_page (self : t) (hp : heap) (f : cache_file) : res App :=
  logged_in ← is_logged_in hp f;
  if negb logged_in then
    match initial_page self with
    | Some app => Ok app
    | None => Raise AttributeError
    end
  else current_app self hp f.

(** [login] and [logout], up to the rerun they ask the framework for. *)
Definition login (hp : heap) (username token : string) (f : cache_file)
  : res cache_file :=
  let '(h, variables) :=
    heap_alloc hp (Dict false [("username", VStr username);
                               ("token", VStr token)]) in
  f1 ← save h variables (Some ["session"]) f;
  change_page hp 0 f1.

Definition logout (hp : heap) (f : cache_file) : res cache_file :=
  f1 ← clear_cache hp None None true f;
  change_page hp (-1) f1.

(** A series of [add_app] calls, each a name, a callable and the
    [initial_page] flag. *)
Definition add_apps (self : t) (calls : list (string * F * bool)) : t :=
  fold_left (fun mp c => add_app mp c.1.1 c.1.2 c.2) calls self.

Definition app_of_call (c : string * F * bool) : App :=
  {| name := c.1.1; func := c.1.2 |}.

(** [_render_next_previous]: [reset], [previous] and [next] are what the
    buttons "Reset Cache", "Previous Page" and "Next Page" return. *)
Definition _render_next_previous (self : t) (reset previous next : bool)
    (hp : heap) (f : cache_file) : res cache_file :=
  page ← StateManager.read_current_page hp f;
  f1 ← (if reset then change_page hp (-1) f else Ok f);
  '(page, f2) ← (if previous then
                   let page := Z.max 0 (page - 1) in
                   f2 ← change_page hp page f1; Ok (page, f2)
                 else Ok (page, f1));
  if next then
    let page := Z.min (Z.of_nat (length (apps self)) - 1) (page + 1) in
    change_page hp page f2
  else Ok f2.

(** The loop of [_render_navbar] for the two button styles,
    [for index, app in enumerate(self.apps): if button(app.name):
    self.change_page(index)]; [pressed index] is what the button of the
    page at [index] returns.  The framework refuses a button that is the
    same as one drawn before it (here: that has the name of an earlier
    page, the names in [drawn]) with [DuplicateWidgetID], a
    [StreamlitAPIException]. *)
Fixpoint navbar_buttons (todo : list App) (index : nat) (drawn : list string)
    (pressed : nat → bool) (hp : heap) (f : cache_file) : res cache_file :=
  match todo with
  | [] => Ok f
  | app :: rest =>
      if bool_decide (name app ∈ drawn) then Raise StreamlitAPIException
      else
        f1 ← (if pressed index then change_page hp (Z.of_nat index) f
              else Ok f);
        navbar_buttons rest (S index) (name app :: drawn) pressed hp f1
  end.

(** The branch of [_render_navbar] for the style "SelectBox"; [selected]
    is what the select box returns: one of the names, or [None] when
    there is no page. *)
Definition navbar_selectbox (self : t) (selected : option string)
    (hp : heap) (f : cache_file) : res cache_file :=
  let app_names := name <$> apps self in
  match selected ≫= (fun app_name => py_list_index app_name app_names) with
  | Some next_page => change_page hp (Z.of_nat next_page) f
  | None => Raise ValueError
  end.

(** What the widgets of the navigation bar return in one run of the
    script: the three buttons of [_render_next_previous], the button of
    the page at each index, and the choice of the select box.  The labels
    of the three buttons and of the widgets that the callables of the
    user draw are taken to differ from one another and from the names of
    the pages. *)
Record widgets := {
  reset_button : bool;
  previous_page_button : bool;
  next_page_button : bool;
  page_button : nat → bool;
  selectbox : option string
}.

Definition possible_styles : list string :=
  ["VerticalButton"; "HorizontalButton"; "SelectBox"].

(** [sidebar.columns(n)]: the framework hands out [n] columns, and raises
    when there is none to hand out. *)
Definition st_columns (n : nat) : res nat :=
  match n with
  | 0 => Raise StreamlitAPIException
  | _ => Ok n
  end.

(** [_render_navbar], up to the call of the [navbar_extra] callable that
    ends it.  [zip(columns, self.apps)] stops with the shorter of the
    two. *)
Definition _render_navbar (self : t) (hide_navigation : bool)
    (navbar_style : string) (w : widgets) (hp : heap) (f : cache_file)
  : res cache_file :=
  f1 ← (if negb hide_navigation then
          _render_next_previous self (reset_button w)
            (previous_page_button w) (next_page_button w) hp f
        else Ok f);
  let navbar_style :=
    if bool_decide (navbar_style ∈ possible_styles) then navbar_style
    else "VerticalButton" in
  f2 ← (if is_substring "Button" navbar_style then
          if String.eqb navbar_style "HorizontalButton" then
            columns ← st_columns (length (apps self));
            navbar_buttons (take columns (apps self)) 0 [] (page_button w)
              hp f1
          else if String.eqb navbar_style "VerticalButton" then
            navbar_buttons (apps self) 0 [] (page_button w) hp f1
          else Ok f1
        else Ok f1);
  if String.eqb navbar_style "SelectBox" then
    navbar_selectbox self (selectbox w) hp f2
  else Ok f2.

(** [_run], up to its first call of a callable of the user: the result
    is that callable, with the cache file as it is when the callable is
    called.  What [_run] does after a header or a [navbar_extra]
    callable depends on what the callable has done; without them, the
    first callable is the page that [_run] shows. *)
Definition _run (self : t) (hide_navigation : bool) (navbar_style : string)
    (w : widgets) (hp : heap) (f : cache_file) : res (App * cache_file) :=
  _ ← is_logged_in hp f;
  logged_in ← is_logged_in hp f;
  if negb logged_in then
    match initial_page self with
    | Some app => Ok (app, f)
    | None => Raise AttributeError
    end
  else
    match header self with
    | Some app => Ok (app, f)
    | None =>
        f1 ← _render_navbar self hide_navigation navbar_style w hp f;
        match navbar_extra self with
        | Some app => Ok (app, f1)
        | None => app ← run_page self hp f1; Ok (app, f1)
        end
    end.

End Router.
Arguments App : clear implicits.
Arguments t : clear implicits.
End MultiPage.

(** ** Observations on heaps and cache files *)

(** The dictionary a value refers to. *)
Definition deref (h : heap) (v : value) : option dict :=
  match v with
  | VRef l => h !! l
  | _ => None
  end.

(** [data[k]] when [data] is a dictionary that has the key. *)
Definition entry (h : heap) (data : value) (k : string) : option value :=
  d ← deref h data; dict_get k (items d).

(** The dictionary bound to the namespace [ns] in [data]. *)
Definition namespace_dict (h : heap) (data : value) (ns : string)
  : option dict :=
  x ← entry h data ns; deref h x.

(** A value read as a tree, down to a given depth: two values denote the
    same Python data when they agree at every depth, wherever their
    objects lie in their heaps. *)
#[local] Set Warnings "-register-all".
Inductive tree :=
| TNone
| TBool (b : bool)
| TInt (z : Z)
| TStr (s : string)
| TDict (dflt : bool) (items : list (string * tree))
| TDeeper
| TDangling.
#[local] Set Warnings "register-all".

Fixpoint unfold (n : nat) (h : heap) (v : value) : tree :=
  match v with
  | VNone => TNone
  | VBool b => TBool b
  | VInt z => TInt z
  | VStr s => TStr s
  | VRef l =>
      match n with
      | 0 => TDeeper
      | S n' =>
          match h !! l with
          | Some d => TDict (dflt d) (prod_map id (unfold n' h) <$> items d)
          | None => TDangling
          end
      end
  end.

Definition same_value (h1 : heap) (v1 : value) (h2 : heap) (v2 : value) : Prop :=
  ∀ n, unfold n h1 v1 = unfold n h2 v2.

(** Heaps as Python builds them: every reference points to an object. *)
Definition value_closed (n : nat) (v : value) : bool :=
  match v with
  | VRef l => bool_decide (l < n)
  | _ => true
  end.

Definition dict_closed (n : nat) (d : dict) : bool :=
  forallb (fun kv => value_closed n kv.2) (items d).

Definition heap_closed (h : heap) : bool :=
  forallb (dict_closed (length h)) h.

(** A dictionary has each key once. *)
Fixpoint unique_keys (it : list (string * value)) : bool :=
  match it with
  | [] => true
  | (k, _) :: it' => negb (dict_mem k it') && unique_keys it'
  end.

(** A present entry that is a dictionary, or an absent one. *)
Definition dict_or_absent (h : heap) (o : option value) : bool :=
  match o with
  | None => true
  | Some (VRef l) => bool_decide (l < length h)
  | Some _ => false
  end.

(** [k] is a key of the dictionary bound to [o]. *)
Definition has_key (h : heap) (o : option value) (k : string) : bool :=
  match o ≫= deref h with
  | Some d => dict_mem k (items d)
  | None => false
  end.

(** The cache file holds a mapping with string keys. *)
Definition stored_mapping (f : cache_file) : bool :=
  match f with
  | Missing => true
  | Pickled h (VRef r) => bool_decide (r < length h)
  | _ => false
  end.

(** The data model of the specification: the cache file, if present,
    holds a mapping whose values are all dictionaries (namespaces). *)
Definition namespaces_only (f : cache_file) : bool :=
  match f with
  | Missing => true
  | Pickled h (VRef r) =>
      match h !! r with
      | Some d => forallb (fun kv => match kv.2 with
                                     | VRef l => bool_decide (l < length h)
                                     | _ => false
                                     end) (items d)
      | None => false
      end
  | _ => false
  end.

(** The operations that write the cache file, with their arguments. *)
Inductive operation :=
| Save (hp : heap) (variables : value) (namespaces : option (list string))
| ChangePage (hp : heap) (page : Z)
| ClearCache (hp : heap) (variables namespaces : option (list string))
    (all_variables : bool).

Definition perform (o : operation) (f : cache_file) : res cache_file :=
  match o with
  | Save hp variables namespaces => StateManager.save hp variables namespaces f
  | ChangePage hp page => StateManager.change_page hp page f
  | ClearCache hp variables namespaces all_variables =>
      StateManager.clear_cache hp variables namespaces all_variables f
  end.

(** An operation that raises has not written the file: in [save] and in
    [clear_cache] the call of [_save] is the last step that can fail, and
    it does not fail on the values of the model, which all pickle. *)
Definition after (o : operation) (f : cache_file) : cache_file :=
  match perform o f with
  | Ok f' => f'
  | Raise _ => f
  end.

Definition after_all (os : list operation) (f : cache_file) : cache_file :=
  fold_left (fun f o => after o f) os f.

(** An unpickled graph as it appears in a process whose heap is [hp]. *)
Definition relocate_heap (hp : heap) (h : heap) : heap :=
  hp ++ shift_heap (length hp) h.

Definition relocate (hp : heap) (r : res (heap * value)) : res (heap * value) :=
  '(h, v) ← r; Ok (relocate_heap hp h, shift_value (length hp) v).

(** ** What the loop of [save] may do to the heap

    [h0] is the heap when the loop starts, [r] the loaded mapping, [vi]
    the items of [variables] and [V] the reference to it. *)

(** The loaded mapping only gains entries: listed namespaces that it did
    not have, bound to [variables]. *)
Definition root_grown (nss : list string) (V : value) (R0 R : dict) : Prop :=
  dflt R = dflt R0 ∧
  ∀ k, dict_get k (items R) = dict_get k (items R0)
       ∨ (k ∈ nss ∧ dict_get k (items R0) = None
          ∧ dict_get k (items R) = Some V).

(** Another dictionary keeps its items, but for the keys of [variables],
    which may have taken the value they have there; a dictionary that is
    no listed namespace is left as it is. *)
Definition dict_updated (vi : list (string * value)) (d0 d : dict) : Prop :=
  dflt d = dflt d0 ∧
  ∀ k, dict_get k (items d) = dict_get k (items d0)
       ∨ (is_Some (dict_get k vi) ∧ dict_get k (items d) = dict_get k vi).

Record save_inv (hp : heap) (vi : list (string * value)) (nss : list string)
    (V : value) (r : loc) (h0 h : heap) : Prop := {
  inv_length : length h = length h0;
  inv_prefix : take (length hp) h = hp;
  inv_root : ∀ R0, h0 !! r = Some R0 →
             ∃ R, h !! r = Some R ∧ root_grown nss V R0 R;
  inv_other : ∀ l d0, l ≠ r → h0 !! l = Some d0 →
              ∃ d, h !! l = Some d ∧ dict_updated vi d0 d;
  inv_untouched : ∀ l, l ≠ r →
              (∀ ns, ns ∈ nss → entry h0 (VRef r) ns ≠ Some (VRef l)) →
              h !! l = h0 !! l
}.

(** The namespace [ns] of [data] is a dictionary, not [data] itself, that
    has every item of [vi]. *)
Definition holds_all (vi : list (string * value)) (h : heap) (data : value)
    (ns : string) : Prop :=
  ∃ l d, entry h data ns = Some (VRef l) ∧ VRef l ≠ data ∧ h !! l = Some d ∧
         ∀ k x, dict_get k vi = Some x → dict_get k (items d) = Some x.

(** ** Conditions on the state that [load] shows *)

(** [v] is a dictionary of the heap. *)
Definition is_mapping (h : heap) (v : value) : bool :=
  match v with
  | VRef l => bool_decide (l < length h)
  | _ => false
  end.

(** The namespace [ns] of [data] is absent, or a dictionary other than
    [data] itself. *)
Definition namespace_ok (h : heap) (data : value) (ns : string) : bool :=
  match entry h data ns with
  | None => true
  | Some x => is_mapping h x && negb (bool_decide (x = data))
  end.

(** A [save] to the namespaces [nss] writes to the dictionary of the
    namespace "global": "global" is listed, or a listed namespace is bound
    to the same dictionary. *)
Definition global_written (nss : list string) (h : heap) (data : value) : bool :=
  match entry h data "global" with
  | Some g => existsb (fun ns => bool_decide (entry h data ns = Some g)) nss
  | None => bool_decide ("global" ∈ nss)
  end.

(** The name [k] will not be a variable of the namespace "global" after a
    [save] of the items [vi] to the namespaces [nss]: it is none now, and
    it is no key of [vi] if the [save] writes to the dictionary of
    "global". *)
Definition no_clash (vi : list (string * value)) (nss : list string)
    (h : heap) (data : value) (k : string) : bool :=
  negb (has_key h (entry h data "global") k)
  && (negb (dict_mem k vi) || negb (global_written nss h data)).

(** [k] is not a variable of the namespace "global" of [data]. *)
Definition not_global_variable (h : heap) (data : value) (k : string) : bool :=
  negb (has_key h (entry h data "global") k).



(** ** A small example: two pages, a logged-in user on the second page *)

Definition example_router : MultiPage.t nat :=
  MultiPage.add_apps MultiPage.new
    [("first", 1, false); ("second", 2, false)].

(** The cache after [login("u", "t")] and [change_page(1)] on a new
    cache. *)
Definition example_cache : cache_file :=
  Pickled
    [Dict false [("current_page", VInt 1)];
     Dict false [("current_page", VInt 1)];
     Dict false [("username", VStr "u"); ("token", VStr "t")];
     Dict true [("session", VRef 2); ("global", VRef 1);
                ("current_page", VInt 0)]]
    (VRef 3).

(** ** States that the router itself produces *)

(** The state that [load] shows is a mapping in which "global" and
    "session" are dictionaries or absent, and neither name is a global
    variable. *)
Definition tidy (f : cache_file) : bool :=
  match StateManager.load [] f with
  | Ok (hv, data) =>
      is_mapping hv data
      && namespace_ok hv data "global" && namespace_ok hv data "session"
      && not_global_variable hv data "global"
      && not_global_variable hv data "session"
  | Raise _ => false
  end.

(** The namespace [ns] that [load] shows has the key [k]. *)
Definition view_has (f : cache_file) (ns k : string) : bool :=
  match StateManager.load [] f with
  | Ok (hv, data) => has_key hv (entry hv data ns) k
  | Raise _ => false
  end.

(** What a visitor can make the router do. *)
Inductive action :=
| DoLogin (hp : heap) (username token : string)
| DoLogout (hp : heap)
| DoChangePage (hp : heap) (page : Z).

Definition act (a : action) (f : cache_file) : res cache_file :=
  match a with
  | DoLogin hp username token => MultiPage.login hp username token f
  | DoLogout hp => MultiPage.logout hp f
  | DoChangePage hp page => StateManager.change_page hp page f
  end.

Fixpoint act_all (l : list action) (f : cache_file) : res cache_file :=
  match l with
  | [] => Ok f
  | a :: l' => f1 ← act a f; act_all l' f1
  end.

(** ** Conditions for [clear_cache] *)

(** [v] is no dictionary. *)
Definition is_scalar (v : value) : bool :=
  match v with
  | VRef _ => false
  | _ => true
  end.

(** Every entry of the mapping [R], which lies at [r], is a scalar or a
    dictionary of the heap other than the mapping itself. *)
Definition entries_ok (h : heap) (r : loc) (R : dict) : bool :=
  forallb (fun kv => match kv.2 with
                     | VRef l => bool_decide (l < length h)
                                 && negb (bool_decide (l = r))
                     | _ => true
                     end) (items R).

(** No entry of the mapping [R] is a scalar. *)
Definition no_scalar (R : dict) : bool :=
  forallb (fun kv => negb (is_scalar kv.2)) (items R).

(** Every dictionary of the heap has each key once. *)
Definition heap_unique (h : heap) : bool :=
  forallb (fun d => unique_keys (items d)) h.

(** What the loops of [clear_cache(variables=...)] may do to the heap:
    the mapping at [r] stays as it is, and another dictionary keeps its
    items but for the keys in [vars], which it may have lost. *)
Definition stripped (vars : list string) (r : loc) (h h' : heap) : Prop :=
  length h' = length h
  ∧ h' !! r = h !! r
  ∧ ∀ l d, l ≠ r → h !! l = Some d → unique_keys (items d) = true →
      ∃ d', h' !! l = Some d'
            ∧ dflt d' = dflt d
            ∧ unique_keys (items d') = true
            ∧ ∀ k, dict_get k (items d') = dict_get k (items d)
                   ∨ (k ∈ vars ∧ dict_get k (items d') = None).

(** The dictionary at [l] has none of the keys [vars]. *)
Definition cleared (vars : list string) (h : heap) (l : loc) : Prop :=
  ∃ d, h !! l = Some d ∧ unique_keys (items d) = true
       ∧ ∀ k, k ∈ vars → dict_get k (items d) = None.

(** * Properties *)

(** ** Association lists *)

Lemma dict_get_set k k' v it :
  dict_get k (dict_set k' v it) = if decide (k = k') then Some v else dict_get k it.
Proof.
  induction it as [|[k0 v0] it IH]; simpl.
  - repeat case_decide; congruence.
  - repeat (case_decide; simpl; subst); try congruence.
Qed.

Lemma dict_get_set_eq k v it : dict_get k (dict_set k v it) = Some v.
Proof. rewrite dict_get_set. by case_decide. Qed.

Lemma dict_get_set_ne k k' v it :
  k ≠ k' → dict_get k (dict_set k' v it) = dict_get k it.
Proof. intros. rewrite dict_get_set. by case_decide. Qed.

Lemma dict_mem_true k it : dict_mem k it = true ↔ is_Some (dict_get k it).
Proof.
  unfold dict_mem. destruct (dict_get k it); split; intros H; eauto.
  - done.
  - by destruct H.
Qed.

Lemma dict_mem_false k it : dict_mem k it = false ↔ dict_get k it = None.
Proof. unfold dict_mem. destruct (dict_get k it); split; intros H; done. Qed.

Lemma dict_get_Some_elem k v it : dict_get k it = Some v → (k, v) ∈ it.
Proof.
  induction it as [|[k0 v0] it IH]; simpl; [done|].
  case_decide; subst.
  - intros [= ->]. left.
  - intros. right. auto.
Qed.

Lemma dict_get_None_keys k it : dict_get k it = None ↔ k ∉ dict_keys it.
Proof.
  unfold dict_keys. induction it as [|[k0 v0] it IH]; simpl.
  - split; [intros _; apply not_elem_of_nil | done].
  - rewrite not_elem_of_cons. case_decide; subst.
    + split; [done | intros [? _]; done].
    + rewrite IH. split; [by split | by intros [_ ?]].
Qed.

(** [update] lets the last item of [other] with a given key win. *)
Lemma dict_get_update k it other :
  dict_get k (dict_update it other) =
    match dict_get k (reverse other) with
    | Some x => Some x
    | None => dict_get k it
    end.
Proof.
  unfold dict_update. revert it.
  induction other as [|[k0 v0] other IH] using rev_ind; intros it; [done|].
  rewrite fold_left_app, reverse_app. simpl.
  rewrite dict_get_set. case_decide; [done|]. apply IH.
Qed.

Lemma dict_get_reverse_None k it :
  dict_get k (reverse it) = None ↔ dict_get k it = None.
Proof.
  rewrite !dict_get_None_keys. unfold dict_keys.
  rewrite fmap_reverse, elem_of_reverse. done.
Qed.

Lemma unique_keys_get_reverse k it :
  unique_keys it = true → dict_get k (reverse it) = dict_get k it.
Proof.
  induction it as [|[k0 v0] it IH]; [done|]. simpl.
  rewrite andb_true_iff, negb_true_iff, dict_mem_false. intros [Hk0 Hu].
  rewrite reverse_cons.
  assert (∀ a b, dict_get k (a ++ b) =
            match dict_get k a with Some x => Some x | None => dict_get k b end)
    as Happ.
  { clear. induction a as [|[k1 v1] a IH]; intros b; simpl; [done|].
    case_decide; [done|]. apply IH. }
  rewrite Happ, IH by done. simpl.
  case_decide; subst.
  - rewrite Hk0. done.
  - by destruct (dict_get k it).
Qed.

Lemma dict_get_update_unique k it other :
  unique_keys other = true →
  dict_get k (dict_update it other) =
    match dict_get k other with
    | Some x => Some x
    | None => dict_get k it
    end.
Proof. intros Hu. by rewrite dict_get_update, unique_keys_get_reverse. Qed.

Lemma dict_get_update_other k it other :
  dict_get k other = None → dict_get k (dict_update it other) = dict_get k it.
Proof.
  intros Hk. rewrite dict_get_update.
  apply dict_get_reverse_None in Hk. by rewrite Hk.
Qed.

(** ** Heap access *)

#[local] Arguments heap_get : simpl never.

Lemma heap_get_Some (h : heap) l d : h !! l = Some d → heap_get h l = Ok d.
Proof. unfold heap_get. by intros ->. Qed.

Lemma heap_get_snoc (h : heap) d : heap_get (h ++ [d]) (length h) = Ok d.
Proof. apply heap_get_Some. by rewrite lookup_app_r, Nat.sub_diag by lia. Qed.

Lemma py_contains_dict (h : heap) l d k :
  h !! l = Some d → py_contains h (VRef l) k = Ok (dict_mem k (items d)).
Proof. intros Hd. unfold py_contains. by rewrite (heap_get_Some _ _ _ Hd). Qed.

Lemma py_getitem_present (h : heap) l d k x :
  h !! l = Some d → dict_get k (items d) = Some x →
  py_getitem h (VRef l) k = Ok (h, x).
Proof.
  intros Hd Hx. unfold py_getitem. rewrite (heap_get_Some _ _ _ Hd). simpl.
  by rewrite Hx.
Qed.

(** ** A missing or empty cache file *)

Lemma load_Missing hp :
  StateManager.load hp Missing = Ok (hp ++ [empty_defaultdict], VRef (length hp)).
Proof. done. Qed.

Lemma load_EndOfFile hp :
  StateManager.load hp EndOfFile = Ok (hp ++ [empty_defaultdict], VRef (length hp)).
Proof.
  unfold StateManager.load. simpl. rewrite heap_get_snoc. done.
Qed.

(** ** The page list *)

Section RouterFacts.
Context {F : Type}.
Implicit Types (self : MultiPage.t F) (calls : list (string * F * bool)).

Lemma add_apps_app self calls calls' :
  MultiPage.add_apps self (calls ++ calls') =
  MultiPage.add_apps (MultiPage.add_apps self calls) calls'.
Proof. apply fold_left_app. Qed.

(** Calls that cannot set the initial page (no flag, or an initial page
    is already set) append their pages in order. *)
Lemma add_apps_ordinary calls self :
  (is_Some (MultiPage.initial_page self) ∨ forallb (fun c => negb c.2) calls = true) →
  MultiPage.add_apps self calls =
    {| MultiPage.apps := MultiPage.apps self ++ (MultiPage.app_of_call <$> calls);
       MultiPage.initial_page := MultiPage.initial_page self;
       MultiPage.header := MultiPage.header self;
       MultiPage.footer := MultiPage.footer self;
       MultiPage.navbar_extra := MultiPage.navbar_extra self |}.
Proof.
  revert self. induction calls as [|[[n fn] b] calls IH]; intros self Hc.
  - simpl. rewrite app_nil_r. by destruct self.
  - change (MultiPage.add_apps self ((n, fn, b) :: calls))
      with (MultiPage.add_apps (MultiPage.add_app self n fn b) calls).
    assert (MultiPage.add_app self n fn b =
            MultiPage.append_app self {| MultiPage.name := n; MultiPage.func := fn |})
      as ->.
    { unfold MultiPage.add_app. destruct Hc as [Hi|Hc].
      - rewrite bool_decide_eq_true_2 by done. by rewrite andb_false_r.
      - simpl in Hc. apply andb_true_iff in Hc as [Hb _].
        apply negb_true_iff in Hb. simpl in Hb. by rewrite Hb. }
    rewrite IH.
    + simpl. by rewrite <- app_assoc.
    + simpl. destruct Hc as [Hi|Hc]; [by left|].
      right. simpl in Hc. by apply andb_true_iff in Hc as [_ ?].
Qed.

Lemma py_list_getitem_nonneg (l : list (MultiPage.App F)) (i : Z) a :
  (0 ≤ i)%Z → l !! Z.to_nat i = Some a → py_list_getitem l i = Ok a.
Proof.
  intros Hi Ha. unfold py_list_getitem.
  destruct (Z.ltb_spec i 0); [lia|].
  destruct (Z.ltb_spec i 0); [lia|]. by rewrite Ha.
Qed.

(** ** C7 *)

(** C7: [add_app] calls without the [initial_page] flag append to the
    page list: the pages follow the ones already there in the order of
    their registration, each with its name and callable, so that on a
    new router the page registered as number n+1 is found at index n;
    the initial page is left alone; and the current page is an index
    into that list: a stored index i within the list selects the page
    registered as number i+1. *)
Theorem add_app_appends self (pages : list (string * F)) :
  let calls := (fun p => (p.1, p.2, false)) <$> pages in
  let app_of := fun p : string * F =>
                  {| MultiPage.name := p.1; MultiPage.func := p.2 |} in
  MultiPage.apps (MultiPage.add_apps self calls)
    = MultiPage.apps self ++ (app_of <$> pages)
  ∧ MultiPage.initial_page (MultiPage.add_apps self calls)
    = MultiPage.initial_page self
  ∧ (∀ n, MultiPage.apps (MultiPage.add_apps MultiPage.new calls) !! n
          = app_of <$> pages !! n)
  ∧ (∀ hp f (i : Z),
       StateManager.read_current_page hp f = Ok i →
       (0 ≤ i < Z.of_nat (length pages))%Z →
       ∃ p, pages !! Z.to_nat i = Some p ∧
            MultiPage.current_app (MultiPage.add_apps MultiPage.new calls) hp f
            = Ok (app_of p)).
Proof.
  intros calls app_of.
  assert (∀ s, MultiPage.add_apps s calls =
    {| MultiPage.apps := MultiPage.apps s ++ (app_of <$> pages);
       MultiPage.initial_page := MultiPage.initial_page s;
       MultiPage.header := MultiPage.header s;
       MultiPage.footer := MultiPage.footer s;
       MultiPage.navbar_extra := MultiPage.navbar_extra s |}) as Hall.
  { intros s. rewrite add_apps_ordinary.
    - unfold calls. by rewrite <- list_fmap_compose.
    - right. unfold calls. clear. by induction pages. }
  rewrite !Hall. simpl. split; [done|]. split; [done|]. split.
  - intros n. by rewrite list_lookup_fmap.
  - intros hp f i Hread Hi.
    destruct (lookup_lt_is_Some_2 pages (Z.to_nat i)) as [p Hp]; [lia|].
    exists p. split; [done|].
    unfold MultiPage.current_app. rewrite Hread. simpl.
    rewrite length_fmap.
    destruct (Z.leb_spec (Z.of_nat (length pages)) i); [lia|].
    apply py_list_getitem_nonneg; [lia|].
    by rewrite list_lookup_fmap, Hp.
Qed.

(** ** C9 *)

(** C9: in a series of [add_app] calls on a router without initial
    page, the first call with the flag sets the initial page (under the
    name "__INITIALPAGE__") and adds nothing to the page list; every
    other call, flagged or not, appends its page under its own name. *)
Theorem add_app_first_initial_page self before name func later :
  MultiPage.initial_page self = None →
  forallb (fun c => negb c.2) before = true →
  MultiPage.add_apps self (before ++ (name, func, true) :: later) =
    {| MultiPage.apps :=
         MultiPage.apps self ++ (MultiPage.app_of_call <$> before)
                             ++ (MultiPage.app_of_call <$> later);
       MultiPage.initial_page :=
         Some {| MultiPage.name := "__INITIALPAGE__"; MultiPage.func := func |};
       MultiPage.header := MultiPage.header self;
       MultiPage.footer := MultiPage.footer self;
       MultiPage.navbar_extra := MultiPage.navbar_extra self |}.
Proof.
  intros Hnone Hbefore.
  rewrite add_apps_app, (add_apps_ordinary before) by (by right).
  change (MultiPage.add_apps ?s ((name, func, true) :: later))
    with (MultiPage.add_apps (MultiPage.add_app s name func true) later).
  unfold MultiPage.add_app at 1. simpl. rewrite Hnone.
  rewrite bool_decide_eq_false_2 by (by intros [? ?]). simpl.
  rewrite add_apps_ordinary by (left; simpl; eauto).
  simpl. by rewrite <- app_assoc.
Qed.

(** ** C2 *)

(** C2 (amended): for a logged-in user and a non-empty page list, the
    router shows the page at the stored index i when 0 <= i < number of
    pages, and the page at index 0 when i is past the end. *)
Theorem run_page_dispatch self hp f (i : Z) :
  MultiPage.is_logged_in hp f = Ok true →
  StateManager.read_current_page hp f = Ok i →
  MultiPage.apps self ≠ [] →
  (0 ≤ i)%Z →
  ∃ app,
    MultiPage.run_page self hp f = Ok app ∧
    MultiPage.apps self
      !! (if decide (i < Z.of_nat (length (MultiPage.apps self)))%Z
          then Z.to_nat i else 0)
      = Some app.
Proof.
  intros Hlog Hpage Hne Hi.
  unfold MultiPage.run_page, MultiPage.current_app.
  rewrite Hlog. simpl. rewrite Hpage. simpl.
  case_decide as Hlt.
  - destruct (Z.leb_spec (Z.of_nat (length (MultiPage.apps self))) i); [lia|].
    destruct (lookup_lt_is_Some_2 (MultiPage.apps self) (Z.to_nat i)) as [a Ha];
      [lia|].
    exists a. split; [|done]. by apply py_list_getitem_nonneg.
  - destruct (Z.leb_spec (Z.of_nat (length (MultiPage.apps self))) i); [|lia].
    destruct (MultiPage.apps self) as [|a l] eqn:Hl; [done|].
    exists a. split; [|done]. by apply py_list_getitem_nonneg.
Qed.

End RouterFacts.

(** ** The guard of [save] *)

(** C8: [save] with a false [variables] ([None], an empty dictionary)
    returns at once, whatever [namespaces] is: it succeeds without
    reading the cache file, even an unreadable one, and leaves it as it
    is. *)
Theorem save_falsy_variables hp variables namespaces f :
  py_truthy hp variables = false →
  StateManager.save hp variables namespaces f = Ok f.
Proof. intros Hv. unfold StateManager.save. by rewrite Hv. Qed.

Lemma save_falsy_variables_witness :
  StateManager.save [empty_dict] (VRef 0) (Some ["a"; "b"]) Corrupt = Ok Corrupt
  ∧ StateManager.save [] VNone None Corrupt = Ok Corrupt.
Proof.
  split.
  - apply (save_falsy_variables [empty_dict] (VRef 0) (Some ["a"; "b"]) Corrupt).
    reflexivity.
  - apply (save_falsy_variables [] VNone None Corrupt). reflexivity.
Defined.

(** ** Reading an unreadable cache file *)

(** C4 (amended): when the cache file exists but the reader raises
    [EOFError] (as it does on an empty file), [load] returns a new empty
    mapping and raises nothing; the objects of the caller are untouched.
    A reader that fails with [UnpicklingError] (as it does on most
    cut-off files and on damaged ones) makes [load] raise that error. *)
Theorem load_eof_is_empty hp :
  (∃ h r,
     StateManager.load hp EndOfFile = Ok (h, VRef r) ∧
     h !! r = Some empty_defaultdict ∧
     take (length hp) h = hp)
  ∧ StateManager.load hp Corrupt = Raise UnpicklingError.
Proof.
  split; [|done].
  exists (hp ++ [empty_defaultdict]), (length hp).
  split; [|split].
  - apply load_EndOfFile.
  - rewrite lookup_app_r, Nat.sub_diag by lia. done.
  - by rewrite take_app_length.
Qed.

(** C4, as stated, fails: a file that the unpickler rejects with
    [UnpicklingError] makes [load] raise, a file that holds an integer
    makes the test ["global" in data] raise, and a file that holds a
    string is returned as it is. *)
Lemma load_read_failure_counterexample :
  StateManager.load [] Corrupt = Raise UnpicklingError
  ∧ StateManager.load [] (Pickled [] (VInt 5)) = Raise TypeError
  ∧ StateManager.load [] (Pickled [] (VStr "abc")) = Ok ([], VStr "abc").
Proof. repeat split. Qed.

(** ** Missing keys *)

(** C6: the code breaks the claim.  After [change_page(0)] on a new cache
    the file holds ["global": {"current_page": 0}]; [clear_cache] for a
    variable that no namespace has then raises [TypeError]: [load] has
    copied [current_page] to the top level, the loop takes it for a
    namespace, and [del 0["missing"]] is not a [KeyError].  The other
    missing keys of the claim are passed over in that state: a namespace
    that does not exist is skipped by [clear_cache], and a new cache has
    the current page 0. *)
Theorem clear_cache_missing_variable_raises :
  let f := Pickled [Dict false [("current_page", VInt 0)];
                    Dict true [("global", VRef 0)]] (VRef 1) in
  StateManager.change_page [] 0 Missing = Ok f
  ∧ namespaces_only f = true
  ∧ has_key [Dict false [("current_page", VInt 0)]] (Some (VRef 0)) "missing" = false
  ∧ StateManager.clear_cache [] (Some ["missing"]) None false f = Raise TypeError
  ∧ (∃ f', StateManager.clear_cache [] None (Some ["missing"]) false f = Ok f'
           ∧ StateManager.load [] f' = StateManager.load [] f)
  ∧ StateManager.read_current_page [] Missing = Ok 0%Z.
Proof. repeat split. eexists. repeat split. Qed.

(** ** What [load] returns *)


(** ** The data-model invariant *)

(** C3, as stated, fails: two page changes on a new cache leave the
    top-level entry ["current_page": 0] in the file, which is no
    namespace dictionary. *)
Lemma namespaces_only_counterexample :
  namespaces_only Missing = true
  ∧ namespaces_only (after_all [ChangePage [] 0; ChangePage [] 1] Missing) = false
  ∧ ∃ h r, after_all [ChangePage [] 0; ChangePage [] 1] Missing = Pickled h (VRef r)
           ∧ entry h (VRef r) "current_page" = Some (VInt 0).
Proof. repeat split. eexists _, _. repeat split. Qed.

(** ** Saving and loading again *)

(** C1, as stated, fails: saving ["global": 5] to the namespace "global"
    of a new cache succeeds, and the next [load] maps "global" to 5, not
    to a dictionary: the copy of the global variables to the top level
    has overwritten the namespace. *)
Lemma save_load_counterexample :
  let hp := [Dict false [("global", VInt 5)]] in
  ∃ f' h data,
    StateManager.save hp (VRef 0) (Some ["global"]) Missing = Ok f' ∧
    StateManager.load [] f' = Ok (h, data) ∧
    entry h data "global" = Some (VInt 5) ∧
    namespace_dict h data "global" = None.
Proof. eexists _, _, _. repeat split. Qed.

(** ** Being logged in *)

(** C10, as stated, fails: after [login("u", "t")] on a new cache and
    [save({"session": {}}, ["global"])] the stored namespace "session"
    still has the keys "username" and "token", and [is_logged_in] answers
    false: the global variable "session" hides the namespace. *)
Lemma is_logged_in_counterexample :
  let hp := [Dict false [("session", VRef 1)]; empty_dict] in
  ∃ f1 fh root d,
    MultiPage.login [] "u" "t" Missing = Ok f1 ∧
    StateManager.save hp (VRef 0) (Some ["global"]) f1 = Ok (Pickled fh root) ∧
    namespace_dict fh root "session" = Some d ∧
    dict_mem "username" (items d) = true ∧
    dict_mem "token" (items d) = true ∧
    StateManager.is_logged_in [] (Pickled fh root) = Ok false.
Proof. eexists _, _, _, _. repeat split. Qed.

(** ** Unpickling into a process heap *)

Lemma shift_value_0 v : shift_value 0 v = v.
Proof. by destruct v. Qed.

Lemma shift_dict_0 d : shift_dict 0 d = d.
Proof.
  destruct d as [b it]. unfold shift_dict. simpl. f_equal.
  rewrite <- (list_fmap_id it) at 2.
  apply list_fmap_ext. intros ? [k v] _. simpl. by rewrite shift_value_0.
Qed.

Lemma shift_heap_0 h : shift_heap 0 h = h.
Proof.
  unfold shift_heap. rewrite <- (list_fmap_id h) at 2.
  apply list_fmap_ext. intros ? d _. apply shift_dict_0.
Qed.

Lemma length_shift_heap k h : length (shift_heap k h) = length h.
Proof. unfold shift_heap. apply length_fmap. Qed.

Lemma length_relocate_heap hp h :
  length (relocate_heap hp h) = length hp + length h.
Proof. unfold relocate_heap. by rewrite length_app, length_shift_heap. Qed.

Lemma lookup_relocate_heap hp h l :
  relocate_heap hp h !! (length hp + l) = shift_dict (length hp) <$> h !! l.
Proof.
  unfold relocate_heap, shift_heap.
  rewrite lookup_app_r by lia. rewrite list_lookup_fmap. f_equal. f_equal. lia.
Qed.

Lemma take_relocate_heap hp h : take (length hp) (relocate_heap hp h) = hp.
Proof. unfold relocate_heap. by rewrite take_app_length. Qed.

Lemma insert_relocate_heap hp h l d :
  <[length hp + l := shift_dict (length hp) d]> (relocate_heap hp h)
  = relocate_heap hp (<[l := d]> h).
Proof.
  unfold relocate_heap, shift_heap.
  by rewrite insert_app_r, list_fmap_insert.
Qed.

Lemma relocate_heap_snoc hp h d :
  relocate_heap hp h ++ [shift_dict (length hp) d] = relocate_heap hp (h ++ [d]).
Proof. unfold relocate_heap, shift_heap. by rewrite fmap_app, app_assoc. Qed.

Section Renaming.
Variable f : value → value.

Lemma dict_get_rename key it :
  dict_get key (prod_map id f <$> it) = f <$> dict_get key it.
Proof.
  induction it as [|[k v] it IH]; csimpl; [done|]. by case_decide.
Qed.

Lemma dict_mem_rename key it :
  dict_mem key (prod_map id f <$> it) = dict_mem key it.
Proof. unfold dict_mem. rewrite dict_get_rename. by destruct (dict_get key it). Qed.

Lemma dict_set_rename key v it :
  prod_map id f <$> dict_set key v it
  = dict_set key (f v) (prod_map id f <$> it).
Proof.
  induction it as [|[k x] it IH]; csimpl; [done|].
  case_decide; csimpl; [done|]. by rewrite IH.
Qed.

Lemma dict_update_rename it other :
  prod_map id f <$> dict_update it other
  = dict_update (prod_map id f <$> it) (prod_map id f <$> other).
Proof.
  unfold dict_update. revert it.
  induction other as [|[k x] other IH]; intros it; csimpl; [done|].
  by rewrite IH, dict_set_rename.
Qed.

End Renaming.

Section Relocation.
Variable hp : heap.
Implicit Types (h : heap) (v : value).
Local Notation k := (length hp) (only parsing).

Lemma py_contains_relocate h v key :
  py_contains (relocate_heap hp h) (shift_value k v) key = py_contains h v key.
Proof.
  destruct v; simpl; try done.
  unfold heap_get. rewrite lookup_relocate_heap.
  destruct (h !! l) as [d|]; simpl; [|done].
  by rewrite dict_mem_rename.
Qed.

Lemma py_getitem_relocate h v key :
  py_getitem (relocate_heap hp h) (shift_value k v) key
  = relocate hp (py_getitem h v key).
Proof.
  destruct v; simpl; try done.
  unfold heap_get. rewrite lookup_relocate_heap.
  destruct (h !! l) as [d|]; simpl; [|done].
  rewrite dict_get_rename.
  destruct (dict_get key (items d)) as [x|]; simpl; [done|].
  destruct (dflt d); simpl; [|done].
  unfold heap_set_items. simpl.
  rewrite length_relocate_heap.
  change [empty_dict] with [shift_dict k empty_dict].
  rewrite relocate_heap_snoc, <- insert_relocate_heap.
  unfold shift_dict. simpl. by rewrite dict_set_rename.
Qed.

Lemma py_update_relocate h v o :
  py_update (relocate_heap hp h) (shift_value k v) (shift_value k o)
  = (h' ← py_update h v o; Ok (relocate_heap hp h')).
Proof.
  destruct v; simpl; try done.
  unfold heap_get. rewrite lookup_relocate_heap.
  destruct (h !! l) as [d|]; simpl; [|done].
  destruct o as [| | |s|l']; simpl; try done.
  - by destruct (String.eqb s "").
  - rewrite lookup_relocate_heap.
    destruct (h !! l') as [o|]; simpl; [|done].
    repeat case_decide; try lia; simpl; [done|].
    unfold heap_set_items. rewrite <- insert_relocate_heap.
    unfold shift_dict. simpl. by rewrite dict_update_rename.
Qed.

Lemma py_update_method_relocate v :
  py_update_method (shift_value k v) = py_update_method v.
Proof. by destruct v. Qed.

Lemma load_relocate f :
  StateManager.load hp f = relocate hp (StateManager.load [] f).
Proof.
  destruct f as [| | |fh root].
  - rewrite !load_Missing. simpl. by rewrite Nat.add_0_r.
  - rewrite !load_EndOfFile. simpl. by rewrite Nat.add_0_r.
  - done.
  - simpl. rewrite shift_heap_0, shift_value_0.
    change (hp ++ shift_heap k fh) with (relocate_heap hp fh).
    rewrite py_contains_relocate.
    destruct (py_contains fh root "global") as [[]|]; simpl; try done.
    rewrite py_update_method_relocate.
    destruct (py_update_method root) as [[]|]; simpl; [|done].
    rewrite py_getitem_relocate.
    destruct (py_getitem fh root "global") as [[h1 g]|]; simpl; [|done].
    rewrite py_update_relocate.
    by destruct (py_update h1 root g).
Qed.

End Relocation.

(** ** The loop of [save] *)

Lemma elem_of_dict_set kv k v it :
  kv ∈ dict_set k v it → kv = (k, v) ∨ kv ∈ it.
Proof.
  induction it as [|[k0 v0] it IH]; simpl.
  - intros ->%list_elem_of_singleton. by left.
  - case_decide; subst.
    + intros [->|?]%elem_of_cons; [by left|]. right. by right.
    + intros [->|?]%elem_of_cons; [right; left|].
      destruct (IH H0) as [?|?]; [by left|]. right. by right.
Qed.

Lemma new_data_fold variables namespaces acc k :
  dict_get k (fold_left (fun acc namespace => dict_set namespace variables acc)
                        namespaces acc)
  = if decide (k ∈ namespaces) then Some variables else dict_get k acc.
Proof.
  revert acc. induction namespaces as [|ns nss IH]; intros acc.
  - destruct (decide (k ∈ [])) as [H|]; [by apply elem_of_nil in H|done].
  - simpl fold_left. rewrite IH, dict_get_set.
    destruct (decide (k ∈ nss)) as [Hin|Hin].
    + rewrite decide_True; [done|by right].
    + destruct (decide (k = ns)) as [->|Hne].
      * rewrite decide_True; [done|left].
      * rewrite decide_False; [done|].
        by intros [?|?]%elem_of_cons.
Qed.

Lemma new_data_elem variables namespaces kv :
  kv ∈ StateManager.new_data variables namespaces →
  kv.1 ∈ namespaces ∧ kv.2 = variables.
Proof.
  unfold StateManager.new_data.
  assert (∀ acc,
    kv ∈ fold_left (fun acc namespace => dict_set namespace variables acc)
                   namespaces acc →
    (kv.1 ∈ namespaces ∧ kv.2 = variables) ∨ kv ∈ acc) as Hgen.
  { induction namespaces as [|ns nss IH]; intros acc; simpl; [by right|].
    intros [[? ?]|Hacc]%IH.
    - left. split; [by right|done].
    - apply elem_of_dict_set in Hacc as [->|?]; [|by right].
      left. split; [left|done]. }
  intros [?|H]%Hgen; [done|]. by apply elem_of_nil in H.
Qed.

Lemma new_data_keys variables namespaces ns :
  ns ∈ namespaces →
  ∃ kv, kv ∈ StateManager.new_data variables namespaces ∧ kv.1 = ns.
Proof.
  intros Hns. exists (ns, variables). split; [|done].
  apply dict_get_Some_elem. unfold StateManager.new_data.
  rewrite new_data_fold. by case_decide.
Qed.

Section SaveLoop.
Variables (hp : heap) (v : loc) (vd : dict).
Hypothesis Hv : hp !! v = Some vd.
Hypothesis Hunique : unique_keys (items vd) = true.

Variable nss : list string.

Variables (h0 : heap) (r : loc).
Hypothesis Hr : length hp ≤ r.
Hypothesis Hns : ∀ ns R0 x,
  ns ∈ nss → h0 !! r = Some R0 → dict_get ns (items R0) = Some x →
  ∃ l, x = VRef l ∧ length hp ≤ l < length h0 ∧ l ≠ r.

Local Notation vi := (items vd) (only parsing).
Local Notation inv := (save_inv hp (items vd) nss (VRef v) r h0) (only parsing).
Local Notation full := (fun h => holds_all (items vd) h (VRef r)) (only parsing).

Lemma inv_variables h : inv h → h !! v = Some vd.
Proof.
  intros [_ Hp _ _ _].
  rewrite <- (lookup_take_lt _ (length hp)) by (by eapply lookup_lt_Some).
  by rewrite Hp.
Qed.

Lemma v_below : v < length hp.
Proof. by eapply lookup_lt_Some. Qed.

Lemma update_has_all d k x :
  dict_get k vi = Some x →
  dict_get k (dict_update (items d) vi) = Some x.
Proof. intros Hk. by rewrite dict_get_update_unique, Hk. Qed.

(** One round of the loop. *)
Lemma save_step h ns R0 :
  inv h → ns ∈ nss → h0 !! r = Some R0 →
  ∃ h',
    StateManager.save_item ns (VRef v) (VRef r) h = Ok h'
    ∧ inv h' ∧ full h' ns
    ∧ ∀ ns', full h ns' → full h' ns'.
Proof.
  intros Hinv Hin HR0.
  pose proof (inv_variables h Hinv) as Hhv.
  pose proof v_below as Hvlt.
  destruct Hinv as [Hlen Hpre Hroot Hother Huntouched].
  destruct (Hroot R0 HR0) as (R & HR & Hdflt & Hkeys).
  unfold StateManager.save_item. simpl. rewrite (heap_get_Some _ _ _ HR). simpl.
  unfold dict_mem.
  destruct (dict_get ns (items R)) as [x|] eqn:Hx; simpl.
  - (* the namespace exists: update *)
    destruct (Hkeys ns) as [Hsame|(_ & _ & HV)].
    + rewrite Hx in Hsame. symmetry in Hsame.
      destruct (Hns ns R0 x Hin HR0 Hsame) as (l & -> & [Hl1 Hl2] & Hlr).
      destruct (lookup_lt_is_Some_2 h0 l Hl2) as [d0 Hd0].
      destruct (Hother l d0 Hlr Hd0) as (d & Hd & Hdd & Hdk).
      simpl. rewrite (heap_get_Some _ _ _ Hd). simpl.
      rewrite (heap_get_Some _ _ _ Hhv). simpl.
      rewrite decide_False by lia.
      eexists. split; [done|].
      unfold heap_set_items.
      assert (l < length h) as Hlh by (by eapply lookup_lt_Some).
      split; [|split].
      * split.
        -- by rewrite length_insert.
        -- by rewrite take_insert_ge by lia.
        -- intros R0' HR0'. rewrite list_lookup_insert_ne by done.
           by apply Hroot.
        -- intros l1 d1 Hl1r Hd1.
           destruct (decide (l1 = l)) as [->|Hne].
           ++ rewrite list_lookup_insert_eq by done.
              eexists. split; [done|]. split; [simpl; congruence|].
              simpl. intros k. rewrite dict_get_update_unique by done.
              assert (d1 = d0) as -> by congruence.
              destruct (dict_get k vi) as [y|] eqn:Hy.
              ** right. eauto.
              ** destruct (Hdk k) as [?|[[? ?] _]]; [by left|congruence].
           ++ rewrite list_lookup_insert_ne by done. by apply Hother.
        -- intros l1 Hl1r Hun. rewrite list_lookup_insert_ne; [by apply Huntouched|].
           intros ->. apply (Hun ns Hin).
           unfold entry. simpl. by rewrite HR0.
      * exists l. eexists. split; [|split; [|split]].
        -- unfold entry. simpl. rewrite list_lookup_insert_ne by done.
           rewrite HR. done.
        -- congruence.
        -- by rewrite list_lookup_insert_eq.
        -- simpl. intros k y. apply update_has_all.
      * intros ns' (l' & d' & He & Hl'r & Hd' & Hall).
        exists l'.
        assert (entry (<[l:={| dflt := dflt d;
                                items := dict_update (items d) vi |}]> h)
                      (VRef r) ns' = Some (VRef l')) as He'.
        { unfold entry in *. simpl in *.
          by rewrite list_lookup_insert_ne by done. }
        destruct (decide (l' = l)) as [->|Hne].
        -- eexists. split; [done|]. split; [done|].
           split; [by rewrite list_lookup_insert_eq|].
           simpl. intros k y. apply update_has_all.
        -- exists d'. split; [done|]. split; [done|]. split; [|done].
           by rewrite list_lookup_insert_ne.
    + (* bound to [variables] itself: nothing changes *)
      rewrite Hx in HV. injection HV as ->.
      simpl. rewrite (heap_get_Some _ _ _ Hhv). simpl.
      rewrite decide_True by done.
      exists h. split; [done|]. split; [by split|]. split; [|done].
      exists v, vd. split; [|split; [|done]].
      * unfold entry. simpl. by rewrite HR.
      * intros [= ->]. lia.
  - (* a new namespace: bind it to [variables] *)
    eexists. split; [done|].
    unfold heap_set_items.
    assert (r < length h) as Hrh by (by eapply lookup_lt_Some).
    split; [|split].
    + split.
      * by rewrite length_insert.
      * by rewrite take_insert_ge by lia.
      * intros R0' HR0'. assert (R0' = R0) as -> by congruence.
        rewrite list_lookup_insert_eq by done.
        eexists. split; [done|]. split; [done|]. simpl.
        intros k. rewrite dict_get_set. case_decide as Hk; [|apply Hkeys].
        subst k. right. split; [done|]. split; [|done].
        destruct (Hkeys ns) as [Hsame|(_ & _ & HV)]; congruence.
      * intros l1 d1 Hl1r Hd1. rewrite list_lookup_insert_ne by done.
        by apply Hother.
      * intros l1 Hl1r Hun. rewrite list_lookup_insert_ne by done.
        by apply Huntouched.
    + exists v, vd. split; [|split; [|split; [|done]]].
      * unfold entry. simpl. rewrite list_lookup_insert_eq by done.
        simpl. apply dict_get_set_eq.
      * intros [= ->]. lia.
      * rewrite list_lookup_insert_ne by lia. done.
    + intros ns' (l' & d' & He & Hl'r & Hd' & Hall).
      unfold entry in He. simpl in He. rewrite HR in He. simpl in He.
      assert (ns' ≠ ns) as Hne by congruence.
      assert (l' ≠ r) as Hl' by congruence.
      exists l', d'. split; [|split; [done|split; [|done]]].
      * unfold entry. simpl. rewrite list_lookup_insert_eq by done.
        simpl. by rewrite dict_get_set_ne.
      * by rewrite list_lookup_insert_ne.
Qed.

Lemma save_items_spec todo h R0 :
  inv h → h0 !! r = Some R0 →
  (∀ kv, kv ∈ todo → kv.1 ∈ nss ∧ kv.2 = VRef v) →
  ∃ h',
    StateManager.save_items todo (VRef r) h = Ok h'
    ∧ inv h'
    ∧ (∀ kv, kv ∈ todo → full h' kv.1)
    ∧ (∀ ns, full h ns → full h' ns).
Proof.
  intros Hinv HR0. revert h Hinv.
  induction todo as [|[ns x] todo IH]; intros h Hinv Htodo.
  - exists h. split; [done|]. split; [done|]. split; [|done].
    intros kv H. by apply elem_of_nil in H.
  - destruct (Htodo (ns, x)) as [Hin Hx]; [left|]. simpl in Hin, Hx. subst x.
    destruct (save_step h ns R0 Hinv Hin HR0) as (h1 & Hstep & Hinv1 & Hfull1 & Hkeep1).
    destruct (IH h1 Hinv1) as (h' & Hrest & Hinv' & Hfull' & Hkeep').
    { intros kv Hkv. apply Htodo. by right. }
    exists h'. split; [|split; [done|split]].
    + simpl. by rewrite Hstep.
    + intros kv [->|Hkv]%elem_of_cons; [|by apply Hfull'].
      simpl. by apply Hkeep'.
    + intros ns' Hns'. by apply Hkeep', Hkeep1.
Qed.

End SaveLoop.

(** ** [save] on a state that [load] shows as a mapping *)

Lemma deref_relocate hp h v :
  deref (relocate_heap hp h) (shift_value (length hp) v)
  = shift_dict (length hp) <$> deref h v.
Proof. destruct v; simpl; try done. apply lookup_relocate_heap. Qed.

Lemma entry_relocate hp h v k :
  entry (relocate_heap hp h) (shift_value (length hp) v) k
  = shift_value (length hp) <$> entry h v k.
Proof.
  unfold entry. rewrite deref_relocate.
  destruct (deref h v) as [d|]; simpl; [|done]. apply dict_get_rename.
Qed.

Lemma namespace_dict_relocate hp h v ns :
  namespace_dict (relocate_heap hp h) (shift_value (length hp) v) ns
  = shift_dict (length hp) <$> namespace_dict h v ns.
Proof.
  unfold namespace_dict. rewrite entry_relocate.
  destruct (entry h v ns) as [x|]; simpl; [|done]. apply deref_relocate.
Qed.

Lemma is_mapping_lookup h v :
  is_mapping h v = true ↔ ∃ l d, v = VRef l ∧ h !! l = Some d.
Proof.
  destruct v; simpl; try (split; [done|by intros (? & ? & ? & ?)]).
  rewrite bool_decide_eq_true. split.
  - intros [d Hd]%lookup_lt_is_Some_2. eauto.
  - intros (l' & d & [= <-] & Hd). by eapply lookup_lt_Some.
Qed.

Lemma save_inv_refl hp vi nss V r h0 :
  take (length hp) h0 = hp → save_inv hp vi nss V r h0 h0.
Proof.
  intros Hp. split; [done|done| | |done].
  - intros R0 HR0. exists R0. split; [done|]. split; [done|]. by left.
  - intros l d0 _ Hd0. exists d0. split; [done|]. split; [done|]. by left.
Qed.

(** [save] succeeds when the listed namespaces that exist are
    dictionaries, and it keeps the promises of its loop. *)
Lemma save_ok hp v vd nss f hv rv :
  hp !! v = Some vd →
  unique_keys (items vd) = true →
  items vd ≠ [] →
  StateManager.load [] f = Ok (hv, VRef rv) →
  rv < length hv →
  forallb (namespace_ok hv (VRef rv)) nss = true →
  ∃ h1,
    StateManager.save hp (VRef v) (Some nss) f
      = Ok (Pickled h1 (VRef (length hp + rv)))
    ∧ save_inv hp (items vd) nss (VRef v) (length hp + rv)
               (relocate_heap hp hv) h1
    ∧ ∀ ns, ns ∈ nss → holds_all (items vd) h1 (VRef (length hp + rv)) ns.
Proof.
  intros Hv Hu Hne Hload Hrv Hok.
  destruct (lookup_lt_is_Some_2 hv rv Hrv) as [Rv HRv].
  set (h0 := relocate_heap hp hv). set (r := length hp + rv).
  assert (h0 !! r = Some (shift_dict (length hp) Rv)) as HR0.
  { unfold h0, r. by rewrite lookup_relocate_heap, HRv. }
  destruct (save_items_spec hp v vd Hv Hu nss h0 r) with
    (todo := StateManager.new_data (VRef v) nss) (h := h0)
    (R0 := shift_dict (length hp) Rv)
    as (h1 & Hitems & Hinv & Hfull & _).
  - unfold r. lia.
  - intros ns R0 x Hin HR0' Hx.
    assert (R0 = shift_dict (length hp) Rv) as -> by congruence.
    simpl in Hx. rewrite dict_get_rename in Hx.
    destruct (dict_get ns (items Rv)) as [x'|] eqn:Hx'; [|done].
    injection Hx as <-.
    rewrite forallb_forall in Hok.
    specialize (Hok ns (proj1 (list_elem_of_In _ _) Hin)).
    unfold namespace_ok, entry in Hok. simpl in Hok.
    rewrite HRv in Hok. simpl in Hok. rewrite Hx' in Hok.
    apply andb_true_iff in Hok as [Hm Hneq].
    apply is_mapping_lookup in Hm as (l' & d' & -> & Hd').
    apply negb_true_iff, bool_decide_eq_false in Hneq.
    exists (length hp + l'). split; [done|].
    apply lookup_lt_Some in Hd'.
    unfold h0, r. rewrite length_relocate_heap.
    split; [lia|]. intros ?. apply Hneq. f_equal. lia.
  - apply save_inv_refl. apply take_relocate_heap.
  - done.
  - apply new_data_elem.
  - exists h1. split; [|split; [done|]].
    + unfold StateManager.save. simpl. rewrite Hv.
      destruct (items vd) eqn:Hi; [done|]. simpl.
      rewrite load_relocate, Hload. simpl.
      fold h0. fold r. by rewrite Hitems.
    + intros ns Hin.
      destruct (new_data_keys (VRef v) nss ns Hin) as (kv & Hkv & <-).
      by apply Hfull.
Qed.

(** ** [load] on a pickled mapping *)

Lemma load_pickled_plain fh r R :
  fh !! r = Some R →
  dict_get "global" (items R) = None →
  StateManager.load [] (Pickled fh (VRef r)) = Ok (fh, VRef r).
Proof.
  intros HR Hg. simpl. rewrite shift_heap_0.
  rewrite (heap_get_Some _ _ _ HR). simpl.
  unfold dict_mem. by rewrite Hg.
Qed.

Lemma load_pickled_global fh r R g G :
  fh !! r = Some R →
  dict_get "global" (items R) = Some (VRef g) →
  fh !! g = Some G →
  StateManager.load [] (Pickled fh (VRef r))
  = Ok (if decide (r = g) then fh
        else <[r := Dict (dflt R) (dict_update (items R) (items G))]> fh,
        VRef r).
Proof.
  intros HR Hg HG. simpl. rewrite shift_heap_0.
  rewrite (heap_get_Some _ _ _ HR). simpl.
  unfold dict_mem. rewrite Hg. simpl.
  rewrite (heap_get_Some _ _ _ HR). simpl.
  rewrite (heap_get_Some _ _ _ HG). simpl.
  by case_decide.
Qed.

(** The copy of the global variables touches the mapping only, and there
    only the names of global variables. *)
Lemma load_pickled_frame fh r R :
  fh !! r = Some R →
  dict_or_absent fh (entry fh (VRef r) "global") = true →
  ∃ h2 R2,
    StateManager.load [] (Pickled fh (VRef r)) = Ok (h2, VRef r)
    ∧ length h2 = length fh
    ∧ h2 !! r = Some R2
    ∧ dflt R2 = dflt R
    ∧ (∀ l, l ≠ r → h2 !! l = fh !! l)
    ∧ (∀ k, entry fh (VRef r) "global" = Some (VRef r)
            ∨ has_key fh (entry fh (VRef r) "global") k = false →
            dict_get k (items R2) = dict_get k (items R)).
Proof.
  intros HR Hg.
  assert (entry fh (VRef r) "global" = dict_get "global" (items R)) as He.
  { unfold entry. simpl. by rewrite HR. }
  rewrite He in *. clear He.
  destruct (dict_get "global" (items R)) as [x|] eqn:Hx.
  - destruct x as [| | | |g]; try done. simpl in Hg.
    apply bool_decide_eq_true in Hg.
    destruct (lookup_lt_is_Some_2 fh g Hg) as [G HG].
    rewrite (load_pickled_global fh r R g G) by done.
    destruct (decide (r = g)) as [<-|Hne].
    + exists fh, R. repeat split; try done.
    + assert (r < length fh) by (by eapply lookup_lt_Some).
      eexists _, _. split; [done|]. split; [by rewrite length_insert|].
      split; [by rewrite list_lookup_insert_eq|]. split; [done|].
      split.
      * intros l Hl. by rewrite list_lookup_insert_ne.
      * simpl. intros k [[= ?]|Hk]; [done|].
        unfold has_key in Hk. simpl in Hk. rewrite HG in Hk.
        apply dict_get_update_other. by apply dict_mem_false.
  - rewrite (load_pickled_plain fh r R) by done.
    exists fh, R. repeat split; try done.
Qed.

(** ** Values as trees *)

Lemma unfold_relocate n hp h x :
  unfold n (relocate_heap hp h) (shift_value (length hp) x) = unfold n h x.
Proof.
  revert x. induction n as [|n IH]; intros x; destruct x as [| | | |l];
    simpl; try done.
  rewrite lookup_relocate_heap.
  destruct (h !! l) as [d|]; simpl; [|done]. f_equal.
  rewrite <- list_fmap_compose. apply list_fmap_ext.
  intros ? [k y] _. simpl. f_equal. apply IH.
Qed.

Lemma heap_closed_lookup (hp : heap) l d kv :
  heap_closed hp = true → hp !! l = Some d → kv ∈ items d →
  value_closed (length hp) kv.2 = true.
Proof.
  unfold heap_closed, dict_closed. rewrite forallb_forall.
  intros Hc Hd Hkv.
  specialize (Hc d). rewrite forallb_forall in Hc.
  apply (Hc (proj1 (list_elem_of_In _ _) (list_elem_of_lookup_2 _ _ _ Hd))).
  by apply list_elem_of_In.
Qed.

(** The objects of a closed heap read the same in every heap that
    extends it. *)
Lemma unfold_prefix n (hp h : heap) x :
  heap_closed hp = true →
  take (length hp) h = hp →
  value_closed (length hp) x = true →
  unfold n h x = unfold n hp x.
Proof.
  intros Hc Hp. revert x.
  induction n as [|n IH]; intros x Hx; destruct x as [| | | |l]; simpl; try done.
  simpl in Hx. apply bool_decide_eq_true in Hx.
  assert (h !! l = hp !! l) as ->.
  { rewrite <- (lookup_take_lt h (length hp) l) by done. by rewrite Hp. }
  destruct (hp !! l) as [d|] eqn:Hd; [|done]. f_equal.
  apply list_fmap_ext. intros i [k y] Hi. simpl. f_equal.
  apply IH.
  apply (heap_closed_lookup hp l d (k, y)); [done|done|].
  by eapply list_elem_of_lookup_2.
Qed.


(** ** The state that [load] shows after a [save] *)

Lemma take_agree (h h' : heap) n r :
  length h' = length h → n ≤ r → (∀ l, l ≠ r → h' !! l = h !! l) →
  take n h' = take n h.
Proof.
  intros Hlen Hn Hl. apply list_eq. intros i.
  destruct (decide (i < n)) as [Hi|Hi].
  - rewrite !lookup_take_lt by done. apply Hl. lia.
  - rewrite !lookup_take_ge by lia. done.
Qed.

Lemma no_clash_not_global vi nss h data k g G :
  no_clash vi nss h data k = true →
  entry h data "global" = Some (VRef g) → h !! g = Some G →
  dict_get k (items G) = None.
Proof.
  unfold no_clash, has_key. intros [H _]%andb_true_iff Hg HG.
  rewrite Hg in H. simpl in H. rewrite HG in H.
  by apply negb_true_iff, dict_mem_false in H.
Qed.

Lemma no_clash_cases vi nss h data k :
  no_clash vi nss h data k = true →
  dict_get k vi = None ∨ global_written nss h data = false.
Proof.
  unfold no_clash. intros [_ [H|H]%orb_true_iff]%andb_true_iff.
  - left. by apply negb_true_iff, dict_mem_false in H.
  - right. by apply negb_true_iff in H.
Qed.

Lemma shift_value_ref n x l :
  shift_value n x = VRef (n + l) → x = VRef l.
Proof. destruct x; simpl; try done. intros [= ?]. f_equal. lia. Qed.

Lemma save_view hp v vd nss f hv rv Rv :
  hp !! v = Some vd →
  unique_keys (items vd) = true →
  items vd ≠ [] →
  StateManager.load [] f = Ok (hv, VRef rv) →
  hv !! rv = Some Rv →
  dict_or_absent hv (dict_get "global" (items Rv)) = true →
  forallb (namespace_ok hv (VRef rv)) nss = true →
  ∃ h1 h2 R2,
    StateManager.save hp (VRef v) (Some nss) f
      = Ok (Pickled h1 (VRef (length hp + rv)))
    ∧ StateManager.load [] (Pickled h1 (VRef (length hp + rv)))
      = Ok (h2, VRef (length hp + rv))
    ∧ length h2 = length hp + length hv
    ∧ take (length hp) h2 = hp
    ∧ h2 !! (length hp + rv) = Some R2
    ∧ (∀ l d0, l ≠ rv → hv !! l = Some d0 →
         ∃ d, h2 !! (length hp + l) = Some d
              ∧ dict_updated (items vd) (shift_dict (length hp) d0) d)
    ∧ (∀ k, no_clash (items vd) nss hv (VRef rv) k = true →
         dict_get k (items R2) =
           match dict_get k (items Rv) with
           | Some x => Some (shift_value (length hp) x)
           | None => if decide (k ∈ nss) then Some (VRef v) else None
           end)
    ∧ (∀ ns, ns ∈ nss → no_clash (items vd) nss hv (VRef rv) ns = true →
         holds_all (items vd) h2 (VRef (length hp + rv)) ns).
Proof.
  intros Hv Hu Hne Hload HRv Hglob Hok.
  assert (rv < length hv) as Hrv by (by eapply lookup_lt_Some).
  destruct (save_ok hp v vd nss f hv rv Hv Hu Hne Hload Hrv Hok)
    as (h1 & Hsave & Hinv & Hfull).
  set (r := length hp + rv) in *.
  set (R0 := shift_dict (length hp) Rv).
  assert (relocate_heap hp hv !! r = Some R0) as HR0.
  { unfold r, R0. by rewrite lookup_relocate_heap, HRv. }
  pose proof (inv_variables hp v vd Hv nss _ r h1 Hinv) as Hh1v.
  pose proof (v_below hp v vd Hv) as Hvlt.
  destruct Hinv as [Hlen Hpre Hroot Hother Huntouched].
  rewrite length_relocate_heap in Hlen.
  destruct (Hroot R0 HR0) as (R1 & HR1 & Hdflt1 & Hkeys1).
  assert (∀ k, dict_get k (items R0) = shift_value (length hp) <$> dict_get k (items Rv))
    as HR0k.
  { intros k. unfold R0. simpl. apply dict_get_rename. }
  assert (entry h1 (VRef r) "global" = dict_get "global" (items R1)) as Hentry.
  { unfold entry. simpl. by rewrite HR1. }
  (* the entry "global" written by [save] is a dictionary, or absent *)
  assert (dict_or_absent h1 (entry h1 (VRef r) "global") = true) as Hglob1.
  { rewrite Hentry.
    destruct (Hkeys1 "global") as [Hsame|(_ & _ & HV)].
    - rewrite Hsame, HR0k.
      destruct (dict_get "global" (items Rv)) as [[| | | |l']|]; try done.
      simpl in *. apply bool_decide_eq_true in Hglob.
      apply bool_decide_eq_true. lia.
    - rewrite HV. simpl. apply bool_decide_eq_true. lia. }
  destruct (load_pickled_frame h1 r R1 HR1 Hglob1)
    as (h2 & R2 & Hload2 & Hlen2 & HR2 & Hdflt2 & Hframe & Hframek).
  (* names that clash with nothing are not touched by the copy *)
  assert (∀ k, no_clash (items vd) nss hv (VRef rv) k = true →
               dict_get k (items R2) = dict_get k (items R1)) as Hquiet.
  { intros k Hk. apply Hframek. rewrite Hentry.
    assert (entry hv (VRef rv) "global" = dict_get "global" (items Rv)) as Hev.
    { unfold entry. simpl. by rewrite HRv. }
    destruct (Hkeys1 "global") as [Hsame|(Hin & Hnone & HV)].
    - rewrite Hsame, HR0k.
      destruct (dict_get "global" (items Rv)) as [x|] eqn:Hx; [|by right].
      destruct x as [| | | |l']; try done. simpl.
      destruct (decide (l' = rv)) as [->|Hl']; [by left|]. right.
      simpl in Hglob. apply bool_decide_eq_true in Hglob.
      destruct (lookup_lt_is_Some_2 hv l' Hglob) as [G0 HG0].
      pose proof (no_clash_not_global _ _ _ _ _ l' G0 Hk Hev HG0) as HG0k.
      assert (relocate_heap hp hv !! (length hp + l')
              = Some (shift_dict (length hp) G0)) as HG0'.
      { by rewrite lookup_relocate_heap, HG0. }
      assert (length hp + l' ≠ r) as Hne' by (unfold r; lia).
      assert (∃ G1, h1 !! (length hp + l') = Some G1
                    ∧ dict_get k (items G1) = None) as (G1 & HG1 & HG1k).
      { destruct (no_clash_cases _ _ _ _ _ Hk) as [Hvi|Hgw].
        - destruct (Hother _ _ Hne' HG0') as (G1 & HG1 & _ & HG1k).
          exists G1. split; [done|].
          destruct (HG1k k) as [->|[[y Hy] _]]; [|congruence].
          simpl. by rewrite dict_get_rename, HG0k.
        - exists (shift_dict (length hp) G0). split.
          + rewrite Huntouched; [done|done|].
            intros ns Hin He.
            change (VRef r) with (shift_value (length hp) (VRef rv)) in He.
            rewrite entry_relocate in He.
            destruct (entry hv (VRef rv) ns) as [y|] eqn:Hy; [|done].
            simpl in He. injection He as He. apply shift_value_ref in He.
            subst y. unfold global_written in Hgw. rewrite Hev in Hgw.
            assert (existsb (fun ns => bool_decide
                      (entry hv (VRef rv) ns = Some (VRef l'))) nss = true)
              as Hex; [|congruence].
            apply existsb_exists. exists ns. split.
            * by apply list_elem_of_In.
            * by apply bool_decide_eq_true.
          + simpl. by rewrite dict_get_rename, HG0k. }
      unfold has_key. simpl. rewrite HG1. by apply dict_mem_false.
    - right. rewrite HV. unfold has_key. simpl. rewrite Hh1v.
      apply dict_mem_false.
      destruct (no_clash_cases _ _ _ _ _ Hk) as [Hvi|Hgw]; [done|].
      unfold global_written in Hgw. rewrite Hev in Hgw.
      rewrite HR0k in Hnone.
      destruct (dict_get "global" (items Rv)); [done|].
      by apply bool_decide_eq_false in Hgw. }
  exists h1, h2, R2.
  split; [done|]. split; [done|]. split; [lia|].
  split; [|split; [done|split; [|split]]].
  - transitivity (take (length hp) h1); [|done].
    apply (take_agree h1 h2 _ r); [done|unfold r; lia|done].
  - intros l d0 Hl Hd0.
    rewrite Hframe by (unfold r; lia).
    apply Hother; [unfold r; lia|].
    by rewrite lookup_relocate_heap, Hd0.
  - intros k Hk. rewrite (Hquiet k Hk).
    destruct (Hkeys1 k) as [Hsame|(Hin & Hnone & HV)].
    + rewrite Hsame, HR0k.
      destruct (dict_get k (items Rv)) as [x|] eqn:Hx; [done|].
      simpl. case_decide as Hin; [|done].
      destruct (Hfull k Hin) as (l & d & He & _).
      unfold entry in He. simpl in He. rewrite HR1 in He. simpl in He.
      rewrite Hsame, HR0k, Hx in He. done.
    + rewrite HR0k in Hnone.
      destruct (dict_get k (items Rv)); [done|].
      by rewrite decide_True.
  - intros ns Hin Hk.
    destruct (Hfull ns Hin) as (l & d & He & Hlr & Hd & Hall).
    exists l, d. split; [|split; [done|split; [|done]]].
    + unfold entry in *. simpl in *. rewrite HR2. rewrite HR1 in He.
      simpl in *. by rewrite (Hquiet ns Hk).
    + rewrite Hframe; [done|]. congruence.
Qed.

(** ** C1 *)

Lemma dict_updated_keeps_keys vi d0 d k :
  dict_updated vi d0 d → is_Some (dict_get k (items d0)) →
  is_Some (dict_get k (items d)).
Proof.
  intros [_ Hk] H0. destruct (Hk k) as [->|[Hv ->]]; done.
Qed.

(** C1 (amended): let the state that [load] shows be a mapping in which
    the entry "global" and every listed namespace is absent or a
    dictionary (other than the mapping itself), and let no listed
    namespace be a variable of the namespace "global", nor a key of
    [variables] when the [save] writes to the dictionary of "global"
    ("global" is listed, or is the same dictionary as a listed
    namespace).  Then [save] of a non-empty [variables] succeeds, and the
    next [load], in whatever process, maps every listed namespace to a
    dictionary that holds every item of [variables], with the same value,
    and every key that the namespace had before; an entry that the
    namespace had under a key that is not in [variables] is retained
    with its value: the same scalar, or the same dictionary object, at
    its place in the heap of the loading process.  ([hp], the heap of
    the caller, is a heap as Python builds it: its references point to
    its objects, and [variables] has each key once.  The values of the
    model all pickle.) *)
Theorem save_then_load hp v vd namespaces f hv data hp' :
  heap_closed hp = true →
  hp !! v = Some vd →
  unique_keys (items vd) = true →
  items vd ≠ [] →
  StateManager.load [] f = Ok (hv, data) →
  is_mapping hv data = true →
  dict_or_absent hv (entry hv data "global") = true →
  forallb (namespace_ok hv data) namespaces = true →
  forallb (no_clash (items vd) namespaces hv data) namespaces = true →
  ∃ f' h' data',
    StateManager.save hp (VRef v) (Some namespaces) f = Ok f' ∧
    StateManager.load hp' f' = Ok (h', data') ∧
    ∀ ns, ns ∈ namespaces →
      ∃ d, namespace_dict h' data' ns = Some d ∧
        (∀ k x, dict_get k (items vd) = Some x →
           ∃ y, dict_get k (items d) = Some y ∧ same_value hp x h' y) ∧
        (∀ d0 k y0, namespace_dict hv data ns = Some d0 →
           dict_get k (items d0) = Some y0 →
           ∃ y, dict_get k (items d) = Some y ∧
                (dict_get k (items vd) = None →
                 y = shift_value (length hp') (shift_value (length hp) y0))).
Proof.
  intros Hc Hv Hu Hne Hload Hmap Hglob Hok Hclash.
  apply is_mapping_lookup in Hmap as (rv & Rv & -> & HRv).
  assert (entry hv (VRef rv) "global" = dict_get "global" (items Rv)) as He.
  { unfold entry. simpl. by rewrite HRv. }
  rewrite He in Hglob.
  destruct (save_view hp v vd namespaces f hv rv Rv Hv Hu Hne Hload HRv Hglob Hok)
    as (h1 & h2 & R2 & Hsave & Hload2 & Hlen2 & Hpre2 & HR2 & Hobj & Hkeys & Hfull).
  set (r := length hp + rv) in *.
  exists (Pickled h1 (VRef r)), (relocate_heap hp' h2),
         (shift_value (length hp') (VRef r)).
  split; [done|]. split; [by rewrite load_relocate, Hload2|].
  intros ns Hin.
  rewrite forallb_forall in Hclash.
  pose proof (Hclash ns (proj1 (list_elem_of_In _ _) Hin)) as Hns.
  destruct (Hfull ns Hin Hns) as (l & d & Hentry & Hlr & Hd & Hall).
  exists (shift_dict (length hp') d). split; [|split].
  - rewrite namespace_dict_relocate. unfold namespace_dict.
    rewrite Hentry. simpl. by rewrite Hd.
  - intros k x Hk. exists (shift_value (length hp') x). split.
    + simpl. by rewrite dict_get_rename, (Hall k x Hk).
    + intros n. rewrite unfold_relocate. symmetry.
      apply unfold_prefix; [done|done|].
      apply (heap_closed_lookup hp v vd (k, x)); [done|done|].
      by apply dict_get_Some_elem.
  - intros d0 k y0 Hd0 Hk0. simpl. rewrite dict_get_rename.
    unfold namespace_dict, entry in Hd0. simpl in Hd0.
    rewrite HRv in Hd0. simpl in Hd0.
    destruct (dict_get ns (items Rv)) as [x0|] eqn:Hx0; [|done].
    simpl in Hd0. destruct x0 as [| | | |l0]; try done. simpl in Hd0.
    (* the namespace is still bound to the same object *)
    rewrite forallb_forall in Hok.
    pose proof (Hok ns (proj1 (list_elem_of_In _ _) Hin)) as Hnsok.
    unfold namespace_ok, entry in Hnsok. simpl in Hnsok.
    rewrite HRv in Hnsok. simpl in Hnsok. rewrite Hx0 in Hnsok.
    apply andb_true_iff in Hnsok as [_ Hneq].
    apply negb_true_iff, bool_decide_eq_false in Hneq.
    assert (l0 ≠ rv) as Hl0 by congruence.
    pose proof (Hkeys ns Hns) as HR2ns. rewrite Hx0 in HR2ns.
    unfold entry in Hentry. simpl in Hentry. rewrite HR2 in Hentry.
    simpl in Hentry. rewrite HR2ns in Hentry.
    injection Hentry as <-.
    destruct (Hobj l0 d0 Hl0 Hd0) as (d' & Hd' & Hupd).
    assert (d' = d) as -> by congruence.
    destruct Hupd as [_ Hupd].
    destruct (Hupd k) as [Hsame|[[x Hx] Hnew]].
    + rewrite Hsame. simpl. rewrite dict_get_rename, Hk0. simpl.
      by eexists.
    + rewrite Hnew, Hx. simpl. eexists. split; [done|]. congruence.
Qed.

Lemma save_then_load_witness :
  let hp := [Dict false [("x", VInt 1); ("y", VRef 1)];
             Dict false [("z", VStr "s")]] in
  let fh := [Dict false [("old", VInt 0)]; Dict true [("a", VRef 0)]] in
  ∃ f' h' data',
    StateManager.save hp (VRef 0) (Some ["a"; "b"]) (Pickled fh (VRef 1))
      = Ok f' ∧
    StateManager.load [empty_dict] f' = Ok (h', data') ∧
    ∀ ns, ns ∈ ["a"; "b"] →
      ∃ d, namespace_dict h' data' ns = Some d ∧
        (∀ k x, dict_get k [("x", VInt 1); ("y", VRef 1)] = Some x →
           ∃ y, dict_get k (items d) = Some y ∧ same_value hp x h' y) ∧
        (∀ d0 k y0, namespace_dict fh (VRef 1) ns = Some d0 →
           dict_get k (items d0) = Some y0 →
           ∃ y, dict_get k (items d) = Some y ∧
                (dict_get k [("x", VInt 1); ("y", VRef 1)] = None →
                 y = shift_value (length [empty_dict])
                       (shift_value (length hp) y0))).
Proof.
  intros hp fh.
  apply (save_then_load hp 0 (Dict false [("x", VInt 1); ("y", VRef 1)])
           ["a"; "b"] (Pickled fh (VRef 1)) fh (VRef 1) [empty_dict]);
    solve [reflexivity | discriminate].
Defined.

(** ** The operations keep a mapping in the cache file *)

Lemma load_pickled_unfold fh root :
  StateManager.load [] (Pickled fh root) =
    (c ← py_contains fh root "global";
     if c : bool then
       _ ← py_update_method root;
       '(h1, g) ← py_getitem fh root "global";
       h2 ← py_update h1 root g;
       Ok (h2, root)
     else Ok (fh, root)).
Proof.
  unfold StateManager.load, StateManager._load.
  change (Ok ?a ≫= ?k) with (k a). cbv beta iota.
  change ([] ++ shift_heap (length (@nil dict)) fh) with (shift_heap 0 fh).
  change (length (@nil dict)) with 0.
  by rewrite shift_heap_0, shift_value_0.
Qed.

#[local] Arguments py_contains : simpl never.
#[local] Arguments py_getitem : simpl never.
#[local] Arguments py_update : simpl never.
#[local] Arguments py_setitem : simpl never.
#[local] Arguments py_delitem : simpl never.
#[local] Arguments py_get : simpl never.
#[local] Arguments py_keys : simpl never.

Lemma py_getitem_length h v k h' x :
  py_getitem h v k = Ok (h', x) → length h ≤ length h'.
Proof.
  unfold py_getitem. destruct v as [| | | |l]; simpl; try done.
  unfold heap_get. destruct (h !! l) as [d|]; simpl; [|done].
  destruct (dict_get k (items d)).
  - intros [= <- _]. done.
  - destruct (dflt d); [|done]. intros [= <- _].
    unfold heap_set_items. rewrite length_insert, length_app. lia.
Qed.

Lemma py_update_length h v o h' :
  py_update h v o = Ok h' → length h' = length h.
Proof.
  unfold py_update. destruct v as [| | | |l]; simpl; try done.
  unfold heap_get. destruct (h !! l) as [d|]; simpl; [|done].
  destruct o as [| | |s|l']; simpl; try done.
  - destruct (String.eqb s ""); [|done]. by intros [= <-].
  - destruct (h !! l') as [o|]; simpl; [|done].
    case_decide; intros [= <-]; [done|].
    unfold heap_set_items. by rewrite length_insert.
Qed.

Lemma py_setitem_length h v k x h' :
  py_setitem h v k x = Ok h' → length h' = length h.
Proof.
  unfold py_setitem. destruct v as [| | | |l]; simpl; try done.
  unfold heap_get. destruct (h !! l) as [d|]; simpl; [|done].
  intros [= <-]. unfold heap_set_items. by rewrite length_insert.
Qed.

Lemma py_delitem_length h v k h' :
  py_delitem h v k = Ok h' → length h' = length h.
Proof.
  unfold py_delitem. destruct v as [| | | |l]; simpl; try done.
  unfold heap_get. destruct (h !! l) as [d|]; simpl; [|done].
  destruct (dict_mem k (items d)); [|done].
  intros [= <-]. unfold heap_set_items. by rewrite length_insert.
Qed.

Lemma except_KeyError_length (body : res heap) (h h' : heap) :
  (∀ h1, body = Ok h1 → length h ≤ length h1) →
  except_KeyError body h = Ok h' → length h ≤ length h'.
Proof.
  intros Hb. destruct body as [h1|[]]; simpl; try done.
  - intros [= <-]. by apply Hb.
  - by intros [= <-].
Qed.

Lemma save_item_length ns variables data h h' :
  StateManager.save_item ns variables data h = Ok h' → length h ≤ length h'.
Proof.
  unfold StateManager.save_item.
  destruct (py_contains h data ns) as [[]|]; simpl; [| |done].
  - destruct (py_getitem h data ns) as [[h1 o]|] eqn:Hg; simpl; [|done].
    intros Hu%py_update_length. apply py_getitem_length in Hg. lia.
  - intros Hs%py_setitem_length. lia.
Qed.

Lemma save_items_length todo data h h' :
  StateManager.save_items todo data h = Ok h' → length h ≤ length h'.
Proof.
  revert h. induction todo as [|[ns x] todo IH]; intros h; simpl.
  - by intros [= <-].
  - destruct (StateManager.save_item ns x data h) as [h1|] eqn:H1; simpl; [|done].
    intros H'%IH. apply save_item_length in H1. lia.
Qed.

Lemma del_namespaces_length nss data h h' :
  StateManager.del_namespaces nss data h = Ok h' → length h ≤ length h'.
Proof.
  revert h. induction nss as [|ns nss IH]; intros h; simpl.
  - by intros [= <-].
  - destruct (except_KeyError (py_delitem h data ns) h) as [h1|] eqn:H1;
      simpl; [|done].
    intros H'%IH. apply except_KeyError_length in H1; [lia|].
    intros h2 Hd%py_delitem_length. lia.
Qed.

Lemma del_variable_length ns variable data h h' :
  StateManager.del_variable ns variable data h = Ok h' → length h ≤ length h'.
Proof.
  unfold StateManager.del_variable.
  destruct (py_getitem h data ns) as [[h1 o]|e] eqn:Hg.
  - apply py_getitem_length in Hg.
    intros H1%except_KeyError_length; [lia|].
    intros h2 Hd%py_delitem_length. lia.
  - destruct e; try done. by intros [= <-].
Qed.

Lemma del_variables_length ns variables data h h' :
  StateManager.del_variables ns variables data h = Ok h' →
  length h ≤ length h'.
Proof.
  revert h. induction variables as [|x variables IH]; intros h; simpl.
  - by intros [= <-].
  - destruct (StateManager.del_variable ns x data h) as [h1|] eqn:H1;
      simpl; [|done].
    intros H'%IH. apply del_variable_length in H1. lia.
Qed.

Lemma del_variables_everywhere_length nss variables data h h' :
  StateManager.del_variables_everywhere nss variables data h = Ok h' →
  length h ≤ length h'.
Proof.
  revert h. induction nss as [|ns nss IH]; intros h; simpl.
  - by intros [= <-].
  - destruct (StateManager.del_variables ns variables data h) as [h1|] eqn:H1;
      simpl; [|done].
    intros H'%IH. apply del_variables_length in H1. lia.
Qed.

Lemma is_mapping_mono (h h' : heap) v :
  length h ≤ length h' → is_mapping h v = true → is_mapping h' v = true.
Proof.
  destruct v; simpl; try done. rewrite !bool_decide_eq_true. lia.
Qed.

(** [load] of a stored mapping returns a mapping. *)
Lemma load_mapping hp f h data :
  stored_mapping f = true →
  StateManager.load hp f = Ok (h, data) → is_mapping h data = true.
Proof.
  intros Hf. rewrite load_relocate.
  assert (∀ hv dv, StateManager.load [] f = Ok (hv, dv) →
                   is_mapping hv dv = true) as Hview.
  { destruct f as [| | |fh [| | | |r]]; try done.
    - by intros hv dv [= <- <-].
    - simpl in Hf. rewrite load_pickled_unfold. intros hv dv.
      destruct (py_contains fh (VRef r) "global") as [[]|]; simpl; [| |done].
      + destruct (py_getitem fh (VRef r) "global") as [[h1 g]|] eqn:Hg;
          simpl; [|done].
        destruct (py_update h1 (VRef r) g) as [h2|] eqn:Hu; simpl; [|done].
        intros [= <- <-].
        apply py_getitem_length in Hg. apply py_update_length in Hu.
        simpl. apply bool_decide_eq_true in Hf.
        apply bool_decide_eq_true. lia.
      + by intros [= <- <-]. }
  destruct (StateManager.load [] f) as [[hv dv]|]; simpl; [|done].
  intros [= <- <-].
  specialize (Hview hv dv eq_refl).
  destruct dv; simpl in *; try done.
  rewrite bool_decide_eq_true in *. rewrite length_relocate_heap. lia.
Qed.

Lemma stored_mapping_pickled h data :
  is_mapping h data = true → stored_mapping (Pickled h data) = true.
Proof. by destruct data. Qed.

Lemma save_stored_mapping hp variables namespaces f f' :
  stored_mapping f = true →
  StateManager.save hp variables namespaces f = Ok f' →
  stored_mapping f' = true.
Proof.
  intros Hf. unfold StateManager.save.
  destruct (negb (py_truthy hp variables)); [by intros [= <-]|].
  destruct (StateManager.load hp f) as [[h data]|] eqn:Hl; simpl; [|done].
  destruct (StateManager.save_items _ data h) as [h1|] eqn:Hs; simpl; [|done].
  intros [= <-]. apply stored_mapping_pickled.
  apply save_items_length in Hs.
  eapply is_mapping_mono; [done|]. by eapply load_mapping.
Qed.

Lemma clear_cache_stored_mapping hp variables namespaces all_variables f f' :
  stored_mapping f = true →
  StateManager.clear_cache hp variables namespaces all_variables f = Ok f' →
  stored_mapping f' = true.
Proof.
  intros Hf. unfold StateManager.clear_cache.
  destruct (StateManager.load hp f) as [[h data]|] eqn:Hl; simpl; [|done].
  pose proof (load_mapping hp f h data Hf Hl) as Hm.
  destruct all_variables.
  - destruct (py_keys h data) as [ks|]; simpl; [|done].
    destruct (StateManager.del_namespaces ks data h); simpl; [|done].
    by intros [= <-].
  - destruct (StateManager.nonempty namespaces && negb (StateManager.nonempty variables)).
    + destruct (StateManager.del_namespaces _ data h) as [h1|] eqn:Hd;
        simpl; [|done].
      intros [= <-]. apply stored_mapping_pickled.
      apply del_namespaces_length in Hd. by eapply is_mapping_mono.
    + destruct (StateManager.nonempty variables).
      * destruct (py_keys h data) as [ks|]; simpl; [|done].
        destruct (StateManager.del_variables_everywhere ks _ data h) as [h1|] eqn:Hd;
          simpl; [|done].
        intros [= <-]. apply stored_mapping_pickled.
        apply del_variables_everywhere_length in Hd. by eapply is_mapping_mono.
      * intros [= <-]. by apply stored_mapping_pickled.
Qed.

Lemma after_stored_mapping o f :
  stored_mapping f = true → stored_mapping (after o f) = true.
Proof.
  intros Hf. unfold after.
  destruct (perform o f) as [f'|] eqn:Hp; [|done].
  destruct o; simpl in Hp.
  - by eapply save_stored_mapping.
  - unfold StateManager.change_page in Hp. simpl in Hp.
    by eapply save_stored_mapping.
  - by eapply clear_cache_stored_mapping.
Qed.

(** ** C3 *)

(** C3 (amended): after every series of [save], [change_page] and
    [clear_cache] calls with string keys and values that pickle (the
    values of the model), which starts without cache file or with one
    that holds a mapping, the cache file is absent or holds a mapping
    with string keys; a call that raises leaves the file as it was.  (The
    values of the mapping need not be dictionaries: [load] copies the
    global variables to the top level and the operations store what
    [load] returned.  A [save] of an object that does not pickle is
    outside the model: there [_save] raises after it has emptied the
    file.) *)
Theorem operations_keep_mapping os f :
  stored_mapping f = true → stored_mapping (after_all os f) = true.
Proof.
  revert f. induction os as [|o os IH]; intros f Hf; [done|].
  simpl. apply IH. by apply after_stored_mapping.
Qed.

Lemma operations_keep_mapping_witness :
  stored_mapping
    (after_all [ChangePage [] 0;
                Save [Dict false [("x", VInt 1)]] (VRef 0) (Some ["a"; "b"]);
                ChangePage [] 1;
                ClearCache [] None (Some ["a"]) false] Missing) = true.
Proof.
  apply (operations_keep_mapping
           [ChangePage [] 0;
            Save [Dict false [("x", VInt 1)]] (VRef 0) (Some ["a"; "b"]);
            ChangePage [] 1;
            ClearCache [] None (Some ["a"]) false] Missing).
  reflexivity.
Defined.

(** ** The example *)

Lemma example_cache_reached :
  (MultiPage.login [] "u" "t" Missing ≫= StateManager.change_page [] 1)
  = Ok example_cache.
Proof. reflexivity. Qed.

Lemma run_page_dispatch_witness :
  ∃ app,
    MultiPage.run_page example_router [] example_cache = Ok app ∧
    MultiPage.apps example_router
      !! (if decide (1 < Z.of_nat (length (MultiPage.apps example_router)))%Z
          then Z.to_nat 1 else 0)
      = Some app.
Proof.
  apply (run_page_dispatch example_router [] example_cache 1);
    solve [reflexivity | discriminate | lia].
Defined.

(** C2, as stated, fails: with a single page and the stored index 1 the
    router shows the page at index 0; no page is at index 1. *)
Lemma run_page_counterexample :
  let router := MultiPage.add_apps MultiPage.new [("only", 7, false)] in
  MultiPage.is_logged_in [] example_cache = Ok true
  ∧ StateManager.read_current_page [] example_cache = Ok 1%Z
  ∧ MultiPage.run_page router [] example_cache
    = Ok {| MultiPage.name := "only"; MultiPage.func := 7 |}
  ∧ MultiPage.apps router !! 0
    = Some {| MultiPage.name := "only"; MultiPage.func := 7 |}
  ∧ MultiPage.apps router !! 1 = None.
Proof. repeat split. Qed.

Lemma add_app_first_initial_page_witness :
  MultiPage.add_apps (MultiPage.new (F := nat))
    ([("a", 1, false)] ++ ("start", 2, true) :: [("b", 3, true); ("c", 4, false)])
  = {| MultiPage.apps :=
         [] ++ [ {| MultiPage.name := "a"; MultiPage.func := 1 |} ]
            ++ [ {| MultiPage.name := "b"; MultiPage.func := 3 |};
                 {| MultiPage.name := "c"; MultiPage.func := 4 |} ];
       MultiPage.initial_page :=
         Some {| MultiPage.name := "__INITIALPAGE__"; MultiPage.func := 2 |};
       MultiPage.header := None;
       MultiPage.footer := None;
       MultiPage.navbar_extra := None |}.
Proof.
  apply (add_app_first_initial_page (MultiPage.new (F := nat))
           [("a", 1, false)] "start" 2 [("b", 3, true); ("c", 4, false)]);
    reflexivity.
Defined.

Lemma add_app_appends_witness :
  ∃ p, [("first", 1); ("second", 2)] !! Z.to_nat 1 = Some p ∧
       MultiPage.current_app
         (MultiPage.add_apps MultiPage.new
            ((fun p : string * nat => (p.1, p.2, false))
               <$> [("first", 1); ("second", 2)]))
         [] example_cache
       = Ok {| MultiPage.name := p.1; MultiPage.func := p.2 |}.
Proof.
  apply (proj2 (proj2 (proj2
           (add_app_appends MultiPage.new [("first", 1); ("second", 2)])))
           [] example_cache 1%Z); [reflexivity | simpl; lia].
Defined.

(** ** C5 *)

(** [load] on a stored mapping whose entry "global" is no dictionary:
    [data.update] takes the empty string for an empty series of items,
    rejects another string with [ValueError] and every other scalar with
    [TypeError]. *)
Lemma load_scalar_global hp fh r R x :
  fh !! r = Some R →
  dict_get "global" (items R) = Some x →
  is_scalar x = true →
  StateManager.load hp (Pickled fh (VRef r)) =
  match x with
  | VStr s => if String.eqb s ""
              then Ok (relocate_heap hp fh, VRef (length hp + r))
              else Raise ValueError
  | _ => Raise TypeError
  end.
Proof.
  intros HR Hx Hsc. rewrite load_relocate, load_pickled_unfold.
  rewrite (py_contains_dict fh r R) by done. simpl.
  unfold dict_mem. rewrite Hx.
  rewrite (py_getitem_present fh r R "global" x) by done. simpl.
  unfold py_update. rewrite (heap_get_Some _ _ _ HR). simpl.
  destruct x as [| | |s|]; try done.
  by destruct (String.eqb s "").
Qed.



(** ** Being logged in *)

Lemma py_get_relocate hp h v k default :
  py_get (relocate_heap hp h) (shift_value (length hp) v) k
         (shift_value (length hp) default)
  = (x ← py_get h v k default; Ok (shift_value (length hp) x)).
Proof.
  unfold py_get. destruct v as [| | | |l]; simpl; try done.
  unfold heap_get. rewrite lookup_relocate_heap.
  destruct (h !! l) as [d|]; simpl; [|done].
  rewrite dict_get_rename. by destruct (dict_get k (items d)).
Qed.

Lemma py_get_relocate_str hp h v k s :
  py_get (relocate_heap hp h) (shift_value (length hp) v) k (VStr s)
  = (x ← py_get h v k (VStr s); Ok (shift_value (length hp) x)).
Proof. apply (py_get_relocate hp h v k (VStr s)). Qed.

(** The answer of [is_logged_in] depends on the cache file alone. *)
Lemma is_logged_in_view hp f :
  StateManager.is_logged_in hp f =
    ('(hv, data) ← StateManager.load [] f;
     session ← py_get hv data "session" (VStr "");
     c ← py_contains hv session "username";
     if c : bool then py_contains hv session "token" else Ok false).
Proof.
  unfold StateManager.is_logged_in. rewrite load_relocate.
  destruct (StateManager.load [] f) as [[hv data]|]; simpl; [|done].
  rewrite py_get_relocate_str.
  destruct (py_get hv data "session" (VStr "")) as [session|]; simpl; [|done].
  rewrite !py_contains_relocate.
  by destruct (py_contains hv session "username") as [[]|].
Qed.

Lemma namespace_ok_cases h data ns :
  namespace_ok h data ns = true →
  entry h data ns = None
  ∨ ∃ l d, entry h data ns = Some (VRef l) ∧ h !! l = Some d ∧ VRef l ≠ data.
Proof.
  unfold namespace_ok. destruct (entry h data ns) as [x|]; [|by left].
  intros [Hm Hne]%andb_true_iff. right.
  apply is_mapping_lookup in Hm as (l & d & -> & Hd).
  apply negb_true_iff, bool_decide_eq_false in Hne. eauto.
Qed.

(** [is_logged_in] on a stored mapping whose namespace "session" is not
    hidden by a global variable. *)
Lemma is_logged_in_pickled hp fh root :
  is_mapping fh root = true →
  dict_or_absent fh (entry fh root "global") = true →
  not_global_variable fh root "session" = true →
  namespace_ok fh root "session" = true →
  StateManager.is_logged_in hp (Pickled fh root)
  = Ok (has_key fh (entry fh root "session") "username"
        && has_key fh (entry fh root "session") "token").
Proof.
  intros (r & R & -> & HR)%is_mapping_lookup Hglob Hnot Hok.
  rewrite is_logged_in_view.
  destruct (load_pickled_frame fh r R HR Hglob)
    as (h2 & R2 & -> & _ & HR2 & _ & Hframe & Hframek).
  simpl.
  assert (dict_get "session" (items R2) = entry fh (VRef r) "session") as Hs.
  { rewrite Hframek.
    - unfold entry. simpl. by rewrite HR.
    - right. by apply negb_true_iff in Hnot. }
  unfold py_get. rewrite (heap_get_Some _ _ _ HR2). simpl. rewrite Hs.
  destruct (namespace_ok_cases _ _ _ Hok) as [->|(l & d & -> & Hd & Hne)].
  - done.
  - assert (h2 !! l = Some d) as Hd2 by (rewrite Hframe; [done|congruence]).
    unfold py_contains, has_key. simpl.
    rewrite (heap_get_Some _ _ _ Hd2), Hd. simpl.
    by destruct (dict_mem "username" (items d)).
Qed.

Section Login.
Variables (hp : heap) (username token : string).
Variables (f : cache_file) (hv : heap) (rv : loc) (Rv : dict).
Hypothesis Hload : StateManager.load [] f = Ok (hv, VRef rv).
Hypothesis HRv : hv !! rv = Some Rv.
Hypothesis Hsession : namespace_ok hv (VRef rv) "session" = true.
Hypothesis Hglobal : namespace_ok hv (VRef rv) "global" = true.
Hypothesis Hnot_session : not_global_variable hv (VRef rv) "session" = true.
Hypothesis Hnot_global : not_global_variable hv (VRef rv) "global" = true.

Local Notation credentials :=
  (Dict false [("username", VStr username); ("token", VStr token)])
  (only parsing).
Local Notation page0 := (Dict false [("current_page", VInt 0)]) (only parsing).

Lemma entry_root k : entry hv (VRef rv) k = dict_get k (items Rv).
Proof using HRv. unfold entry. simpl. by rewrite HRv. Qed.

(** A variable that "global" does not have before a [save] of items
    [vi] without it is not there afterwards. *)
Lemma global_still_without (vi : list (string * value)) k (h2 : heap) n x :
  dict_get k vi = None →
  not_global_variable hv (VRef rv) k = true →
  (∀ l d0, l ≠ rv → hv !! l = Some d0 →
     ∃ d, h2 !! (n + l) = Some d ∧ dict_updated vi (shift_dict n d0) d) →
  match dict_get "global" (items Rv) with
  | Some y => Some (shift_value n y)
  | None => None
  end = x →
  has_key h2 x k = false.
Proof using HRv Hglobal.
  intros Hvi Hnot Hobj <-.
  unfold not_global_variable in Hnot. apply negb_true_iff in Hnot.
  destruct (namespace_ok_cases _ _ _ Hglobal) as [He|(l & d & He & Hd & Hne)];
    rewrite entry_root in He; rewrite He; [done|].
  rewrite entry_root, He in Hnot. unfold has_key in Hnot. simpl in Hnot.
  rewrite Hd in Hnot.
  destruct (Hobj l d) as (d' & Hd' & _ & Hk); [congruence|done|].
  unfold has_key. simpl. rewrite Hd'. apply dict_mem_false.
  destruct (Hk k) as [->|[[? ?] _]]; [|congruence].
  simpl. rewrite dict_get_rename.
  apply dict_mem_false in Hnot. by rewrite Hnot.
Qed.

Lemma login_logged_in :
  ∃ f', MultiPage.login hp username token f = Ok f'
        ∧ ∀ hp', StateManager.is_logged_in hp' f' = Ok true.
Proof using All.
  set (hp1 := hp ++ [credentials]).
  assert (hp1 !! length hp = Some credentials) as Hv1.
  { unfold hp1. by rewrite lookup_app_r, Nat.sub_diag by lia. }
  assert (dict_or_absent hv (dict_get "global" (items Rv)) = true) as Hg0.
  { destruct (namespace_ok_cases _ _ _ Hglobal) as [He|(l & d & He & Hd & _)];
      rewrite entry_root in He; rewrite He; [done|].
    simpl. apply bool_decide_eq_true. by eapply lookup_lt_Some. }
  (* the [save] of [login] *)
  destruct (save_view hp1 (length hp) credentials ["session"] f hv rv Rv)
    as (h1 & h2 & R2 & Hsave1 & Hload1 & Hlen2 & _ & HR2 & Hobj2 & Hkeys2 & Hfull2);
    [done|done|done|done|done|done|by simpl; rewrite Hsession|].
  set (r1 := length hp1 + rv) in *.
  assert (no_clash (items credentials) ["session"] hv (VRef rv) "session" = true) as Hc1.
  { unfold no_clash. by rewrite andb_true_iff. }
  assert (no_clash (items credentials) ["session"] hv (VRef rv) "global" = true) as Hc2.
  { unfold no_clash. by rewrite andb_true_iff. }
  destruct (Hfull2 "session") as (ls & ds & Hes & Hlsr & Hds & Halls);
    [left|done|].
  pose proof (Hkeys2 "global" Hc2) as HR2g.
  rewrite decide_False in HR2g by (by intros [?|[]%elem_of_nil]%elem_of_cons).
  assert (entry h2 (VRef r1) "global" = dict_get "global" (items R2)) as Heg.
  { unfold entry. simpl. by rewrite HR2. }
  assert (dict_get "session" (items R2) = Some (VRef ls)) as HR2s.
  { unfold entry in Hes. simpl in Hes. by rewrite HR2 in Hes. }
  (* the [save] of [change_page] *)
  set (hp2 := hp ++ [page0]).
  assert (hp2 !! length hp = Some page0) as Hv2.
  { unfold hp2. by rewrite lookup_app_r, Nat.sub_diag by lia. }
  destruct (save_view hp2 (length hp) page0 ["global"]
              (Pickled h1 (VRef r1)) h2 r1 R2)
    as (h3 & h4 & R4 & Hsave2 & Hload2 & _ & _ & HR4 & Hobj4 & Hkeys4 & _);
    [done|done|done|done|done| | |].
  { rewrite HR2g.
    destruct (namespace_ok_cases _ _ _ Hglobal) as [He|(l & d & He & Hd & _)];
      rewrite entry_root in He; rewrite He; [done|].
    simpl. apply bool_decide_eq_true. apply lookup_lt_Some in Hd. lia. }
  { simpl. rewrite andb_true_r. unfold namespace_ok. rewrite Heg, HR2g.
    destruct (namespace_ok_cases _ _ _ Hglobal) as [He|(l & d & He & Hd & Hne)];
      rewrite entry_root in He; rewrite He; [done|].
    simpl. apply andb_true_iff. split.
    - apply bool_decide_eq_true. apply lookup_lt_Some in Hd. lia.
    - apply negb_true_iff, bool_decide_eq_false.
      intros [= ?]. apply Hne. f_equal. unfold r1 in *. lia. }
  set (r2 := length hp2 + r1) in *.
  assert (no_clash (items page0) ["global"] h2 (VRef r1) "session" = true) as Hc3.
  { unfold no_clash. apply andb_true_iff. split; [|done].
    apply negb_true_iff. rewrite Heg.
    by apply (global_still_without (items credentials) "session" h2
                (length hp1)). }
  pose proof (Hkeys4 "session" Hc3) as HR4s. rewrite HR2s in HR4s.
  simpl in HR4s.
  destruct (Hobj4 ls ds) as (d4 & Hd4 & Hupd4); [congruence|done|].
  assert (∀ k x, dict_get k (items credentials) = Some x →
                 dict_mem k (items d4) = true) as Hhas.
  { intros k x Hk. apply dict_mem_true.
    eapply dict_updated_keeps_keys; [done|].
    simpl. rewrite dict_get_rename, (Halls k x Hk). by eexists. }
  exists (Pickled h3 (VRef r2)). split.
  - unfold MultiPage.login, MultiPage.save, MultiPage.change_page.
    simpl. fold hp1. rewrite Hsave1. simpl.
    unfold StateManager.change_page. simpl. fold hp2. done.
  - intros hp'. rewrite is_logged_in_view, Hload2. simpl.
    unfold py_get. rewrite (heap_get_Some _ _ _ HR4). simpl.
    rewrite HR4s. unfold py_contains. simpl.
    rewrite (heap_get_Some _ _ _ Hd4). simpl.
    rewrite (Hhas "username" (VStr username)) by done.
    by rewrite (Hhas "token" (VStr token)).
Qed.

End Login.

(** ** C10 *)

(** C10 (amended): on a stored mapping whose entry "global" is a
    dictionary or absent and has no variable "session", and whose entry
    "session" is a dictionary (other than the mapping itself) or absent,
    [is_logged_in] answers true exactly when the namespace "session"
    exists and has the keys "username" and "token".  And whenever the
    state that [load] shows is a mapping whose entries "session" and
    "global" are dictionaries or absent and in which neither "session"
    nor "global" is a global variable, [login(username, token)] succeeds
    and [is_logged_in] answers true afterwards, for every user name and
    token.  On a stored mapping whose entry "global" is a scalar other
    than the empty string, [is_logged_in] raises, as [load] does:
    [ValueError] for a string, [TypeError] otherwise. *)
Theorem is_logged_in_session :
  (∀ hp fh root,
     is_mapping fh root = true →
     dict_or_absent fh (entry fh root "global") = true →
     not_global_variable fh root "session" = true →
     namespace_ok fh root "session" = true →
     StateManager.is_logged_in hp (Pickled fh root)
     = Ok (has_key fh (entry fh root "session") "username"
           && has_key fh (entry fh root "session") "token"))
  ∧ (∀ hp username token f hv data,
       StateManager.load [] f = Ok (hv, data) →
       is_mapping hv data = true →
       namespace_ok hv data "session" = true →
       namespace_ok hv data "global" = true →
       not_global_variable hv data "session" = true →
       not_global_variable hv data "global" = true →
       ∃ f', MultiPage.login hp username token f = Ok f'
             ∧ ∀ hp', StateManager.is_logged_in hp' f' = Ok true)
  ∧ (∀ hp fh root x,
       is_mapping fh root = true →
       entry fh root "global" = Some x →
       is_scalar x = true →
       x ≠ VStr "" →
       StateManager.is_logged_in hp (Pickled fh root)
       = Raise (match x with VStr _ => ValueError | _ => TypeError end)).
Proof.
  split; [|split].
  - apply is_logged_in_pickled.
  - intros hp username token f hv data Hload Hmap Hs Hg Hns Hng.
    apply is_mapping_lookup in Hmap as (rv & Rv & -> & HRv).
    by eapply login_logged_in.
  - intros hp fh root x (r & R & -> & HR)%is_mapping_lookup Hx Hsc Hne.
    unfold entry in Hx. simpl in Hx. rewrite HR in Hx. simpl in Hx.
    unfold StateManager.is_logged_in.
    rewrite (load_scalar_global hp fh r R x) by done.
    destruct x as [| | |s|]; try done.
    destruct (String.eqb_spec s "") as [->|_]; done.
Qed.

Lemma is_logged_in_session_witness :
  StateManager.is_logged_in [] example_cache = Ok true
  ∧ (∃ f', MultiPage.login [empty_dict] "alice" "secret" Missing = Ok f'
           ∧ ∀ hp', StateManager.is_logged_in hp' f' = Ok true)
  ∧ (∃ f', MultiPage.login [] "bob" "" example_cache = Ok f'
           ∧ ∀ hp', StateManager.is_logged_in hp' f' = Ok true)
  ∧ StateManager.is_logged_in []
      (Pickled [Dict true [("global", VInt 5); ("session", VRef 1)];
                Dict false [("username", VStr "u"); ("token", VStr "t")]]
         (VRef 0)) = Raise TypeError.
Proof.
  split; [|split; [|split]].
  - apply (proj1 is_logged_in_session []
             [Dict false [("current_page", VInt 1)];
              Dict false [("current_page", VInt 1)];
              Dict false [("username", VStr "u"); ("token", VStr "t")];
              Dict true [("session", VRef 2); ("global", VRef 1);
                         ("current_page", VInt 0)]] (VRef 3)); reflexivity.
  - apply (proj1 (proj2 is_logged_in_session) [empty_dict] "alice" "secret" Missing
             [empty_defaultdict] (VRef 0)); reflexivity.
  - apply (proj1 (proj2 is_logged_in_session) [] "bob" "" example_cache
             [Dict false [("current_page", VInt 1)];
              Dict false [("current_page", VInt 1)];
              Dict false [("username", VStr "u"); ("token", VStr "t")];
              Dict true [("session", VRef 2); ("global", VRef 1);
                         ("current_page", VInt 1)]] (VRef 3));
      reflexivity.
  - apply (proj2 (proj2 is_logged_in_session) []
             [Dict true [("global", VInt 5); ("session", VRef 1)];
              Dict false [("username", VStr "u"); ("token", VStr "t")]]
             (VRef 0) (VInt 5)); solve [reflexivity | discriminate].
Defined.

(** ** The stored page index *)

Lemma py_int_shift n x : py_int (shift_value n x) = py_int x.
Proof. by destruct x. Qed.

(** The page that [read_current_page] returns depends on the cache file
    alone. *)
Lemma read_current_page_view hp f :
  StateManager.read_current_page hp f =
    ('(hv, loaded) ← StateManager.load [] f;
     '(h1, data) ← py_getitem hv loaded "global";
     c ← py_contains h1 data "current_page";
     if c : bool then
       '(_, page) ← py_getitem h1 data "current_page";
       py_int page
     else Ok 0%Z).
Proof.
  unfold StateManager.read_current_page. rewrite load_relocate.
  destruct (StateManager.load [] f) as [[hv loaded]|]; simpl; [|done].
  rewrite py_getitem_relocate.
  destruct (py_getitem hv loaded "global") as [[h1 data]|]; simpl; [|done].
  rewrite py_contains_relocate.
  destruct (py_contains h1 data "current_page") as [[]|]; simpl; try done.
  rewrite py_getitem_relocate.
  destruct (py_getitem h1 data "current_page") as [[h2 page]|]; simpl; [|done].
  apply py_int_shift.
Qed.

(** What [change_page] stores is what [read_current_page] returns, when
    the state that [load] shows is a mapping whose entry "global" is a
    dictionary or absent and has no variable "global". *)
Lemma read_current_page_after_change_page hp page f hv data :
  StateManager.load [] f = Ok (hv, data) →
  is_mapping hv data = true →
  namespace_ok hv data "global" = true →
  not_global_variable hv data "global" = true →
  ∃ f', StateManager.change_page hp page f = Ok f'
        ∧ ∀ hp', StateManager.read_current_page hp' f' = Ok page.
Proof.
  intros Hload (rv & Rv & -> & HRv)%is_mapping_lookup Hok Hnot.
  remember (hp ++ [Dict false [("current_page", VInt page)]]) as hp2 eqn:Hhp2.
  assert (hp2 !! length hp = Some (Dict false [("current_page", VInt page)]))
    as Hv.
  { subst hp2. by rewrite lookup_app_r, Nat.sub_diag by lia. }
  destruct (save_view hp2 (length hp) _ ["global"] f hv rv Rv Hv)
    as (h1 & h2 & R2 & Hsave & Hload2 & _ & _ & HR2 & _ & _ & Hfull);
    [done|done|done|done| |by simpl; rewrite Hok|].
  { destruct (namespace_ok_cases _ _ _ Hok) as [He|(l & d & He & Hd & _)];
      unfold entry in He; simpl in He; rewrite HRv in He; simpl in He;
      rewrite He; [done|].
    simpl. apply bool_decide_eq_true. by eapply lookup_lt_Some. }
  destruct (Hfull "global") as (l & d & He & _ & Hd & Hall); [left| |].
  { unfold no_clash. apply andb_true_iff. by split. }
  eexists. split.
  { unfold StateManager.change_page, heap_alloc. rewrite <- Hhp2. exact Hsave. }
  intros hp'. rewrite read_current_page_view, Hload2. simpl.
  unfold entry in He. simpl in He. rewrite HR2 in He. simpl in He.
  pose proof (Hall "current_page" (VInt page) eq_refl) as Hcp.
  rewrite (py_getitem_present h2 _ R2 "global" (VRef l)) by done. simpl.
  rewrite (py_contains_dict h2 l d) by done. simpl.
  unfold dict_mem. rewrite Hcp.
  by rewrite (py_getitem_present h2 l d "current_page" (VInt page)).
Qed.

(** * Further properties *)

(** ** Tidy states *)

Lemma tidy_view f :
  tidy f = true →
  ∃ hv rv Rv,
    StateManager.load [] f = Ok (hv, VRef rv) ∧ hv !! rv = Some Rv
    ∧ namespace_ok hv (VRef rv) "global" = true
    ∧ namespace_ok hv (VRef rv) "session" = true
    ∧ not_global_variable hv (VRef rv) "global" = true
    ∧ not_global_variable hv (VRef rv) "session" = true.
Proof.
  unfold tidy. destruct (StateManager.load [] f) as [[hv data]|]; [|done].
  rewrite !andb_true_iff. intros [[[[Hm ?] ?] ?] ?].
  apply is_mapping_lookup in Hm as (rv & Rv & -> & HRv).
  by exists hv, rv, Rv.
Qed.

Lemma tidy_intro f hv rv :
  StateManager.load [] f = Ok (hv, VRef rv) →
  rv < length hv →
  namespace_ok hv (VRef rv) "global" = true →
  namespace_ok hv (VRef rv) "session" = true →
  not_global_variable hv (VRef rv) "global" = true →
  not_global_variable hv (VRef rv) "session" = true →
  tidy f = true.
Proof.
  intros Hl Hrv Hg Hs Hng Hns. unfold tidy. rewrite Hl.
  rewrite Hg, Hs, Hng, Hns. simpl. rewrite !andb_true_r.
  by apply bool_decide_eq_true.
Qed.

Lemma is_logged_in_tidy hp f :
  tidy f = true →
  StateManager.is_logged_in hp f
  = Ok (view_has f "session" "username" && view_has f "session" "token").
Proof.
  intros (hv & rv & Rv & Hload & HRv & _ & Hs & _)%tidy_view.
  rewrite is_logged_in_view. unfold view_has. rewrite Hload. simpl.
  unfold py_get. rewrite (heap_get_Some _ _ _ HRv). simpl.
  destruct (namespace_ok_cases _ _ _ Hs) as [He|(l & d & He & Hd & _)];
    rewrite He; unfold entry in He; simpl in He; rewrite HRv in He;
    simpl in He; rewrite He; [done|].
  rewrite !(py_contains_dict hv l d) by done. simpl.
  unfold has_key. simpl. rewrite Hd.
  by destruct (dict_mem "username" (items d)).
Qed.

(** A [save] to "global" or "session" of items that are not called
    "global" or "session" keeps the state tidy; the listed namespaces get
    the keys of the items, and no other key of "global" or "session"
    comes or goes. *)
Lemma save_tidy hp v vd nss f :
  hp !! v = Some vd →
  unique_keys (items vd) = true →
  items vd ≠ [] →
  dict_mem "global" (items vd) = false →
  dict_mem "session" (items vd) = false →
  (∀ ns, ns ∈ nss → ns = "global" ∨ ns = "session") →
  tidy f = true →
  ∃ f',
    StateManager.save hp (VRef v) (Some nss) f = Ok f'
    ∧ tidy f' = true
    ∧ (∀ ns k, ns ∈ nss → dict_mem k (items vd) = true →
         view_has f' ns k = true)
    ∧ (∀ ns k, ns = "global" ∨ ns = "session" →
         dict_mem k (items vd) = false →
         view_has f' ns k = view_has f ns k).
Proof.
  intros Hv Hu Hne Hvg Hvs Hnss
    (hv & rv & Rv & Hload & HRv & Hg & Hs & Hng & Hns)%tidy_view.
  assert (∀ k, entry hv (VRef rv) k = dict_get k (items Rv)) as Hev.
  { intros k. unfold entry. simpl. by rewrite HRv. }
  assert (∀ k0, k0 = "global" ∨ k0 = "session" →
            namespace_ok hv (VRef rv) k0 = true
            ∧ no_clash (items vd) nss hv (VRef rv) k0 = true) as Hnames.
  { intros k0 [->| ->]; (split; [done|]); unfold no_clash;
      apply andb_true_iff; (split; [done|]).
    - by rewrite Hvg.
    - by rewrite Hvs. }
  destruct (save_view hp v vd nss f hv rv Rv Hv Hu Hne Hload HRv)
    as (h1 & h2 & R2 & Hsave & Hload2 & Hlen2 & Hpre2 & HR2 & Hobj & Hkeys & Hfull).
  { destruct (namespace_ok_cases _ _ _ Hg) as [He|(l & d & He & Hd & _)];
      rewrite Hev in He; rewrite He; [done|].
    simpl. apply bool_decide_eq_true. by eapply lookup_lt_Some. }
  { apply forallb_forall. intros ns Hin%list_elem_of_In.
    by apply Hnames, Hnss. }
  set (r := length hp + rv) in *.
  pose proof (v_below hp v vd Hv) as Hvlt.
  assert (h2 !! v = Some vd) as Hh2v.
  { rewrite <- (lookup_take_lt h2 (length hp) v) by done. by rewrite Hpre2. }
  assert (∀ k, entry h2 (VRef r) k = dict_get k (items R2)) as Hev2.
  { intros k. unfold entry. simpl. by rewrite HR2. }
  (* the three ways in which "global" and "session" can appear afterwards *)
  assert (∀ k0, k0 = "global" ∨ k0 = "session" →
            (∃ l d d2, entry hv (VRef rv) k0 = Some (VRef l)
                       ∧ hv !! l = Some d
                       ∧ entry h2 (VRef r) k0 = Some (VRef (length hp + l))
                       ∧ h2 !! (length hp + l) = Some d2
                       ∧ dict_updated (items vd) (shift_dict (length hp) d) d2
                       ∧ length hp + l ≠ r)
            ∨ (entry hv (VRef rv) k0 = None
               ∧ entry h2 (VRef r) k0 = Some (VRef v))
            ∨ (entry hv (VRef rv) k0 = None ∧ entry h2 (VRef r) k0 = None))
    as Hcases.
  { intros k0 Hk0. destruct (Hnames k0 Hk0) as [Hok Hclash].
    rewrite Hev2, (Hkeys k0 Hclash).
    destruct (namespace_ok_cases _ _ _ Hok) as [He|(l & d & He & Hd & Hne')].
    - rewrite He. rewrite Hev in He. rewrite He.
      case_decide; [right; by left|right; by right].
    - left. rewrite He. rewrite Hev in He. rewrite He.
      assert (l ≠ rv) as Hl by congruence.
      destruct (Hobj l d Hl Hd) as (d2 & Hd2 & Hupd).
      exists l, d, d2. do 5 (split; [done|]). unfold r. lia. }
  assert (∀ (d d2 : dict) k, dict_updated (items vd) (shift_dict (length hp) d) d2 →
            dict_mem k (items vd) = false →
            dict_mem k (items d2) = dict_mem k (items d)) as Hsamekey.
  { intros d d2 k [_ Hk] Hvk. apply dict_mem_false in Hvk.
    unfold dict_mem at 1 2.
    destruct (Hk k) as [->|[[? ?] _]]; [|congruence].
    simpl. rewrite dict_get_rename. by destruct (dict_get k (items d)). }
  exists (Pickled h1 (VRef r)). split; [done|]. split; [|split].
  - (* tidy *)
    assert (∀ k0, k0 = "global" ∨ k0 = "session" →
              namespace_ok h2 (VRef r) k0 = true) as Hok2.
    { intros k0 Hk0. unfold namespace_ok.
      destruct (Hcases k0 Hk0)
        as [(l & d & d2 & _ & _ & -> & Hd2 & _ & Hne')|[[_ ->]|[_ ->]]];
        [| |done].
      - simpl. apply andb_true_iff. split.
        + apply bool_decide_eq_true. by eapply lookup_lt_Some.
        + apply negb_true_iff, bool_decide_eq_false. congruence.
      - simpl. apply andb_true_iff. split.
        + apply bool_decide_eq_true. by eapply lookup_lt_Some.
        + apply negb_true_iff, bool_decide_eq_false.
          intros [= ?]. unfold r in *. lia. }
    assert (∀ k0, k0 = "global" ∨ k0 = "session" →
              not_global_variable h2 (VRef r) k0 = true) as Hnot2.
    { intros k0 Hk0. unfold not_global_variable. apply negb_true_iff.
      assert (dict_mem k0 (items vd) = false) as Hvk by (by destruct Hk0 as [->| ->]).
      assert (not_global_variable hv (VRef rv) k0 = true) as Hnk
        by (by destruct Hk0 as [->| ->]).
      unfold not_global_variable in Hnk. apply negb_true_iff in Hnk.
      destruct (Hcases "global")
        as [(l & d & d2 & He & Hd & -> & Hd2 & Hupd & _)|[[_ ->]|[_ ->]]];
        [by left| | |done].
      - unfold has_key. simpl. rewrite Hd2.
        rewrite (Hsamekey d d2 k0 Hupd Hvk).
        rewrite He in Hnk. unfold has_key in Hnk. simpl in Hnk.
        by rewrite Hd in Hnk.
      - unfold has_key. simpl. by rewrite Hh2v. }
    apply (tidy_intro _ h2 r Hload2); auto.
    by eapply lookup_lt_Some.
  - (* the listed namespaces have the keys of the items *)
    intros ns k Hin Hk. unfold view_has. rewrite Hload2.
    destruct (Hnames ns (Hnss ns Hin)) as [_ Hclash].
    destruct (Hfull ns Hin Hclash) as (l & d & -> & _ & Hd & Hall).
    unfold has_key. simpl. rewrite Hd.
    apply dict_mem_true in Hk as [x Hx].
    apply dict_mem_true. rewrite (Hall k x Hx). by eexists.
  - (* the other keys stay *)
    intros ns k Hns' Hk. unfold view_has. rewrite Hload2, Hload.
    destruct (Hcases ns Hns')
      as [(l & d & d2 & -> & Hd & -> & Hd2 & Hupd & _)|[[-> ->]|[-> ->]]];
      [| |done].
    + unfold has_key. simpl. rewrite Hd2, Hd. by apply Hsamekey.
    + unfold has_key. simpl. by rewrite Hh2v.
Qed.

(** ** Changing the page *)

Lemma change_page_tidy hp page f :
  tidy f = true →
  ∃ f',
    StateManager.change_page hp page f = Ok f'
    ∧ tidy f' = true
    ∧ (∀ hp', StateManager.read_current_page hp' f' = Ok page)
    ∧ (∀ ns k, ns = "global" ∨ ns = "session" → k ≠ "current_page" →
         view_has f' ns k = view_has f ns k).
Proof.
  intros Htidy.
  remember (hp ++ [Dict false [("current_page", VInt page)]]) as hp2 eqn:Hhp2.
  assert (hp2 !! length hp = Some (Dict false [("current_page", VInt page)]))
    as Hv.
  { subst hp2. by rewrite lookup_app_r, Nat.sub_diag by lia. }
  destruct (save_tidy hp2 (length hp) _ ["global"] f Hv)
    as (f' & Hsave & Htidy' & _ & Hkeep); try done.
  { intros ns [->|[]%elem_of_nil]%elem_of_cons. by left. }
  assert (StateManager.change_page hp page f = Ok f') as Hcp.
  { unfold StateManager.change_page, heap_alloc. by rewrite <- Hhp2. }
  exists f'. split; [done|]. split; [done|]. split.
  - destruct (tidy_view f Htidy) as (hv & rv & Rv & Hload & HRv & Hg & _ & Hng & _).
    destruct (read_current_page_after_change_page hp page f hv (VRef rv))
      as (f'' & Hcp' & Hread); try done.
    { apply bool_decide_eq_true. by eapply lookup_lt_Some. }
    assert (f'' = f') as -> by congruence. done.
  - intros ns k Hns Hk. apply Hkeep; [done|].
    simpl. unfold dict_mem. simpl. by rewrite decide_False.
Qed.

Lemma change_page_effect hp page f :
  tidy f = true →
  ∃ f',
    StateManager.change_page hp page f = Ok f'
    ∧ tidy f' = true
    ∧ (∀ hp', StateManager.read_current_page hp' f' = Ok page)
    ∧ (∀ hp', StateManager.is_logged_in hp' f'
              = StateManager.is_logged_in hp' f).
Proof.
  intros Htidy.
  destruct (change_page_tidy hp page f Htidy)
    as (f' & Hcp & Htidy' & Hread & Hkeep).
  exists f'. split; [done|]. split; [done|]. split; [done|]. intros hp'.
  rewrite !is_logged_in_tidy by done.
  by rewrite !Hkeep by (done || by right).
Qed.

(** X1: what [change_page] stores is what [read_current_page] returns
    next, in whatever process, on every tidy state. *)
Theorem change_page_then_read hp page f :
  tidy f = true →
  ∃ f', StateManager.change_page hp page f = Ok f'
        ∧ ∀ hp', StateManager.read_current_page hp' f' = Ok page.
Proof.
  intros (f' & Hcp & _ & Hread & _)%(change_page_tidy hp page). eauto.
Qed.

Lemma change_page_then_read_witness :
  ∃ f', StateManager.change_page [empty_dict] 5 example_cache = Ok f'
        ∧ ∀ hp', StateManager.read_current_page hp' f' = Ok 5%Z.
Proof.
  apply (change_page_then_read [empty_dict] 5 example_cache). reflexivity.
Defined.

(** X2: a change of page does not log the user in or out: on a tidy
    state [is_logged_in] answers after [change_page] what it answered
    before. *)
Theorem change_page_keeps_login hp page f :
  tidy f = true →
  ∃ f', StateManager.change_page hp page f = Ok f'
        ∧ ∀ hp', StateManager.is_logged_in hp' f'
                 = StateManager.is_logged_in hp' f.
Proof.
  intros (f' & Hcp & _ & _ & Hlog)%(change_page_effect hp page). eauto.
Qed.

Lemma change_page_keeps_login_witness :
  ∃ f', StateManager.change_page [] 0 example_cache = Ok f'
        ∧ ∀ hp', StateManager.is_logged_in hp' f'
                 = StateManager.is_logged_in hp' example_cache.
Proof.
  apply (change_page_keeps_login [] 0 example_cache). reflexivity.
Defined.

(** ** Logging in and out *)

Lemma login_tidy hp username token f :
  tidy f = true →
  ∃ f',
    MultiPage.login hp username token f = Ok f'
    ∧ tidy f' = true
    ∧ (∀ hp', StateManager.is_logged_in hp' f' = Ok true)
    ∧ (∀ hp', StateManager.read_current_page hp' f' = Ok 0%Z).
Proof.
  intros Htidy.
  remember (hp ++ [Dict false [("username", VStr username);
                               ("token", VStr token)]]) as hp1 eqn:Hhp1.
  assert (hp1 !! length hp
          = Some (Dict false [("username", VStr username);
                              ("token", VStr token)])) as Hv.
  { subst hp1. by rewrite lookup_app_r, Nat.sub_diag by lia. }
  destruct (save_tidy hp1 (length hp) _ ["session"] f Hv)
    as (f1 & Hsave & Htidy1 & Hhas & _); try done.
  { intros ns [->|[]%elem_of_nil]%elem_of_cons. by right. }
  destruct (change_page_tidy hp 0 f1 Htidy1)
    as (f2 & Hcp & Htidy2 & Hread & Hkeep).
  exists f2. split; [|split; [done|split; [|done]]].
  - unfold MultiPage.login, MultiPage.save, MultiPage.change_page, heap_alloc.
    rewrite <- Hhp1, Hsave. done.
  - intros hp'. rewrite is_logged_in_tidy by done.
    rewrite !Hkeep by (done || by right).
    by rewrite !Hhas by first [done | left].
Qed.

(** X3: on a tidy state [login] succeeds for every user name and token
    and leaves a tidy state in which the user is logged in and the
    current page is 0. *)
Theorem login_logs_in_on_page_zero hp username token f :
  tidy f = true →
  ∃ f',
    MultiPage.login hp username token f = Ok f'
    ∧ tidy f' = true
    ∧ (∀ hp', StateManager.is_logged_in hp' f' = Ok true)
    ∧ (∀ hp', StateManager.read_current_page hp' f' = Ok 0%Z).
Proof. apply login_tidy. Qed.

Lemma login_logs_in_on_page_zero_witness :
  ∃ f',
    MultiPage.login [] "carol" "t0k3n" example_cache = Ok f'
    ∧ tidy f' = true
    ∧ (∀ hp', StateManager.is_logged_in hp' f' = Ok true)
    ∧ (∀ hp', StateManager.read_current_page hp' f' = Ok 0%Z).
Proof.
  apply (login_logs_in_on_page_zero [] "carol" "t0k3n" example_cache).
  reflexivity.
Defined.

Lemma del_namespaces_ok nss h data :
  is_mapping h data = true →
  ∃ h', StateManager.del_namespaces nss data h = Ok h'
        ∧ length h' = length h.
Proof.
  intros (l & d & -> & Hd)%is_mapping_lookup.
  revert h d Hd. induction nss as [|ns nss IH]; intros h d Hd; simpl.
  - by exists h.
  - unfold py_delitem. rewrite (heap_get_Some _ _ _ Hd). simpl.
    destruct (dict_mem ns (items d)); simpl.
    + unfold heap_set_items.
      destruct (IH (<[l:=Dict (dflt d) (dict_remove ns (items d))]> h)
                   (Dict (dflt d) (dict_remove ns (items d))))
        as (h' & -> & Hlen).
      { rewrite list_lookup_insert_eq; [done|]. by eapply lookup_lt_Some. }
      exists h'. split; [done|]. by rewrite Hlen, length_insert.
    + by apply (IH h d).
Qed.

Lemma clear_cache_all_Missing hp variables namespaces f hv data :
  StateManager.load [] f = Ok (hv, data) →
  is_mapping hv data = true →
  StateManager.clear_cache hp variables namespaces true f = Ok Missing.
Proof.
  intros Hload Hmap. unfold StateManager.clear_cache.
  rewrite load_relocate, Hload. simpl.
  apply is_mapping_lookup in Hmap as (l & d & -> & Hd).
  assert (relocate_heap hp hv !! (length hp + l)
          = Some (shift_dict (length hp) d)) as Hd'.
  { by rewrite lookup_relocate_heap, Hd. }
  unfold py_keys. simpl. rewrite (heap_get_Some _ _ _ Hd'). simpl.
  destruct (del_namespaces_ok
              (dict_keys (prod_map id (shift_value (length hp)) <$> items d))
              (relocate_heap hp hv) (VRef (length hp + l)))
    as (h' & -> & _); [|done].
  simpl. apply bool_decide_eq_true. by eapply lookup_lt_Some.
Qed.

(** X4: [clear_cache(all_variables=True)] removes the cache file,
    whatever it is given as variables and namespaces, whenever [load]
    returns a mapping. *)
Theorem clear_cache_all_removes_file hp variables namespaces f hv data :
  StateManager.load [] f = Ok (hv, data) →
  is_mapping hv data = true →
  StateManager.clear_cache hp variables namespaces true f = Ok Missing.
Proof. apply clear_cache_all_Missing. Qed.

Lemma clear_cache_all_removes_file_witness :
  StateManager.clear_cache [empty_dict] (Some ["x"]) (Some ["session"]) true
    example_cache = Ok Missing.
Proof.
  apply (clear_cache_all_removes_file [empty_dict] (Some ["x"]) (Some ["session"])
           example_cache
           [Dict false [("current_page", VInt 1)];
            Dict false [("current_page", VInt 1)];
            Dict false [("username", VStr "u"); ("token", VStr "t")];
            Dict true [("session", VRef 2); ("global", VRef 1);
                       ("current_page", VInt 1)]] (VRef 3)); reflexivity.
Defined.

Lemma tidy_Missing : tidy Missing = true.
Proof. reflexivity. Qed.

Lemma logout_tidy hp f hv data :
  StateManager.load [] f = Ok (hv, data) →
  is_mapping hv data = true →
  ∃ f',
    MultiPage.logout hp f = Ok f'
    ∧ tidy f' = true
    ∧ (∀ hp', StateManager.is_logged_in hp' f' = Ok false)
    ∧ (∀ hp', StateManager.read_current_page hp' f' = Ok (-1)%Z).
Proof.
  intros Hload Hmap.
  destruct (change_page_tidy hp (-1) Missing tidy_Missing)
    as (f' & Hcp & Htidy' & Hread & Hkeep).
  exists f'. split; [|split; [done|split; [|done]]].
  - unfold MultiPage.logout, MultiPage.clear_cache, MultiPage.change_page.
    by rewrite (clear_cache_all_Missing hp None None f hv data).
  - intros hp'. rewrite is_logged_in_tidy by done.
    by rewrite !Hkeep by (done || by right).
Qed.

(** X5: [logout] forgets everything: whenever [load] returns a mapping,
    it succeeds and leaves a tidy state in which nobody is logged in and
    the stored page index is -1. *)
Theorem logout_logs_out hp f hv data :
  StateManager.load [] f = Ok (hv, data) →
  is_mapping hv data = true →
  ∃ f',
    MultiPage.logout hp f = Ok f'
    ∧ tidy f' = true
    ∧ (∀ hp', StateManager.is_logged_in hp' f' = Ok false)
    ∧ (∀ hp', StateManager.read_current_page hp' f' = Ok (-1)%Z).
Proof. apply logout_tidy. Qed.

Lemma logout_logs_out_witness :
  ∃ f',
    MultiPage.logout [] example_cache = Ok f'
    ∧ tidy f' = true
    ∧ (∀ hp', StateManager.is_logged_in hp' f' = Ok false)
    ∧ (∀ hp', StateManager.read_current_page hp' f' = Ok (-1)%Z).
Proof.
  apply (logout_logs_out [] example_cache
           [Dict false [("current_page", VInt 1)];
            Dict false [("current_page", VInt 1)];
            Dict false [("username", VStr "u"); ("token", VStr "t")];
            Dict true [("session", VRef 2); ("global", VRef 1);
                       ("current_page", VInt 1)]] (VRef 3)); reflexivity.
Defined.

Lemma tidy_loads f :
  tidy f = true →
  ∃ hv data, StateManager.load [] f = Ok (hv, data) ∧ is_mapping hv data = true.
Proof.
  intros (hv & rv & Rv & Hload & HRv & _)%tidy_view.
  exists hv, (VRef rv). split; [done|].
  apply bool_decide_eq_true. by eapply lookup_lt_Some.
Qed.

(** X6: logging in, logging out and changing the page never raise on a
    cache that only they have written: from a tidy state (a new cache is
    one) every series of these actions succeeds and ends in a tidy
    state. *)
Theorem actions_never_raise l f :
  tidy f = true →
  ∃ f', act_all l f = Ok f' ∧ tidy f' = true.
Proof.
  revert f. induction l as [|a l IH]; intros f Htidy; [by exists f|].
  assert (∃ f1, act a f = Ok f1 ∧ tidy f1 = true) as (f1 & Hact & Htidy1).
  { destruct a as [hp username token|hp|hp page]; simpl.
    - destruct (login_tidy hp username token f Htidy) as (f1 & ? & ? & _).
      eauto.
    - destruct (tidy_loads f Htidy) as (hv & data & Hload & Hmap).
      destruct (logout_tidy hp f hv data Hload Hmap) as (f1 & ? & ? & _).
      eauto.
    - destruct (change_page_tidy hp page f Htidy) as (f1 & ? & ? & _).
      eauto. }
  destruct (IH f1 Htidy1) as (f' & Hall & Htidy').
  exists f'. split; [|done]. simpl. by rewrite Hact.
Qed.

Lemma actions_never_raise_witness :
  ∃ f', act_all [DoChangePage [] 3; DoLogin [] "u" "t"; DoChangePage [] (-1);
                 DoLogout [empty_dict]; DoLogin [] "v" "w"] Missing = Ok f'
        ∧ tidy f' = true.
Proof.
  apply (actions_never_raise
           [DoChangePage [] 3; DoLogin [] "u" "t"; DoChangePage [] (-1);
            DoLogout [empty_dict]; DoLogin [] "v" "w"] Missing).
  reflexivity.
Defined.

(** ** The navigation bar *)

Lemma read_current_page_any_heap hp hp' f :
  StateManager.read_current_page hp' f = StateManager.read_current_page hp f.
Proof. by rewrite !read_current_page_view. Qed.

Lemma is_logged_in_any_heap hp hp' f :
  StateManager.is_logged_in hp' f = StateManager.is_logged_in hp f.
Proof. by rewrite !is_logged_in_view. Qed.

(** A button that may have been pressed. *)
Lemma change_page_if (b : bool) hp page f :
  tidy f = true →
  ∃ f',
    (if b then StateManager.change_page hp page f else Ok f) = Ok f'
    ∧ tidy f' = true
    ∧ (∀ hp', StateManager.read_current_page hp' f'
              = if b then Ok page else StateManager.read_current_page hp f)
    ∧ (∀ hp', StateManager.is_logged_in hp' f'
              = StateManager.is_logged_in hp f)
    ∧ (b = false → f' = f).
Proof.
  intros Htidy. destruct b.
  - destruct (change_page_effect hp page f Htidy)
      as (f' & Hcp & Htidy' & Hread & Hlog).
    exists f'. repeat split; try done.
    intros hp'. rewrite Hlog. apply is_logged_in_any_heap.
  - exists f. repeat split; try done.
    + intros hp'. apply read_current_page_any_heap.
    + intros hp'. apply is_logged_in_any_heap.
Qed.

Section Navigation.
Context {F : Type}.
Implicit Types (self : MultiPage.t F).

(** The page that "Reset Cache", "Previous Page" and "Next Page" leave
    when the stored page is [i] and the router has [n] pages. *)
Lemma next_previous_effect self (reset previous next : bool) hp f (i : Z) :
  tidy f = true →
  StateManager.read_current_page hp f = Ok i →
  ∃ f',
    MultiPage._render_next_previous self reset previous next hp f = Ok f'
    ∧ tidy f' = true
    ∧ (∀ hp', StateManager.read_current_page hp' f' =
         Ok (let p := if previous then Z.max 0 (i - 1) else i in
             if next
             then Z.min (Z.of_nat (length (MultiPage.apps self)) - 1) (p + 1)
             else if previous then p
             else if reset then (-1)%Z else i))
    ∧ (∀ hp', StateManager.is_logged_in hp' f'
              = StateManager.is_logged_in hp f)
    ∧ (reset = false → previous = false → next = false → f' = f).
Proof.
  intros Htidy Hread. unfold MultiPage._render_next_previous.
  rewrite Hread. simpl. unfold MultiPage.change_page.
  destruct (change_page_if reset hp (-1) f Htidy)
    as (f1 & -> & Htidy1 & Hread1 & Hlog1 & Hsame1). simpl.
  destruct (change_page_if previous hp (Z.max 0 (i - 1)) f1 Htidy1)
    as (f2 & Hcp2 & Htidy2 & Hread2 & Hlog2 & Hsame2).
  assert ((if previous
           then f2 ← StateManager.change_page hp (Z.max 0 (i - 1)) f1;
                Ok (Z.max 0 (i - 1), f2)
           else Ok (i, f1))
          = Ok (if previous then Z.max 0 (i - 1) else i, f2)) as ->.
  { destruct previous; [by rewrite Hcp2|]. by injection Hcp2 as ->. }
  simpl.
  destruct (change_page_if next hp
              (Z.min (Z.of_nat (length (MultiPage.apps self)) - 1)
                     ((if previous then Z.max 0 (i - 1) else i) + 1)) f2 Htidy2)
    as (f3 & -> & Htidy3 & Hread3 & Hlog3 & Hsame3).
  exists f3. split; [done|]. split; [done|]. split; [|split].
  - intros hp'. rewrite Hread3. destruct next; [done|].
    rewrite Hread2. destruct previous; [done|].
    rewrite Hread1. by destruct reset.
  - intros hp'. by rewrite Hlog3, Hlog2, Hlog1.
  - intros -> -> ->. by rewrite Hsame3, Hsame2, Hsame1.
Qed.

(** X7: [_render_next_previous] on a tidy state with stored page [i]:
    nothing pressed leaves the cache file as it is; otherwise the stored
    page becomes max(0, i-1) for "Previous Page", then
    min(len(apps)-1, that+1) for "Next Page", and -1 when only "Reset
    Cache" is pressed; the login state is never changed. *)
Theorem next_previous_page self (reset previous next : bool) hp f (i : Z) :
  tidy f = true →
  StateManager.read_current_page hp f = Ok i →
  ∃ f',
    MultiPage._render_next_previous self reset previous next hp f = Ok f'
    ∧ (∀ hp', StateManager.read_current_page hp' f' =
         Ok (let p := if previous then Z.max 0 (i - 1) else i in
             if next
             then Z.min (Z.of_nat (length (MultiPage.apps self)) - 1) (p + 1)
             else if previous then p
             else if reset then (-1)%Z else i))
    ∧ (∀ hp', StateManager.is_logged_in hp' f'
              = StateManager.is_logged_in hp f)
    ∧ (reset = false → previous = false → next = false → f' = f).
Proof.
  intros Htidy Hread.
  destruct (next_previous_effect self reset previous next hp f i Htidy Hread)
    as (f' & ? & _ & ? & ? & ?).
  by exists f'.
Qed.

(** X8: "Previous Page" and "Next Page" do not leave the page list: from
    a stored page within the list they lead to a page within the list,
    whatever else is pressed with them ("Previous Page" on the first page
    and "Next Page" on the last one stay there). *)
Theorem next_previous_in_range self (reset previous next : bool) hp f (i : Z) :
  tidy f = true →
  StateManager.read_current_page hp f = Ok i →
  (0 ≤ i < Z.of_nat (length (MultiPage.apps self)))%Z →
  previous || next = true →
  ∃ f' j,
    MultiPage._render_next_previous self reset previous next hp f = Ok f'
    ∧ (∀ hp', StateManager.read_current_page hp' f' = Ok j)
    ∧ (0 ≤ j < Z.of_nat (length (MultiPage.apps self)))%Z
    ∧ (i - 1 ≤ j ≤ i + 1)%Z.
Proof.
  intros Htidy Hread Hi Hpressed.
  destruct (next_previous_effect self reset previous next hp f i Htidy Hread)
    as (f' & Hrun & _ & Hread' & _).
  eexists f', _. split; [done|]. split; [exact Hread'|].
  destruct previous, next; simpl in *; try done; lia.
Qed.

(** The loop over the page buttons, started at [index]. *)
Lemma navbar_buttons_effect (todo : list (MultiPage.App F)) index drawn
    pressed hp f :
  tidy f = true →
  NoDup (MultiPage.name <$> todo) →
  (∀ x, x ∈ MultiPage.name <$> todo → x ∉ drawn) →
  ∃ f',
    MultiPage.navbar_buttons todo index drawn pressed hp f = Ok f'
    ∧ tidy f' = true
    ∧ (∀ hp', StateManager.is_logged_in hp' f'
              = StateManager.is_logged_in hp f)
    ∧ ((∀ i, index ≤ i < index + length todo → pressed i = false) → f' = f)
    ∧ (∀ i, index ≤ i < index + length todo → pressed i = true →
         (∀ j, i < j < index + length todo → pressed j = false) →
         ∀ hp', StateManager.read_current_page hp' f' = Ok (Z.of_nat i)).
Proof.
  revert index drawn f.
  induction todo as [|app todo IH]; intros index drawn f Htidy Hnd Hnew.
  - exists f. simpl. repeat split; try done.
    + intros hp'. apply is_logged_in_any_heap.
    + intros i Hi. lia.
  - simpl. rewrite bool_decide_eq_false_2 by (apply Hnew; left).
    unfold MultiPage.change_page.
    destruct (change_page_if (pressed index) hp (Z.of_nat index) f Htidy)
      as (f1 & -> & Htidy1 & Hread1 & Hlog1 & Hsame1). simpl.
    apply NoDup_cons in Hnd as [Hfresh Hnd].
    destruct (IH (S index) (MultiPage.name app :: drawn) f1 Htidy1 Hnd)
      as (f' & -> & Htidy' & Hlog' & Hnone' & Hlast').
    { intros x Hx. rewrite not_elem_of_cons. split.
      - intros ->. done.
      - apply Hnew. by right. }
    exists f'. split; [done|]. split; [done|]. split; [|split].
    + intros hp'. by rewrite Hlog', Hlog1.
    + intros Hnone. rewrite Hnone'.
      * apply Hsame1, Hnone. lia.
      * intros i Hi. apply Hnone. lia.
    + intros i Hi Hp Hlater hp'.
      destruct (decide (i = index)) as [->|Hne].
      * rewrite Hnone'.
        -- by rewrite Hread1, Hp.
        -- intros j Hj. apply Hlater. lia.
      * apply Hlast'; [lia|done|]. intros j Hj. apply Hlater. lia.
Qed.

(** Two pages of one name: the loop stops at the button of the second
    one. *)
Lemma navbar_buttons_duplicate (todo : list (MultiPage.App F)) index drawn
    pressed hp f :
  tidy f = true →
  ¬ NoDup (MultiPage.name <$> todo)
  ∨ (∃ x, x ∈ MultiPage.name <$> todo ∧ x ∈ drawn) →
  MultiPage.navbar_buttons todo index drawn pressed hp f
  = Raise StreamlitAPIException.
Proof.
  revert index drawn f.
  induction todo as [|app todo IH]; intros index drawn f Htidy Hdup.
  - destruct Hdup as [Hdup|(x & Hx & _)].
    + destruct Hdup. constructor.
    + by apply elem_of_nil in Hx.
  - simpl. case_bool_decide as Hin; [done|].
    unfold MultiPage.change_page.
    destruct (change_page_if (pressed index) hp (Z.of_nat index) f Htidy)
      as (f1 & -> & Htidy1 & _). simpl.
    apply IH; [done|].
    destruct (decide (MultiPage.name app ∈ MultiPage.name <$> todo))
      as [Hrep|Hfresh].
    + right. exists (MultiPage.name app). split; [done|left].
    + destruct Hdup as [Hdup|(x & Hx & Hd)].
      * left. intros Hnd. apply Hdup. simpl. by constructor.
      * right. exists x. simpl in Hx.
        apply elem_of_cons in Hx as [->|Hx]; [done|].
        split; [done|by right].
Qed.

Lemma py_list_index_Some x l j :
  py_list_index x l = Some j ↔
  l !! j = Some x ∧ ∀ j', j' < j → l !! j' ≠ Some x.
Proof.
  revert j. induction l as [|y l IH]; intros j; simpl.
  - split; [done|]. by intros [? _].
  - case_decide as Hxy.
    + subst y. split.
      * intros [= <-]. split; [done|]. intros j' Hj'. lia.
      * intros [Hj Hfirst]. destruct j as [|j]; [done|].
        destruct (Hfirst 0); [lia|done].
    + split.
      * destruct (py_list_index x l) as [j0|] eqn:Hj0; [|done].
        simpl. intros [= <-].
        destruct (proj1 (IH j0) eq_refl) as [Hj0' Hfirst].
        split; [done|]. intros [|j'] Hj'; simpl; [congruence|].
        apply Hfirst. lia.
      * intros [Hj Hfirst]. destruct j as [|j]; simpl in Hj; [congruence|].
        rewrite (proj2 (IH j)); [done|]. split; [done|].
        intros j' Hj'. apply (Hfirst (S j')). lia.
Qed.

Lemma py_list_index_elem x (l : list string) i :
  l !! i = Some x → ∃ j, py_list_index x l = Some j ∧ j ≤ i.
Proof.
  revert i. induction l as [|y l IH]; intros i; simpl; [done|].
  case_decide as Hxy.
  - intros _. exists 0. split; [done|lia].
  - destruct i as [|i]; simpl; [congruence|].
    intros (j & -> & Hj)%IH. exists (S j). split; [done|lia].
Qed.

(** The select box stores the index of the first page that has the
    selected name. *)
Lemma navbar_selectbox_effect self hp f (i : nat) app :
  tidy f = true →
  MultiPage.apps self !! i = Some app →
  ∃ f' j,
    MultiPage.navbar_selectbox self (Some (MultiPage.name app)) hp f = Ok f'
    ∧ (∀ hp', StateManager.read_current_page hp' f' = Ok (Z.of_nat j))
    ∧ (∀ hp', StateManager.is_logged_in hp' f'
              = StateManager.is_logged_in hp f)
    ∧ j ≤ i
    ∧ (MultiPage.name <$> MultiPage.apps self !! j) = Some (MultiPage.name app)
    ∧ (∀ j', j' < j →
         (MultiPage.name <$> MultiPage.apps self !! j')
         ≠ Some (MultiPage.name app)).
Proof.
  intros Htidy Hi.
  assert ((MultiPage.name <$> MultiPage.apps self) !! i
          = Some (MultiPage.name app)) as Hname.
  { by rewrite list_lookup_fmap, Hi. }
  destruct (py_list_index_elem _ _ _ Hname) as (j & Hj & Hji).
  destruct (change_page_effect hp (Z.of_nat j) f Htidy)
    as (f' & Hcp & _ & Hread & Hlog).
  exists f', j. split; [|split; [done|split; [|split; [done|]]]].
  - unfold MultiPage.navbar_selectbox. simpl. by rewrite Hj.
  - intros hp'. rewrite Hlog. apply is_logged_in_any_heap.
  - apply py_list_index_Some in Hj as [Hj Hfirst].
    rewrite list_lookup_fmap in Hj. split; [done|].
    intros j' Hj'. rewrite <- list_lookup_fmap. by apply Hfirst.
Qed.

(** The first step of [_render_navbar]. *)
Lemma render_navbar_first_step self (hide_navigation : bool) w hp f (i : Z) :
  tidy f = true →
  StateManager.read_current_page hp f = Ok i →
  ∃ f1,
    (if negb hide_navigation then
       MultiPage._render_next_previous self (MultiPage.reset_button w)
         (MultiPage.previous_page_button w) (MultiPage.next_page_button w) hp f
     else Ok f) = Ok f1
    ∧ tidy f1 = true
    ∧ (∀ hp', StateManager.is_logged_in hp' f1
              = StateManager.is_logged_in hp f)
    ∧ (MultiPage.reset_button w = false →
       MultiPage.previous_page_button w = false →
       MultiPage.next_page_button w = false → f1 = f).
Proof.
  intros Htidy Hread. destruct hide_navigation; simpl.
  - exists f. repeat split; try done. intros hp'. apply is_logged_in_any_heap.
  - destruct (next_previous_effect self (MultiPage.reset_button w)
                (MultiPage.previous_page_button w)
                (MultiPage.next_page_button w) hp f i Htidy Hread)
      as (f1 & ? & ? & _ & ? & ?).
    by exists f1.
Qed.

(** The first step, when the stored page need not be readable unless
    the three buttons are drawn. *)
Lemma render_navbar_first self (hide_navigation : bool) w hp f :
  tidy f = true →
  (hide_navigation = false →
   ∃ i, StateManager.read_current_page hp f = Ok i) →
  ∃ f1,
    (if negb hide_navigation then
       MultiPage._render_next_previous self (MultiPage.reset_button w)
         (MultiPage.previous_page_button w) (MultiPage.next_page_button w) hp f
     else Ok f) = Ok f1
    ∧ tidy f1 = true
    ∧ (∀ hp', StateManager.is_logged_in hp' f1
              = StateManager.is_logged_in hp f)
    ∧ (MultiPage.reset_button w = false →
       MultiPage.previous_page_button w = false →
       MultiPage.next_page_button w = false → f1 = f)
    ∧ (∀ i, StateManager.read_current_page hp f = Ok i →
         ∃ j, ∀ hp', StateManager.read_current_page hp' f1 = Ok j)
    ∧ (hide_navigation = false →
       MultiPage.reset_button w = true →
       MultiPage.previous_page_button w = false →
       MultiPage.next_page_button w = false →
       ∀ hp', StateManager.read_current_page hp' f1 = Ok (-1)%Z).
Proof.
  intros Htidy Hread. destruct hide_navigation; simpl.
  - exists f. repeat split; try done.
    + intros hp'. apply is_logged_in_any_heap.
    + intros i Hi. exists i. intros hp'. rewrite <- Hi.
      apply read_current_page_any_heap.
  - destruct Hread as [i Hread]; [done|].
    destruct (next_previous_effect self (MultiPage.reset_button w)
                (MultiPage.previous_page_button w)
                (MultiPage.next_page_button w) hp f i Htidy Hread)
      as (f1 & Hrun & Htidy1 & Hpage & Hlog & Hsame).
    exists f1. split; [done|]. split; [done|]. split; [done|].
    split; [done|]. split.
    + intros _ _. eexists. exact Hpage.
    + intros _ Hr Hp Hn hp'. rewrite (Hpage hp'), Hr, Hp, Hn. done.
Qed.

(** [_render_navbar] in the button styles: the three buttons, then the
    page buttons. *)
Lemma render_navbar_buttons_unfold self (hide_navigation : bool)
    navbar_style w hp f :
  navbar_style ≠ "SelectBox" →
  MultiPage._render_navbar self hide_navigation navbar_style w hp f =
  (f1 ← (if negb hide_navigation then
           MultiPage._render_next_previous self (MultiPage.reset_button w)
             (MultiPage.previous_page_button w) (MultiPage.next_page_button w)
             hp f
         else Ok f);
   if String.eqb navbar_style "HorizontalButton" then
     columns ← MultiPage.st_columns (length (MultiPage.apps self));
     MultiPage.navbar_buttons (take columns (MultiPage.apps self)) 0 []
       (MultiPage.page_button w) hp f1
   else
     MultiPage.navbar_buttons (MultiPage.apps self) 0 []
       (MultiPage.page_button w) hp f1).
Proof.
  intros Hstyle. unfold MultiPage._render_navbar.
  destruct (if negb hide_navigation then _ else _) as [f1|]; simpl; [|done].
  destruct (bool_decide_reflect (navbar_style ∈ MultiPage.possible_styles))
    as [Hin|Hnin].
  - unfold MultiPage.possible_styles in Hin. rewrite !elem_of_cons in Hin.
    destruct Hin as [->|[->|[->|Hin]]]; simpl.
    + by destruct (MultiPage.navbar_buttons _ _ _ _ _ _).
    + destruct (MultiPage.st_columns _); simpl; [|done].
      by destruct (MultiPage.navbar_buttons _ _ _ _ _ _).
    + done.
    + by apply elem_of_nil in Hin.
  - destruct (String.eqb_spec navbar_style "HorizontalButton") as [->|_].
    + destruct Hnin. unfold MultiPage.possible_styles.
      rewrite !elem_of_cons. by right; left.
    + simpl. by destruct (MultiPage.navbar_buttons _ _ _ _ _ _).
Qed.

Lemma render_navbar_buttons_effect self (hide_navigation : bool)
    navbar_style w hp f :
  tidy f = true →
  (hide_navigation = false →
   ∃ i, StateManager.read_current_page hp f = Ok i) →
  navbar_style ≠ "SelectBox" →
  (navbar_style = "HorizontalButton" → MultiPage.apps self ≠ []) →
  NoDup (MultiPage.name <$> MultiPage.apps self) →
  ∃ f1 f',
    (if negb hide_navigation then
       MultiPage._render_next_previous self (MultiPage.reset_button w)
         (MultiPage.previous_page_button w) (MultiPage.next_page_button w) hp f
     else Ok f) = Ok f1
    ∧ MultiPage._render_navbar self hide_navigation navbar_style w hp f = Ok f'
    ∧ tidy f' = true
    ∧ (∀ hp', StateManager.is_logged_in hp' f'
              = StateManager.is_logged_in hp f)
    ∧ (∀ k, k < length (MultiPage.apps self) →
         MultiPage.page_button w k = true →
         (∀ j, k < j < length (MultiPage.apps self) →
               MultiPage.page_button w j = false) →
         ∀ hp', StateManager.read_current_page hp' f' = Ok (Z.of_nat k))
    ∧ ((∀ k, k < length (MultiPage.apps self) →
             MultiPage.page_button w k = false) → f' = f1).
Proof.
  intros Htidy Hread Hstyle Hcols Hnd.
  destruct (render_navbar_first self hide_navigation w hp f Htidy Hread)
    as (f1 & Hfirst & Htidy1 & Hlog1 & _).
  destruct (navbar_buttons_effect (MultiPage.apps self) 0 []
              (MultiPage.page_button w) hp f1 Htidy1 Hnd)
    as (f' & Hrun & Htidy' & Hlog' & Hnone & Hlast).
  { intros x _. apply not_elem_of_nil. }
  exists f1, f'. split; [done|]. split; [|split; [done|split; [|split]]].
  - rewrite render_navbar_buttons_unfold, Hfirst by done. simpl.
    destruct (String.eqb_spec navbar_style "HorizontalButton") as [Hh|_];
      [|done].
    destruct (MultiPage.apps self) as [|app apps] eqn:Happs;
      [by destruct (Hcols Hh)|].
    simpl. rewrite take_ge by done. exact Hrun.
  - intros hp'. by rewrite Hlog', Hlog1.
  - intros k Hk Hp Hlater. apply Hlast; [lia|done|].
    intros j Hj. apply Hlater. lia.
  - intros Hnot. apply Hnone. intros k Hk. apply Hnot. lia.
Qed.

(** X9: on a tidy state (whose stored page reads as an integer, when the
    three buttons are drawn) [_render_navbar] in the button styles (every
    style but "SelectBox"; a style that is not one of the three known
    ones counts as "VerticalButton") raises in two cases: in the
    style "HorizontalButton" with no page registered, where
    [sidebar.columns(0)] raises [StreamlitAPIException], and when two
    pages have the same name, where the framework refuses the second of
    two buttons that are the same ([DuplicateWidgetID], a
    [StreamlitAPIException]).  Otherwise it succeeds and does not change
    the login state; when a page button is
    pressed, the stored page is the index of the last button pressed,
    whatever "Previous Page", "Next Page" and "Reset Cache" did before;
    when nothing is pressed the cache file stays as it is.  There is one
    button for every page. *)
Theorem render_navbar_button_styles self (hide_navigation : bool)
    navbar_style w hp f :
  tidy f = true →
  (hide_navigation = false →
   ∃ i, StateManager.read_current_page hp f = Ok i) →
  navbar_style ≠ "SelectBox" →
  (navbar_style = "HorizontalButton" → MultiPage.apps self = [] →
   MultiPage._render_navbar self hide_navigation navbar_style w hp f
   = Raise StreamlitAPIException)
  ∧ (¬ NoDup (MultiPage.name <$> MultiPage.apps self) →
     MultiPage._render_navbar self hide_navigation navbar_style w hp f
     = Raise StreamlitAPIException)
  ∧ ((navbar_style = "HorizontalButton" → MultiPage.apps self ≠ []) →
     NoDup (MultiPage.name <$> MultiPage.apps self) →
     ∃ f',
       MultiPage._render_navbar self hide_navigation navbar_style w hp f
       = Ok f'
       ∧ (∀ hp', StateManager.is_logged_in hp' f'
                 = StateManager.is_logged_in hp f)
       ∧ (∀ k, k < length (MultiPage.apps self) →
            MultiPage.page_button w k = true →
            (∀ j, k < j < length (MultiPage.apps self) →
                  MultiPage.page_button w j = false) →
            ∀ hp', StateManager.read_current_page hp' f' = Ok (Z.of_nat k))
       ∧ (MultiPage.reset_button w = false →
          MultiPage.previous_page_button w = false →
          MultiPage.next_page_button w = false →
          (∀ k, k < length (MultiPage.apps self) →
                MultiPage.page_button w k = false) → f' = f)).
Proof.
  intros Htidy Hread Hstyle. split; [|split].
  - intros -> Hnil.
    destruct (render_navbar_first self hide_navigation w hp f Htidy Hread)
      as (f1 & Hfirst & _).
    rewrite render_navbar_buttons_unfold, Hfirst by done. simpl.
    by rewrite Hnil.
  - intros Hdup.
    destruct (render_navbar_first self hide_navigation w hp f Htidy Hread)
      as (f1 & Hfirst & Htidy1 & _).
    rewrite render_navbar_buttons_unfold, Hfirst by done. simpl.
    destruct (String.eqb navbar_style "HorizontalButton").
    + destruct (MultiPage.apps self) as [|app apps] eqn:Happs.
      { destruct Hdup. constructor. }
      simpl (MultiPage.st_columns _).
      change (Ok ?a ≫= ?k) with (k a). cbv beta.
      rewrite take_ge by done. apply navbar_buttons_duplicate; [done|by left].
    + apply navbar_buttons_duplicate; [done|by left].
  - intros Hcols Hnd.
    destruct (render_navbar_buttons_effect self hide_navigation navbar_style
                w hp f Htidy Hread Hstyle Hcols Hnd)
      as (f1 & f' & Hfirst & Hrun & _ & Hlog & Hlast & Hnone).
    exists f'. split; [done|]. split; [done|]. split; [done|].
    intros Hr Hp Hn Hnot. rewrite (Hnone Hnot).
    destruct (render_navbar_first self hide_navigation w hp f Htidy Hread)
      as (f1' & Hfirst' & _ & _ & Hsame & _).
    rewrite Hfirst in Hfirst'. injection Hfirst' as <-. by apply Hsame.
Qed.

(** X10: on a tidy state (whose stored page reads as an integer, when
    the three buttons are drawn) [_render_navbar] in the style
    "SelectBox" stores the index of the first page that has the selected
    name, whatever "Previous Page", "Next Page" and "Reset Cache" did
    before it in the same run: the three buttons have no effect on the
    page shown in this style, and a page whose name an earlier page has
    too cannot be reached.  The login state is not changed. *)
Theorem render_navbar_selectbox self (hide_navigation : bool) w hp f
    (k : nat) app :
  tidy f = true →
  (hide_navigation = false →
   ∃ i, StateManager.read_current_page hp f = Ok i) →
  MultiPage.apps self !! k = Some app →
  MultiPage.selectbox w = Some (MultiPage.name app) →
  ∃ f' j,
    MultiPage._render_navbar self hide_navigation "SelectBox" w hp f = Ok f'
    ∧ (∀ hp', StateManager.read_current_page hp' f' = Ok (Z.of_nat j))
    ∧ (∀ hp', StateManager.is_logged_in hp' f'
              = StateManager.is_logged_in hp f)
    ∧ j ≤ k
    ∧ (MultiPage.name <$> MultiPage.apps self !! j) = Some (MultiPage.name app)
    ∧ (∀ j', j' < j →
         (MultiPage.name <$> MultiPage.apps self !! j')
         ≠ Some (MultiPage.name app)).
Proof.
  intros Htidy Hread Hk Hsel. unfold MultiPage._render_navbar.
  destruct (render_navbar_first self hide_navigation w hp f Htidy Hread)
    as (f1 & -> & Htidy1 & Hlog1 & _).
  simpl. rewrite Hsel.
  destruct (navbar_selectbox_effect self hp f1 k app Htidy1 Hk)
    as (f' & j & Hrun & Hpage & Hlog & Hrest).
  exists f', j. split; [done|]. split; [done|]. split; [|done].
  intros hp'. by rewrite Hlog, Hlog1.
Qed.

(** X11: with no page registered, [_render_navbar] in the style
    "SelectBox" raises [ValueError]: the select box has nothing to
    return, and [app_names.index] does not find it. *)
Theorem render_navbar_selectbox_no_page self (hide_navigation : bool) w hp f
    (i : Z) :
  tidy f = true →
  StateManager.read_current_page hp f = Ok i →
  MultiPage.apps self = [] →
  MultiPage._render_navbar self hide_navigation "SelectBox" w hp f
  = Raise ValueError.
Proof.
  intros Htidy Hread Hnil. unfold MultiPage._render_navbar.
  destruct (render_navbar_first_step self hide_navigation w hp f i Htidy Hread)
    as (f1 & -> & _).
  simpl. unfold MultiPage.navbar_selectbox. rewrite Hnil. simpl.
  by destruct (MultiPage.selectbox w).
Qed.

End Navigation.

Lemma next_previous_page_witness :
  ∃ f',
    MultiPage._render_next_previous example_router true true false []
      example_cache = Ok f'
    ∧ ∀ hp', StateManager.read_current_page hp' f' = Ok 0%Z.
Proof.
  destruct (next_previous_page example_router true true false [] example_cache
              1) as (f' & Hrun & Hpage & _); [reflexivity..|].
  by exists f'.
Defined.

Lemma next_previous_in_range_witness :
  ∃ f' j,
    MultiPage._render_next_previous example_router false false true []
      example_cache = Ok f'
    ∧ (∀ hp', StateManager.read_current_page hp' f' = Ok j)
    ∧ (0 ≤ j < 2)%Z.
Proof.
  destruct (next_previous_in_range example_router false false true []
              example_cache 1)
    as (f' & j & Hrun & Hpage & Hj & _); [reflexivity | reflexivity | | |].
  - simpl. lia.
  - reflexivity.
  - by exists f', j.
Defined.

Lemma render_navbar_button_styles_witness :
  MultiPage._render_navbar (@MultiPage.new nat) false "HorizontalButton"
    {| MultiPage.reset_button := false;
       MultiPage.previous_page_button := false;
       MultiPage.next_page_button := false;
       MultiPage.page_button := fun _ => false;
       MultiPage.selectbox := None |} [] example_cache
  = Raise StreamlitAPIException
  ∧ ∃ f',
      MultiPage._render_navbar example_router false "Tabs"
        {| MultiPage.reset_button := true;
           MultiPage.previous_page_button := false;
           MultiPage.next_page_button := true;
           MultiPage.page_button := fun k => bool_decide (k = 0);
           MultiPage.selectbox := None |} [] example_cache = Ok f'
      ∧ ∀ hp', StateManager.read_current_page hp' f' = Ok 0%Z.
Proof.
  split.
  - apply (proj1 (render_navbar_button_styles (@MultiPage.new nat) false
             "HorizontalButton"
             {| MultiPage.reset_button := false;
                MultiPage.previous_page_button := false;
                MultiPage.next_page_button := false;
                MultiPage.page_button := fun _ => false;
                MultiPage.selectbox := None |} [] example_cache
             eq_refl (fun _ => ex_intro _ 1%Z eq_refl)
             ltac:(discriminate))); reflexivity.
  - destruct (proj2 (proj2 (render_navbar_button_styles example_router false
        "Tabs"
        {| MultiPage.reset_button := true;
           MultiPage.previous_page_button := false;
           MultiPage.next_page_button := true;
           MultiPage.page_button := fun k => bool_decide (k = 0);
           MultiPage.selectbox := None |} [] example_cache
        eq_refl (fun _ => ex_intro _ 1%Z eq_refl)
        ltac:(discriminate))))
      as (f' & Hrun & _ & Hlast & _); [discriminate| |].
    { repeat constructor; rewrite ?elem_of_cons; simpl;
        [intros [?|Hin]; [discriminate|by apply elem_of_nil in Hin]
        |apply not_elem_of_nil]. }
    exists f'. split; [exact Hrun|].
    apply (Hlast 0); [simpl; lia|reflexivity|].
    intros j Hj. apply bool_decide_eq_false. lia.
Defined.

Lemma render_navbar_selectbox_witness :
  ∃ f' j,
    MultiPage._render_navbar example_router false "SelectBox"
      {| MultiPage.reset_button := false;
         MultiPage.previous_page_button := true;
         MultiPage.next_page_button := false;
         MultiPage.page_button := fun _ => false;
         MultiPage.selectbox := Some "second" |} [] example_cache = Ok f'
    ∧ (∀ hp', StateManager.read_current_page hp' f' = Ok (Z.of_nat j))
    ∧ j ≤ 1.
Proof.
  destruct (render_navbar_selectbox example_router false
      {| MultiPage.reset_button := false;
         MultiPage.previous_page_button := true;
         MultiPage.next_page_button := false;
         MultiPage.page_button := fun _ => false;
         MultiPage.selectbox := Some "second" |} [] example_cache 1
      {| MultiPage.name := "second"; MultiPage.func := 2 |})
    as (f' & j & Hrun & Hpage & _ & Hj & _);
    [reflexivity | intros _; exists 1%Z; reflexivity
    | reflexivity | reflexivity |].
  by exists f', j.
Defined.

Lemma render_navbar_selectbox_no_page_witness :
  MultiPage._render_navbar (@MultiPage.new nat) false "SelectBox"
    {| MultiPage.reset_button := false;
       MultiPage.previous_page_button := false;
       MultiPage.next_page_button := true;
       MultiPage.page_button := fun _ => false;
       MultiPage.selectbox := None |} [] example_cache
  = Raise ValueError.
Proof.
  apply (render_navbar_selectbox_no_page (@MultiPage.new nat) false
    {| MultiPage.reset_button := false;
       MultiPage.previous_page_button := false;
       MultiPage.next_page_button := true;
       MultiPage.page_button := fun _ => false;
       MultiPage.selectbox := None |} [] example_cache 1); reflexivity.
Defined.

(** ** The page that [_run] shows *)

Section Run.
Context {F : Type}.
Implicit Types (self : MultiPage.t F) (calls : list (string * F * bool)).

Lemma add_apps_initial_page calls self :
  MultiPage.initial_page (MultiPage.add_apps self calls) =
  match MultiPage.initial_page self with
  | Some app => Some app
  | None =>
      (fun c : string * F * bool =>
         {| MultiPage.name := "__INITIALPAGE__"; MultiPage.func := c.1.2 |})
      <$> List.find (fun c => c.2) calls
  end.
Proof.
  revert self. induction calls as [|[[n fn] b] calls IH]; intros self.
  - simpl. by destruct (MultiPage.initial_page self).
  - change (MultiPage.add_apps self ((n, fn, b) :: calls))
      with (MultiPage.add_apps (MultiPage.add_app self n fn b) calls).
    rewrite IH. unfold MultiPage.add_app. simpl.
    destruct (MultiPage.initial_page self) as [app|] eqn:Hinit.
    + rewrite bool_decide_eq_true_2 by done. rewrite andb_false_r.
      simpl. by rewrite Hinit.
    + rewrite bool_decide_eq_false_2 by (by intros [? ?]).
      rewrite andb_true_r. destruct b; simpl; [done|]. by rewrite Hinit.
Qed.

(** X12: a visitor who is not logged in is shown the initial page, which
    is the callable of the first [add_app] call that had the
    [initial_page] flag; on a router where no call had it, [_run] raises
    [AttributeError] for such a visitor. *)
Theorem run_page_not_logged_in calls hp f :
  MultiPage.is_logged_in hp f = Ok false →
  MultiPage.run_page (MultiPage.add_apps MultiPage.new calls) hp f =
  match List.find (fun c => c.2) calls with
  | Some c =>
      Ok {| MultiPage.name := "__INITIALPAGE__"; MultiPage.func := c.1.2 |}
  | None => Raise AttributeError
  end.
Proof.
  intros Hlog. unfold MultiPage.run_page. rewrite Hlog. simpl.
  rewrite add_apps_initial_page. simpl.
  by destruct (List.find (fun c => c.2) calls).
Qed.

(** The page at a negative stored index. *)
Lemma current_app_negative self hp f (i : Z) :
  StateManager.read_current_page hp f = Ok i →
  (i < 0)%Z →
  MultiPage.current_app self hp f =
  match reverse (MultiPage.apps self) !! Z.to_nat (- i - 1) with
  | Some app => Ok app
  | None => Raise IndexError
  end.
Proof.
  intros Hpage Hi. unfold MultiPage.current_app. rewrite Hpage. simpl.
  destruct (Z.leb_spec (Z.of_nat (length (MultiPage.apps self))) i); [lia|].
  unfold py_list_getitem.
  destruct (Z.ltb_spec i 0); [|lia].
  destruct (Z.ltb_spec (Z.of_nat (length (MultiPage.apps self)) + i) 0)
    as [Hout|Hin].
  - rewrite lookup_ge_None_2; [done|]. rewrite length_reverse. lia.
  - rewrite reverse_lookup by lia.
    replace (length (MultiPage.apps self) - S (Z.to_nat (- i - 1)))
      with (Z.to_nat (Z.of_nat (length (MultiPage.apps self)) + i)) by lia.
    done.
Qed.


(** The page choice with no page registered. *)
Lemma run_page_no_page self hp f (i : Z) :
  MultiPage.is_logged_in hp f = Ok true →
  StateManager.read_current_page hp f = Ok i →
  MultiPage.apps self = [] →
  MultiPage.run_page self hp f = Raise IndexError.
Proof.
  intros Hlog Hpage Hnil.
  unfold MultiPage.run_page, MultiPage.current_app.
  rewrite Hlog. simpl. rewrite Hpage. simpl. rewrite Hnil.
  match goal with |- py_list_getitem [] ?j = _ => generalize j end.
  intros j. unfold py_list_getitem. simpl.
  by destruct (_ <? 0)%Z.
Qed.

(** [_run] for a logged-in user on a router without header and without
    [navbar_extra]: the navigation bar, then the page choice. *)
Lemma run_logged_in self (hide_navigation : bool) navbar_style w hp f :
  MultiPage.is_logged_in hp f = Ok true →
  MultiPage.header self = None →
  MultiPage.navbar_extra self = None →
  MultiPage._run self hide_navigation navbar_style w hp f =
  (f1 ← MultiPage._render_navbar self hide_navigation navbar_style w hp f;
   app ← MultiPage.run_page self hp f1; Ok (app, f1)).
Proof.
  intros Hlog Hh He. unfold MultiPage._run.
  rewrite Hlog. simpl. by rewrite Hh, He.
Qed.

(** X14: with no page registered (and neither header nor [navbar_extra]),
    [_run] raises for a logged-in user, on a tidy state whose stored page
    reads as an integer: [ValueError] in the style "SelectBox" (from the
    select box), [StreamlitAPIException] in the style
    "HorizontalButton" (from [sidebar.columns(0)]), and [IndexError] in
    the style "VerticalButton" and every unknown style (from
    [self.apps[page]]). *)
Theorem run_no_page self (hide_navigation : bool) navbar_style w hp f (i : Z) :
  tidy f = true →
  StateManager.read_current_page hp f = Ok i →
  MultiPage.is_logged_in hp f = Ok true →
  MultiPage.apps self = [] →
  MultiPage.header self = None →
  MultiPage.navbar_extra self = None →
  MultiPage._run self hide_navigation navbar_style w hp f =
  Raise (if String.eqb navbar_style "SelectBox" then ValueError
         else if String.eqb navbar_style "HorizontalButton"
              then StreamlitAPIException
              else IndexError).
Proof.
  intros Htidy Hread Hlog Hnil Hh He.
  rewrite run_logged_in by done.
  assert (hide_navigation = false →
          ∃ i, StateManager.read_current_page hp f = Ok i) as Hread'
    by (intros _; by exists i).
  destruct (render_navbar_first self hide_navigation w hp f Htidy Hread')
    as (f1 & Hfirst & Htidy1 & Hlog1 & _ & Hpage1 & _).
  destruct (String.eqb_spec navbar_style "SelectBox") as [->|Hsel].
  - unfold MultiPage._render_navbar. rewrite Hfirst. simpl.
    unfold MultiPage.navbar_selectbox. rewrite Hnil. simpl.
    by destruct (MultiPage.selectbox w).
  - destruct (String.eqb_spec navbar_style "HorizontalButton") as [->|Hhor].
    + rewrite render_navbar_buttons_unfold, Hfirst by done. simpl.
      by rewrite Hnil.
    + destruct (render_navbar_buttons_effect self hide_navigation navbar_style
                  w hp f Htidy Hread' Hsel)
        as (f1' & f' & Hfirst' & -> & _ & Hlog' & _ & Hnone); [done| |].
      { rewrite Hnil. apply NoDup_nil_2. }
      rewrite Hfirst in Hfirst'. injection Hfirst' as <-.
      rewrite Hnone by (intros k Hk; rewrite Hnil in Hk; simpl in Hk; lia).
      simpl. destruct (Hpage1 i Hread) as [j Hj].
      rewrite (run_page_no_page self hp f1 j); try done.
      unfold MultiPage.is_logged_in. by rewrite Hlog1.
Qed.

(** X15: in the button styles, "Reset Cache" pressed alone (no other
    button of the bar) makes [_run] show the last page to a logged-in
    user, on a tidy state whose stored page reads as an integer and a
    router with pages of distinct names (the framework refuses the
    second of two buttons that are the same), without header and without
    [navbar_extra]:
    it stores the page -1, which [_run] reads as an index from the end.
    (In the style "SelectBox" the select box stores its own choice after
    the button.) *)
Theorem reset_shows_last_page self navbar_style w hp f (i : Z) app :
  tidy f = true →
  StateManager.read_current_page hp f = Ok i →
  StateManager.is_logged_in hp f = Ok true →
  last (MultiPage.apps self) = Some app →
  NoDup (MultiPage.name <$> MultiPage.apps self) →
  MultiPage.header self = None →
  MultiPage.navbar_extra self = None →
  navbar_style ≠ "SelectBox" →
  MultiPage.reset_button w = true →
  MultiPage.previous_page_button w = false →
  MultiPage.next_page_button w = false →
  (∀ k, k < length (MultiPage.apps self) → MultiPage.page_button w k = false) →
  ∃ f',
    MultiPage._run self false navbar_style w hp f = Ok (app, f')
    ∧ ∀ hp', StateManager.read_current_page hp' f' = Ok (-1)%Z.
Proof.
  intros Htidy Hread Hlog Hlast Hnd Hh He Hsel Hr Hp Hn Hnot.
  rewrite run_logged_in by done.
  assert (false = false →
          ∃ i, StateManager.read_current_page hp f = Ok i) as Hread'
    by (intros _; by exists i).
  destruct (render_navbar_first self false w hp f Htidy Hread')
    as (f1 & Hfirst & Htidy1 & Hlog1 & _ & _ & Hreset).
  destruct (render_navbar_buttons_effect self false navbar_style
              w hp f Htidy Hread' Hsel)
    as (f1' & f' & Hfirst' & -> & _ & Hlog' & _ & Hnone); [|done|].
  { intros _ Hnil. by rewrite Hnil in Hlast. }
  rewrite Hfirst in Hfirst'. injection Hfirst' as <-.
  rewrite (Hnone Hnot). simpl.
  pose proof (Hreset eq_refl Hr Hp Hn) as Hpage.
  exists f1. split; [|done].
  unfold MultiPage.run_page, MultiPage.is_logged_in.
  rewrite Hlog1, Hlog. simpl.
  rewrite (current_app_negative self hp f1 (-1)) by (done || lia).
  rewrite last_lookup in Hlast.
  change (Z.to_nat (- -1 - 1)) with 0.
  rewrite reverse_lookup by (destruct (MultiPage.apps self); [done|simpl; lia]).
  replace (length (MultiPage.apps self) - 1) with
    (pred (length (MultiPage.apps self))) by lia.
  by rewrite Hlast.
Qed.


(** X17: after [logout], the router shows the initial page. *)
Theorem logout_shows_initial_page self hp f hv data app :
  StateManager.load [] f = Ok (hv, data) →
  is_mapping hv data = true →
  MultiPage.initial_page self = Some app →
  ∃ f',
    MultiPage.logout hp f = Ok f'
    ∧ ∀ hp', MultiPage.run_page self hp' f' = Ok app.
Proof.
  intros Hload Hmap Hinit.
  destruct (logout_tidy hp f hv data Hload Hmap)
    as (f' & Hlogout & _ & Hlog & _).
  exists f'. split; [done|]. intros hp'.
  unfold MultiPage.run_page, MultiPage.is_logged_in.
  rewrite Hlog. simpl. by rewrite Hinit.
Qed.

End Run.

Lemma run_page_not_logged_in_witness :
  MultiPage.run_page
    (MultiPage.add_apps MultiPage.new
       [("first", 1, false); ("start", 7, true); ("other", 8, true)])
    [] Missing
  = Ok {| MultiPage.name := "__INITIALPAGE__"; MultiPage.func := 7 |}.
Proof.
  apply (run_page_not_logged_in
           [("first", 1, false); ("start", 7, true); ("other", 8, true)]
           [] Missing).
  reflexivity.
Defined.


Lemma run_no_page_witness :
  MultiPage._run (@MultiPage.new nat) false "SelectBox"
    {| MultiPage.reset_button := false;
       MultiPage.previous_page_button := false;
       MultiPage.next_page_button := false;
       MultiPage.page_button := fun _ => false;
       MultiPage.selectbox := None |} [] example_cache = Raise ValueError
  ∧ MultiPage._run (@MultiPage.new nat) true "HorizontalButton"
      {| MultiPage.reset_button := false;
         MultiPage.previous_page_button := false;
         MultiPage.next_page_button := false;
         MultiPage.page_button := fun _ => false;
         MultiPage.selectbox := None |} [] example_cache
    = Raise StreamlitAPIException
  ∧ MultiPage._run (@MultiPage.new nat) false "VerticalButton"
      {| MultiPage.reset_button := false;
         MultiPage.previous_page_button := false;
         MultiPage.next_page_button := true;
         MultiPage.page_button := fun _ => false;
         MultiPage.selectbox := None |} [] example_cache = Raise IndexError.
Proof.
  split; [|split].
  - apply (run_no_page (@MultiPage.new nat) false "SelectBox" _ []
             example_cache 1); reflexivity.
  - apply (run_no_page (@MultiPage.new nat) true "HorizontalButton" _ []
             example_cache 1); reflexivity.
  - apply (run_no_page (@MultiPage.new nat) false "VerticalButton" _ []
             example_cache 1); reflexivity.
Defined.

Lemma reset_shows_last_page_witness :
  ∃ f',
    MultiPage._run example_router false "HorizontalButton"
      {| MultiPage.reset_button := true;
         MultiPage.previous_page_button := false;
         MultiPage.next_page_button := false;
         MultiPage.page_button := fun _ => false;
         MultiPage.selectbox := None |} [] example_cache
    = Ok ({| MultiPage.name := "second"; MultiPage.func := 2 |}, f')
    ∧ ∀ hp', StateManager.read_current_page hp' f' = Ok (-1)%Z.
Proof.
  apply (reset_shows_last_page example_router "HorizontalButton"
      {| MultiPage.reset_button := true;
         MultiPage.previous_page_button := false;
         MultiPage.next_page_button := false;
         MultiPage.page_button := fun _ => false;
         MultiPage.selectbox := None |} [] example_cache 1);
    try solve [reflexivity | discriminate].
  repeat constructor; rewrite ?elem_of_cons; simpl;
    [intros [?|Hin]; [discriminate|by apply elem_of_nil in Hin]
    |apply not_elem_of_nil].
Defined.


Lemma logout_shows_initial_page_witness :
  ∃ f',
    MultiPage.logout [] example_cache = Ok f'
    ∧ ∀ hp',
        MultiPage.run_page
          (MultiPage.add_apps MultiPage.new [("start", 7, true)]) hp' f'
        = Ok {| MultiPage.name := "__INITIALPAGE__"; MultiPage.func := 7 |}.
Proof.
  apply (logout_shows_initial_page
           (MultiPage.add_apps MultiPage.new [("start", 7, true)])
           [] example_cache
           [Dict false [("current_page", VInt 1)];
            Dict false [("current_page", VInt 1)];
            Dict false [("username", VStr "u"); ("token", VStr "t")];
            Dict true [("session", VRef 2); ("global", VRef 1);
                       ("current_page", VInt 1)]] (VRef 3)); reflexivity.
Defined.

(** ** Deleting from the cache *)

Lemma dict_remove_absent k it : dict_get k it = None → dict_remove k it = it.
Proof.
  induction it as [|[k0 v0] it IH]; simpl; [done|].
  case_decide; [done|]. intros Hk. by rewrite IH.
Qed.

Lemma dict_get_remove k k' it :
  unique_keys it = true →
  dict_get k' (dict_remove k it)
  = if decide (k' = k) then None else dict_get k' it.
Proof.
  induction it as [|[k0 v0] it IH]; simpl.
  - intros _. by case_decide.
  - intros [Hk0 Hu]%andb_true_iff.
    apply negb_true_iff, dict_mem_false in Hk0.
    destruct (decide (k = k0)) as [->|Hne].
    + destruct (decide (k' = k0)) as [->|]; [done|]. simpl.
      by repeat case_decide.
    + simpl. destruct (decide (k' = k0)) as [->|].
      * by repeat case_decide.
      * by apply IH.
Qed.

Lemma unique_keys_remove k it :
  unique_keys it = true → unique_keys (dict_remove k it) = true.
Proof.
  induction it as [|[k0 v0] it IH]; simpl; [done|].
  intros [Hk0 Hu]%andb_true_iff. case_decide; [done|]. simpl.
  apply andb_true_iff. split; [|by apply IH].
  apply negb_true_iff, dict_mem_false. rewrite dict_get_remove by done.
  case_decide; [done|]. by apply negb_true_iff, dict_mem_false in Hk0.
Qed.

Lemma dict_eta d : Dict (dflt d) (items d) = d.
Proof. by destruct d. Qed.

(** [del d[k]] under [try ... except KeyError]. *)
Lemma py_delitem_except (h : heap) l d k :
  h !! l = Some d →
  except_KeyError (py_delitem h (VRef l) k) h
  = Ok (<[l := Dict (dflt d) (dict_remove k (items d))]> h).
Proof.
  intros Hd. unfold py_delitem. rewrite (heap_get_Some _ _ _ Hd). simpl.
  destruct (dict_mem k (items d)) eqn:Hk; simpl; [done|].
  apply dict_mem_false in Hk. rewrite dict_remove_absent by done.
  by rewrite dict_eta, list_insert_id.
Qed.

(** The loop over the namespaces works on the mapping alone. *)
Lemma del_namespaces_root nss (h : heap) r R :
  h !! r = Some R →
  unique_keys (items R) = true →
  ∃ R',
    StateManager.del_namespaces nss (VRef r) h = Ok (<[r := R']> h)
    ∧ dflt R' = dflt R
    ∧ unique_keys (items R') = true
    ∧ ∀ k, dict_get k (items R')
           = if decide (k ∈ nss) then None else dict_get k (items R).
Proof.
  revert h R. induction nss as [|ns nss IH]; intros h R HR Hu; simpl.
  - exists R. rewrite list_insert_id by done. by repeat split.
  - rewrite (py_delitem_except h r R ns HR). simpl.
    assert (r < length h) as Hr by (by eapply lookup_lt_Some).
    destruct (IH (<[r := Dict (dflt R) (dict_remove ns (items R))]> h)
                 (Dict (dflt R) (dict_remove ns (items R))))
      as (R' & Hrun & Hdflt & Hu' & Hget).
    { by rewrite list_lookup_insert_eq. }
    { by apply unique_keys_remove. }
    exists R'. rewrite Hrun, list_insert_insert_eq.
    repeat split; try done.
    intros k. rewrite Hget. simpl. rewrite dict_get_remove by done.
    destruct (decide (k = ns)) as [->|Hne].
    + rewrite (decide_True (P := ns ∈ ns :: nss)) by left.
      by case_decide.
    + destruct (decide (k ∈ nss)) as [Hin|Hnin].
      * by rewrite decide_True by (by right).
      * rewrite decide_False; [done|].
        rewrite elem_of_cons. by intros [?|?].
Qed.

(** What [clear_cache(namespaces=...)] stores. *)
Lemma clear_cache_namespaces_stored hp variables nss f (h : heap) r R :
  StateManager.load hp f = Ok (h, VRef r) →
  h !! r = Some R →
  unique_keys (items R) = true →
  nss ≠ [] →
  StateManager.nonempty variables = false →
  ∃ h' R',
    StateManager.clear_cache hp variables (Some nss) false f
    = Ok (Pickled h' (VRef r))
    ∧ h' !! r = Some R'
    ∧ dflt R' = dflt R
    ∧ (∀ k, dict_get k (items R')
            = if decide (k ∈ nss) then None else dict_get k (items R))
    ∧ (∀ l, l ≠ r → h' !! l = h !! l).
Proof.
  intros Hload HR Hu Hnss Hvars. unfold StateManager.clear_cache.
  rewrite Hload. simpl. rewrite Hvars.
  destruct nss as [|ns nss]; [done|].
  change (StateManager.nonempty (Some (ns :: nss)) && negb false) with true.
  cbv iota. change (default [] (Some (ns :: nss))) with (ns :: nss).
  destruct (del_namespaces_root (ns :: nss) h r R HR Hu)
    as (R' & -> & Hdflt & _ & Hget).
  assert (r < length h) as Hr by (by eapply lookup_lt_Some).
  exists (<[r := R']> h), R'. split; [done|].
  split; [by rewrite list_lookup_insert_eq|]. split; [done|].
  split; [done|]. intros l Hl. by rewrite list_lookup_insert_ne.
Qed.

(** X18: [clear_cache(namespaces=...)] (without variables) removes the
    listed top-level entries from what [load] returns and stores the
    rest: the other entries keep their values, and no namespace
    dictionary is changed.  The entries that [load] has copied from the
    namespace "global" are entries like the others: they are stored at
    the top level from then on. *)
Theorem clear_cache_namespaces hp variables nss f (h : heap) r R :
  StateManager.load hp f = Ok (h, VRef r) →
  h !! r = Some R →
  unique_keys (items R) = true →
  nss ≠ [] →
  StateManager.nonempty variables = false →
  ∃ h' R',
    StateManager.clear_cache hp variables (Some nss) false f
    = Ok (Pickled h' (VRef r))
    ∧ h' !! r = Some R'
    ∧ dflt R' = dflt R
    ∧ (∀ k, dict_get k (items R')
            = if decide (k ∈ nss) then None else dict_get k (items R))
    ∧ (∀ l, l ≠ r → h' !! l = h !! l).
Proof. apply clear_cache_namespaces_stored. Qed.

Lemma clear_cache_namespaces_witness :
  ∃ h' R',
    StateManager.clear_cache [] None (Some ["global"]) false example_cache
    = Ok (Pickled h' (VRef 3))
    ∧ h' !! 3 = Some R'
    ∧ dict_get "global" (items R') = None
    ∧ dict_get "current_page" (items R') = Some (VInt 1).
Proof.
  destruct (clear_cache_namespaces [] None ["global"] example_cache
           [Dict false [("current_page", VInt 1)];
            Dict false [("current_page", VInt 1)];
            Dict false [("username", VStr "u"); ("token", VStr "t")];
            Dict true [("session", VRef 2); ("global", VRef 1);
                       ("current_page", VInt 1)]] 3
           (Dict true [("session", VRef 2); ("global", VRef 1);
                       ("current_page", VInt 1)]))
    as (h' & R' & Hrun & HR' & _ & Hget & _);
    [reflexivity | reflexivity | reflexivity | done | reflexivity |].
  exists h', R'. split; [exact Hrun|]. split; [exact HR'|].
  split; [exact (Hget "global") | exact (Hget "current_page")].
Defined.

(** X19: after [clear_cache(namespaces=...)] with "global" among the
    namespaces, [load] returns what was stored, so the variables that
    were global are still there at the top level, and
    [read_current_page] finds no namespace "global": it returns 0 when
    the stored mapping is a [defaultdict] (as every mapping that
    [load] has created is) and raises [KeyError] when it is a plain
    dictionary. *)
Theorem clear_cache_global hp variables nss f (h : heap) r R :
  StateManager.load hp f = Ok (h, VRef r) →
  h !! r = Some R →
  unique_keys (items R) = true →
  "global" ∈ nss →
  StateManager.nonempty variables = false →
  ∃ f' h' R',
    StateManager.clear_cache hp variables (Some nss) false f = Ok f'
    ∧ StateManager.load [] f' = Ok (h', VRef r)
    ∧ h' !! r = Some R'
    ∧ (∀ k, dict_get k (items R')
            = if decide (k ∈ nss) then None else dict_get k (items R))
    ∧ (∀ hp', StateManager.read_current_page hp' f'
              = if dflt R then Ok 0%Z else Raise KeyError).
Proof.
  intros Hload HR Hu Hg Hvars.
  destruct (clear_cache_namespaces_stored hp variables nss f h r R Hload HR Hu)
    as (h' & R' & Hrun & HR' & Hdflt & Hget & _); [|done|].
  { intros ->. by apply elem_of_nil in Hg. }
  pose proof (Hget "global") as Hglobal. rewrite decide_True in Hglobal by done.
  pose proof (load_pickled_plain h' r R' HR' Hglobal) as Hload'.
  exists (Pickled h' (VRef r)), h', R'.
  split; [done|]. split; [done|]. split; [done|]. split; [done|].
  intros hp'. rewrite read_current_page_view, Hload'. simpl.
  unfold py_getitem. rewrite (heap_get_Some _ _ _ HR'). simpl.
  rewrite Hglobal, Hdflt. destruct (dflt R); [|done]. simpl.
  unfold py_contains, heap_set_items.
  assert (r < length h') as Hr by (by eapply lookup_lt_Some).
  rewrite (heap_get_Some _ (length h') empty_dict); [done|].
  rewrite list_lookup_insert_ne by lia.
  by rewrite lookup_app_r, Nat.sub_diag by lia.
Qed.

Lemma clear_cache_global_witness :
  ∃ f' h' R',
    StateManager.clear_cache [] None (Some ["global"]) false example_cache
    = Ok f'
    ∧ StateManager.load [] f' = Ok (h', VRef 3)
    ∧ h' !! 3 = Some R'
    ∧ dict_get "current_page" (items R') = Some (VInt 1)
    ∧ (∀ hp', StateManager.read_current_page hp' f' = Ok 0%Z).
Proof.
  destruct (clear_cache_global [] None ["global"] example_cache
           [Dict false [("current_page", VInt 1)];
            Dict false [("current_page", VInt 1)];
            Dict false [("username", VStr "u"); ("token", VStr "t")];
            Dict true [("session", VRef 2); ("global", VRef 1);
                       ("current_page", VInt 1)]] 3
           (Dict true [("session", VRef 2); ("global", VRef 1);
                       ("current_page", VInt 1)]))
    as (f' & h' & R' & Hrun & Hload & HR' & Hget & Hpage);
    [reflexivity | reflexivity | reflexivity | | reflexivity |].
  { apply elem_of_cons. by left. }
  exists f', h', R'. split; [exact Hrun|]. split; [exact Hload|].
  split; [exact HR'|]. split; [exact (Hget "current_page") | exact Hpage].
Defined.

(** ** [clear_cache(variables=...)] *)

(** The inner loop on an entry that is a dictionary: the variables are
    removed from it one after the other. *)
Lemma del_variables_dict vars ns (h : heap) r R l d :
  h !! r = Some R →
  dict_get ns (items R) = Some (VRef l) →
  l ≠ r →
  h !! l = Some d →
  StateManager.del_variables ns vars (VRef r) h
  = Ok (<[l := Dict (dflt d)
                 (fold_left (fun acc v => dict_remove v acc) vars (items d))]> h).
Proof.
  revert h d. induction vars as [|v vars IH]; intros h d HR Hns Hl Hd; simpl.
  - by rewrite dict_eta, list_insert_id.
  - unfold StateManager.del_variable.
    rewrite (py_getitem_present h r R ns (VRef l)) by done.
    rewrite (py_delitem_except h l d v Hd). simpl.
    assert (l < length h) as Hlt by (by eapply lookup_lt_Some).
    rewrite (IH _ (Dict (dflt d) (dict_remove v (items d)))); try done.
    + simpl. by rewrite list_insert_insert_eq.
    + by rewrite list_lookup_insert_ne.
    + by rewrite list_lookup_insert_eq.
Qed.

(** The inner loop on an entry that is a scalar. *)
Lemma del_variables_scalar v vars ns (h : heap) r R x :
  h !! r = Some R →
  dict_get ns (items R) = Some x →
  is_scalar x = true →
  StateManager.del_variables ns (v :: vars) (VRef r) h = Raise TypeError.
Proof.
  intros HR Hns Hx. simpl. unfold StateManager.del_variable.
  rewrite (py_getitem_present h r R ns x) by done.
  unfold py_delitem. by destruct x.
Qed.

Lemma remove_all_get vars it :
  unique_keys it = true →
  unique_keys (fold_left (fun acc v => dict_remove v acc) vars it) = true
  ∧ ∀ k, dict_get k (fold_left (fun acc v => dict_remove v acc) vars it)
         = if decide (k ∈ vars) then None else dict_get k it.
Proof.
  revert it. induction vars as [|v vars IH]; intros it Hu; simpl.
  - by split.
  - destruct (IH (dict_remove v it)) as [Hu' Hget];
      [by apply unique_keys_remove|].
    split; [done|]. intros k. rewrite Hget, dict_get_remove by done.
    destruct (decide (k = v)) as [->|Hne].
    + rewrite (decide_True (P := v ∈ v :: vars)) by left. by case_decide.
    + destruct (decide (k ∈ vars)) as [Hin|Hnin].
      * by rewrite decide_True by (by right).
      * rewrite decide_False; [done|]. rewrite elem_of_cons. by intros [?|?].
Qed.

Lemma entries_ok_get (h : heap) r R k x :
  entries_ok h r R = true →
  dict_get k (items R) = Some x →
  is_scalar x = true ∨ ∃ l, x = VRef l ∧ l < length h ∧ l ≠ r.
Proof.
  intros Hok Hk. unfold entries_ok in Hok. rewrite forallb_forall in Hok.
  apply dict_get_Some_elem, list_elem_of_In, Hok in Hk. simpl in Hk.
  destruct x as [| | | |l]; try by left.
  right. exists l. apply andb_true_iff in Hk as [Hlt Hne].
  apply bool_decide_eq_true in Hlt.
  apply negb_true_iff, bool_decide_eq_false in Hne. done.
Qed.

Lemma dict_keys_get k it : k ∈ dict_keys it → is_Some (dict_get k it).
Proof.
  intros Hin. destruct (dict_get k it) eqn:Hk; [done|].
  by apply dict_get_None_keys in Hk.
Qed.

(** The loop over the entries stops with [TypeError] at the first
    scalar. *)
Lemma del_variables_everywhere_scalar v vars keys (h : heap) r R :
  h !! r = Some R →
  (∀ k, k ∈ keys → ∃ x, dict_get k (items R) = Some x
                        ∧ (is_scalar x = true
                           ∨ ∃ l, x = VRef l ∧ l < length h ∧ l ≠ r)) →
  (∃ k x, k ∈ keys ∧ dict_get k (items R) = Some x ∧ is_scalar x = true) →
  StateManager.del_variables_everywhere keys (v :: vars) (VRef r) h
  = Raise TypeError.
Proof.
  revert h. induction keys as [|key keys IH]; intros h HR Hall Hex.
  - destruct Hex as (k & x & Hin & _). by apply elem_of_nil in Hin.
  - cbn [StateManager.del_variables_everywhere].
    destruct (Hall key) as (x & Hkey & [Hx|(l & -> & Hlt & Hne)]); [left| |].
    + by rewrite (del_variables_scalar v vars key h r R x).
    + destruct (lookup_lt_is_Some_2 h l Hlt) as [d Hd].
      rewrite (del_variables_dict (v :: vars) key h r R l d) by done.
      cbn [mbind res_bind]. apply IH.
      * by rewrite list_lookup_insert_ne.
      * intros k Hk. rewrite length_insert. apply Hall. by right.
      * destruct Hex as (k & x & Hin & Hk & Hx). exists k, x.
        split; [|done]. apply elem_of_cons in Hin as [->|Hin]; [|done].
        rewrite Hkey in Hk. by injection Hk as <-.
Qed.

(** X20: [clear_cache(variables=...)] raises [TypeError] whenever [load]
    returns a mapping with a top-level entry that is no dictionary (as
    it does once a global variable such as the current page is stored):
    the loop takes every top-level key for a namespace and deletes the
    variables from its value.  Nothing is stored then. *)
Theorem clear_cache_variables_type_error hp v vars namespaces f
    (h : heap) r R k x :
  StateManager.load hp f = Ok (h, VRef r) →
  h !! r = Some R →
  entries_ok h r R = true →
  dict_get k (items R) = Some x →
  is_scalar x = true →
  StateManager.clear_cache hp (Some (v :: vars)) namespaces false f
  = Raise TypeError.
Proof.
  intros Hload HR Hok Hk Hx. unfold StateManager.clear_cache.
  rewrite Hload. simpl. rewrite andb_false_r.
  unfold py_keys. rewrite (heap_get_Some _ _ _ HR). cbn [mbind res_bind].
  rewrite (del_variables_everywhere_scalar v vars _ h r R); try done.
  - intros key [y Hy]%dict_keys_get. exists y. split; [done|].
    by eapply entries_ok_get.
  - exists k, x. split; [|done].
    apply dict_get_Some_elem in Hk. unfold dict_keys.
    apply list_elem_of_fmap. by exists (k, x).
Qed.

Lemma clear_cache_variables_type_error_witness :
  StateManager.clear_cache [] (Some ["token"]) None false example_cache
  = Raise TypeError.
Proof.
  apply (clear_cache_variables_type_error [] "token" [] None example_cache
           [Dict false [("current_page", VInt 1)];
            Dict false [("current_page", VInt 1)];
            Dict false [("username", VStr "u"); ("token", VStr "t")];
            Dict true [("session", VRef 2); ("global", VRef 1);
                       ("current_page", VInt 1)]] 3
           (Dict true [("session", VRef 2); ("global", VRef 1);
                       ("current_page", VInt 1)])
           "current_page" (VInt 1)); reflexivity.
Defined.

Lemma stripped_refl vars r (h : heap) : stripped vars r h h.
Proof.
  split; [done|]. split; [done|]. intros l d _ Hd Hu.
  exists d. repeat split; try done. by left.
Qed.

Lemma stripped_trans vars r (h1 h2 h3 : heap) :
  stripped vars r h1 h2 → stripped vars r h2 h3 → stripped vars r h1 h3.
Proof.
  intros (Hlen1 & Hr1 & H1) (Hlen2 & Hr2 & H2).
  split; [congruence|]. split; [congruence|]. intros l d Hl Hd Hu.
  destruct (H1 l d Hl Hd Hu) as (d' & Hd' & Hdflt' & Hu' & Hget').
  destruct (H2 l d' Hl Hd' Hu') as (d'' & Hd'' & Hdflt'' & Hu'' & Hget'').
  exists d''. split; [done|]. split; [congruence|]. split; [done|].
  intros k. destruct (Hget'' k) as [->|?]; [apply Hget'|by right].
Qed.

Lemma cleared_stripped vars r (h h' : heap) l :
  l ≠ r → stripped vars r h h' → cleared vars h l → cleared vars h' l.
Proof.
  intros Hl (_ & _ & Hs) (d & Hd & Hu & Hnone).
  destruct (Hs l d Hl Hd Hu) as (d' & Hd' & _ & Hu' & Hget).
  exists d'. split; [done|]. split; [done|]. intros k Hk.
  destruct (Hget k) as [->|[_ ?]]; [by apply Hnone|done].
Qed.

(** The inner loop on a dictionary that has each key once. *)
Lemma del_variables_stripped vars ns (h : heap) r R l d :
  h !! r = Some R →
  dict_get ns (items R) = Some (VRef l) →
  l ≠ r →
  h !! l = Some d →
  unique_keys (items d) = true →
  ∃ h', StateManager.del_variables ns vars (VRef r) h = Ok h'
        ∧ stripped vars r h h' ∧ cleared vars h' l.
Proof.
  intros HR Hns Hl Hd Hu.
  rewrite (del_variables_dict vars ns h r R l d) by done.
  destruct (remove_all_get vars (items d) Hu) as [Hu' Hget].
  assert (l < length h) as Hlt by (by eapply lookup_lt_Some).
  eexists. split; [done|]. split.
  - split; [by rewrite length_insert|].
    split; [by rewrite list_lookup_insert_ne|]. intros l' d' Hl' Hd' Hud'.
    destruct (decide (l' = l)) as [->|Hne].
    + rewrite Hd in Hd'. injection Hd' as <-.
      eexists. split; [by rewrite list_lookup_insert_eq|].
      split; [done|]. split; [done|]. intros k. simpl. rewrite Hget.
      case_decide; [by right|by left].
    + exists d'. rewrite list_lookup_insert_ne by done.
      repeat split; try done. by left.
  - eexists. split; [by rewrite list_lookup_insert_eq|]. split; [done|].
    intros k Hk. simpl. rewrite Hget. by rewrite decide_True.
Qed.

(** The loop over the entries when all of them are dictionaries. *)
Lemma del_variables_everywhere_stripped vars keys (h0 : heap) r R :
  (∀ k, k ∈ keys →
        ∃ l, dict_get k (items R) = Some (VRef l) ∧ l < length h0 ∧ l ≠ r) →
  ∀ h : heap,
    h !! r = Some R →
    length h = length h0 →
    (∀ l d, l ≠ r → h !! l = Some d → unique_keys (items d) = true) →
    ∃ h', StateManager.del_variables_everywhere keys vars (VRef r) h = Ok h'
          ∧ stripped vars r h h'
          ∧ ∀ k l, k ∈ keys → dict_get k (items R) = Some (VRef l) →
                   cleared vars h' l.
Proof.
  induction keys as [|key keys IH]; intros Hkeys h HR Hlen Hu.
  - exists h. split; [done|]. split; [apply stripped_refl|].
    intros k l Hin. by apply elem_of_nil in Hin.
  - cbn [StateManager.del_variables_everywhere].
    destruct (Hkeys key) as (l & Hkey & Hlt & Hne); [left|].
    destruct (lookup_lt_is_Some_2 h l) as [d Hd]; [lia|].
    destruct (del_variables_stripped vars key h r R l d)
      as (h1 & -> & Hs1 & Hc1); try done.
    { by eapply Hu. }
    cbn [mbind res_bind].
    pose proof Hs1 as (Hlen1 & Hr1 & Hd1).
    destruct (IH (fun k Hk => Hkeys k (proj2 (elem_of_cons _ _ _) (or_intror Hk)))
                 h1)
      as (h' & -> & Hs' & Hc').
    { by rewrite Hr1. }
    { congruence. }
    { intros l' d' Hl' Hd'.
      destruct (lookup_lt_is_Some_2 h l') as [d0 Hd0].
      { rewrite <- Hlen1. by eapply lookup_lt_Some. }
      destruct (Hd1 l' d0 Hl' Hd0) as (d'' & Hd'' & _ & Hu'' & _);
        [by eapply Hu|].
      rewrite Hd' in Hd''. by injection Hd'' as <-. }
    exists h'. split; [done|]. split; [by eapply stripped_trans|].
    intros k l' [->|Hin]%elem_of_cons Hk.
    + rewrite Hkey in Hk. injection Hk as <-.
      by eapply cleared_stripped.
    + by eapply Hc'.
Qed.

(** X21: when every top-level entry of what [load] returns is a
    dictionary, [clear_cache(variables=...)] stores a state in which no
    namespace has any of the variables: a variable that a namespace does
    not have is passed over, the mapping itself keeps its entries, and
    every dictionary keeps its other keys with their values. *)
Theorem clear_cache_variables_removes hp v vars namespaces f (h : heap) r R :
  StateManager.load hp f = Ok (h, VRef r) →
  h !! r = Some R →
  entries_ok h r R = true →
  no_scalar R = true →
  heap_unique h = true →
  ∃ h',
    StateManager.clear_cache hp (Some (v :: vars)) namespaces false f
    = Ok (Pickled h' (VRef r))
    ∧ h' !! r = Some R
    ∧ (∀ ns l, dict_get ns (items R) = Some (VRef l) →
         ∃ d', h' !! l = Some d'
               ∧ ∀ k, k ∈ v :: vars → dict_get k (items d') = None)
    ∧ (∀ l d, l ≠ r → h !! l = Some d →
         ∃ d', h' !! l = Some d' ∧ dflt d' = dflt d
               ∧ ∀ k, k ∉ v :: vars →
                      dict_get k (items d') = dict_get k (items d)).
Proof.
  intros Hload HR Hok Hdicts Hunique. unfold StateManager.clear_cache.
  rewrite Hload. simpl. rewrite andb_false_r.
  unfold py_keys. rewrite (heap_get_Some _ _ _ HR). cbn [mbind res_bind].
  assert (∀ l d, h !! l = Some d → unique_keys (items d) = true) as Hu.
  { intros l d Hd. unfold heap_unique in Hunique.
    rewrite forallb_forall in Hunique.
    apply (Hunique d), list_elem_of_In. by eapply list_elem_of_lookup_2. }
  destruct (del_variables_everywhere_stripped (v :: vars)
              (dict_keys (items R)) h r R) with (h := h)
    as (h' & -> & (Hlen & Hr & Hs) & Hc); try done.
  { intros k [x Hx]%dict_keys_get.
    destruct (entries_ok_get h r R k x Hok Hx) as [Hsc|(l & -> & ? & ?)].
    - unfold no_scalar in Hdicts. rewrite forallb_forall in Hdicts.
      apply dict_get_Some_elem, list_elem_of_In, Hdicts in Hx. simpl in Hx.
      by rewrite Hsc in Hx.
    - by exists l. }
  { intros l d _. apply Hu. }
  exists h'. split; [done|]. split; [by rewrite Hr|]. split.
  - intros ns l Hns.
    destruct (Hc ns l) as (d' & Hd' & _ & Hnone); [|done|by exists d'].
    apply dict_get_Some_elem in Hns. unfold dict_keys.
    apply list_elem_of_fmap. by exists (ns, VRef l).
  - intros l d Hl Hd.
    destruct (Hs l d Hl Hd) as (d' & Hd' & Hdflt & _ & Hget); [by eapply Hu|].
    exists d'. split; [done|]. split; [done|]. intros k Hk.
    by destruct (Hget k) as [->|[? _]].
Qed.

Lemma clear_cache_variables_removes_witness :
  ∃ h',
    StateManager.clear_cache [] (Some ["x"; "z"]) None false
      (Pickled [Dict false [("x", VInt 1); ("y", VInt 2)];
                Dict true [("a", VRef 0); ("b", VRef 0)]] (VRef 1))
    = Ok (Pickled h' (VRef 1))
    ∧ ∃ d', h' !! 0 = Some d' ∧ dict_get "x" (items d') = None.
Proof.
  destruct (clear_cache_variables_removes [] "x" ["z"] None
      (Pickled [Dict false [("x", VInt 1); ("y", VInt 2)];
                Dict true [("a", VRef 0); ("b", VRef 0)]] (VRef 1))
      [Dict false [("x", VInt 1); ("y", VInt 2)];
       Dict true [("a", VRef 0); ("b", VRef 0)]] 1
      (Dict true [("a", VRef 0); ("b", VRef 0)]))
    as (h' & Hrun & _ & Hnone & _); [reflexivity..|].
  exists h'. split; [exact Hrun|].
  destruct (Hnone "a" 0 eq_refl) as (d' & Hd' & Hget).
  exists d'. split; [exact Hd'|]. apply Hget, elem_of_cons. by left.
Defined.

(** ** Namespaces that share a dictionary *)




(** The copy of the global variables changes the mapping alone. *)
Lemma load_pickled_others fh r (h2 : heap) x l :
  StateManager.load [] (Pickled fh (VRef r)) = Ok (h2, x) →
  l ≠ r →
  h2 !! l = fh !! l.
Proof.
  simpl. rewrite shift_heap_0. unfold py_contains, py_getitem, py_update.
  destruct (heap_get fh r) as [R|] eqn:HR; simpl; [|done].
  destruct (dict_mem "global" (items R)) eqn:Hm; simpl.
  - apply dict_mem_true in Hm as [g Hg]. rewrite Hg. simpl. rewrite HR. simpl.
    destruct g as [| |z|s|g]; simpl; try done.
    + destruct (String.eqb s ""); simpl; [|done]. by intros [= <- _] _.
    + destruct (heap_get fh g) as [G|]; simpl; [|done].
      case_decide; simpl; [by intros [= <- _] _|].
      intros [= <- _] Hl. unfold heap_set_items.
      by rewrite list_lookup_insert_ne.
  - by intros [= <- _] _.
Qed.

(** X23: [save] changes nothing in a namespace that shares its
    dictionary with no listed namespace (so it is not listed itself) and
    whose name clashes with no global variable: the next [load] shows it
    bound to the dictionary it had, with the same items. *)
Theorem save_leaves_other_namespaces hp v vd nss f hv rv Rv other l d0 :
  hp !! v = Some vd →
  unique_keys (items vd) = true →
  items vd ≠ [] →
  StateManager.load [] f = Ok (hv, VRef rv) →
  hv !! rv = Some Rv →
  dict_or_absent hv (dict_get "global" (items Rv)) = true →
  forallb (namespace_ok hv (VRef rv)) nss = true →
  dict_get other (items Rv) = Some (VRef l) →
  l ≠ rv →
  hv !! l = Some d0 →
  (∀ ns, ns ∈ nss → dict_get ns (items Rv) ≠ Some (VRef l)) →
  no_clash (items vd) nss hv (VRef rv) other = true →
  ∃ f' h2 R2,
    StateManager.save hp (VRef v) (Some nss) f = Ok f'
    ∧ StateManager.load [] f' = Ok (h2, VRef (length hp + rv))
    ∧ h2 !! (length hp + rv) = Some R2
    ∧ dict_get other (items R2) = Some (VRef (length hp + l))
    ∧ h2 !! (length hp + l) = Some (shift_dict (length hp) d0).
Proof.
  intros Hv Hu Hne Hload HRv Hglob Hok Hother Hl Hd0 Halias Hclash.
  destruct (save_view hp v vd nss f hv rv Rv)
    as (h1 & h2 & R2 & Hsave & Hload2 & _ & _ & HR2 & _ & Hget2 & _);
    try done.
  assert (rv < length hv) as Hrv by (by eapply lookup_lt_Some).
  destruct (save_ok hp v vd nss f hv rv Hv Hu Hne Hload Hrv Hok)
    as (h1' & Hsave' & Hinv & _).
  rewrite Hsave in Hsave'. injection Hsave' as <-.
  exists (Pickled h1 (VRef (length hp + rv))), h2, R2.
  split; [done|]. split; [done|]. split; [done|]. split.
  - by rewrite (Hget2 other Hclash), Hother.
  - rewrite (load_pickled_others _ _ _ _ (length hp + l) Hload2) by lia.
    rewrite (inv_untouched _ _ _ _ _ _ _ Hinv) by
      first [lia
            | intros ns Hin He;
              change (VRef (length hp + rv))
                with (shift_value (length hp) (VRef rv)) in He;
              rewrite entry_relocate in He; unfold entry in He;
              simpl in He; rewrite HRv in He; simpl in He;
              destruct (dict_get ns (items Rv)) as [y|] eqn:Hy; [|done];
              simpl in He; injection He as He;
              apply shift_value_ref in He; subst y;
              by apply (Halias ns)].
    by rewrite lookup_relocate_heap, Hd0.
Qed.

Lemma save_leaves_other_namespaces_witness :
  ∃ f' h2 R2,
    StateManager.save [Dict false [("x", VInt 1)]] (VRef 0) (Some ["global"])
      example_cache = Ok f'
    ∧ StateManager.load [] f' = Ok (h2, VRef 4)
    ∧ h2 !! 4 = Some R2
    ∧ dict_get "session" (items R2) = Some (VRef 3)
    ∧ h2 !! 3 = Some (Dict false [("username", VStr "u"); ("token", VStr "t")]).
Proof.
  apply (save_leaves_other_namespaces
           [Dict false [("x", VInt 1)]] 0 (Dict false [("x", VInt 1)])
           ["global"] example_cache
           [Dict false [("current_page", VInt 1)];
            Dict false [("current_page", VInt 1)];
            Dict false [("username", VStr "u"); ("token", VStr "t")];
            Dict true [("session", VRef 2); ("global", VRef 1);
                       ("current_page", VInt 1)]] 3
           (Dict true [("session", VRef 2); ("global", VRef 1);
                       ("current_page", VInt 1)])
           "session" 2
           (Dict false [("username", VStr "u"); ("token", VStr "t")]));
    try done.
  intros ns [->|Hin]%elem_of_cons; [done|]. by apply elem_of_nil in Hin.
Defined.
